(** * ZEC-SMS: derived values, role scoping and model hooks

    A shallow embedding of the parts of the school-management backend that
    carry logic of their own: the Mongoose [pre('save')] hooks of ExamMark,
    FeePayment, Library, Message and Session, the attendance and notice list
    controllers, the library issue/return controllers and the pagination
    envelope shared by the list endpoints.

    Conventions.
    - A JavaScript [Number] is an IEEE-754 binary64 value: Rocq's primitive
      [float].  [a >= b] is [b <=? a], [a > b] is [b <? a]; [Math.round] and
      [Math.ceil] are defined on the exact value of the float.
    - An [ObjectId] is represented by its hexadecimal string, which is also
      what [toString()] returns and what arrives in [req.params]/[req.query].
    - A [Date] is its time value, an integer number of milliseconds.
    - A collection is a list of documents (natural order) when the code sorts
      or paginates it, and a [gmap] from [_id] when it is only read by id. *)

From Stdlib Require Import ZArith Floats Lia.
From stdpp Require Import base option list sorting gmap strings.

#[local] Open Scope Z_scope.

(** ** JavaScript values *)

Module JS.

Abbreviation Number := float.
Abbreviation ObjectId := string.
Abbreviation Date := Z.

(** [Number(z)] for an integer [z]: the nearest binary64 value. *)
Definition Number_of_Z (z : Z) : Number :=
  SF2Prim (binary_normalize prec emax z 0 false).

Definition Number_of_nat (n : nat) : Number := Number_of_Z (Z.of_nat n).

(** [a >= b], [a > b], [a <= b], [a < b] on Numbers (false on NaN). *)
Definition ge (a b : Number) : bool := (b <=? a)%float.
Definition gt (a b : Number) : bool := (b <? a)%float.
Definition le (a b : Number) : bool := (a <=? b)%float.
Definition lt (a b : Number) : bool := (a <? b)%float.

(** [Math.round(x)]: the integer nearest to [x], ties toward +infinity; NaN,
    the infinities and the zeros are returned as they are, and a result of
    zero keeps the sign of [x].  A finite [x] is exactly [n * 2^e]. *)
Definition Math_round (x : Number) : Number :=
  match Prim2SF x with
  | S754_finite s m e =>
      if 0 <=? e then x
      else
        let n := if s then Z.neg m else Z.pos m in
        let r := (2 * n + 2 ^ (- e)) / 2 ^ (- e + 1) in
        if r =? 0 then (if s then (-0)%float else 0%float) else Number_of_Z r
  | _ => x
  end.

(** [Math.ceil(x)]: the least integer not below [x]. *)
Definition Math_ceil (x : Number) : Number :=
  match Prim2SF x with
  | S754_finite s m e =>
      if 0 <=? e then x
      else
        let n := if s then Z.neg m else Z.pos m in
        let r := - ((- n) / 2 ^ (- e)) in
        if r =? 0 then (if s then (-0)%float else 0%float) else Number_of_Z r
  | _ => x
  end.

(** JavaScript truthiness of an optional string (a query or body field):
    [undefined] and the empty string are falsy. *)
Definition truthy (s : option string) : bool :=
  match s with
  | Some s => negb (String.eqb s "")
  | None => false
  end.

(** [a || b] on optional strings. *)
Definition or_else (a : option string) (b : string) : string :=
  match a with
  | Some s => if String.eqb s "" then b else s
  | None => b
  end.

End JS.

Import JS.

(** The outcome of a document [save()]: the stored document, or the error
    passed to [next] (or raised by a schema validator). *)
Inductive SaveResult (A : Type) : Type :=
  | Saved (doc : A)
  | SaveError (message : string).
Arguments Saved {A} doc.
Arguments SaveError {A} message.


(** ** ExamMark: models/ExamMark.js *)

Module ExamMark.

#[local] Open Scope float_scope.

(** The [grade] enum: 'A+', 'A', 'B+', 'B', 'C+', 'C', 'D+', 'D', 'F'. *)
Inductive Grade : Set :=
  | A_plus | A | B_plus | B | C_plus | C | D_plus | D | F.

Record t : Set := mk {
  student : ObjectId;
  exam : ObjectId;
  marksObtained : Number;
  totalMarks : Number;
  passingMarks : Number;
  grade : Grade;
  percentage : option Number;
  isPassed : bool;
  isAbsent : bool
}.

(** The schema's Number validators ([min]/[max]); a validator is skipped on
    a field that is not set.  Mongoose runs validation before any
    [pre('save')] hook of the schema. *)
Definition validate (m : t) : bool :=
  ge (marksObtained m) 0 && ge (totalMarks m) 1 && ge (passingMarks m) 1 &&
  match percentage m with
  | Some p => ge p 0 && le p 100
  | None => true
  end.

(** First hook: marks obtained may not exceed total marks.  Only the first
    call of [next] counts. *)
Definition pre_save_validate_marks (m : t) : SaveResult t :=
  if gt (marksObtained m) (totalMarks m)
  then SaveError "Marks obtained cannot be greater than total marks"
  else Saved m.

Definition calculateGrade (percentage : Number) : Grade :=
  if ge percentage 90 then A_plus
  else if ge percentage 80 then A
  else if ge percentage 70 then B_plus
  else if ge percentage 60 then B
  else if ge percentage 50 then C_plus
  else if ge percentage 40 then C
  else if ge percentage 35 then D_plus
  else if ge percentage 30 then D
  else F.

(** Second hook: percentage, grade and pass status. *)
Definition pre_save_calculate (m : t) : t :=
  if isAbsent m then
    {| student := student m; exam := exam m;
       marksObtained := 0;
       totalMarks := totalMarks m; passingMarks := passingMarks m;
       grade := F;
       percentage := Some 0;
       isPassed := false;
       isAbsent := isAbsent m |}
  else
    let percentage' := Math_round ((marksObtained m / totalMarks m) * 100) in
    {| student := student m; exam := exam m;
       marksObtained := marksObtained m;
       totalMarks := totalMarks m; passingMarks := passingMarks m;
       grade := calculateGrade percentage';
       percentage := Some percentage';
       isPassed := ge (marksObtained m) (passingMarks m);
       isAbsent := isAbsent m |}.

(** [doc.save()]: validation, then the two hooks in registration order. *)
Definition save (m : t) : SaveResult t :=
  if validate m then
    match pre_save_validate_marks m with
    | Saved m1 => Saved (pre_save_calculate m1)
    | SaveError e => SaveError e
    end
  else SaveError "ValidationError".

(** The threshold table of the specification, highest threshold first. *)
Definition grade_thresholds : list (Number * Grade) :=
  [ (90, A_plus); (80, A); (70, B_plus); (60, B);
    (50, C_plus); (40, C); (35, D_plus); (30, D) ].

(** The grade the table assigns: that of the first threshold the percentage
    reaches, and 'F' when it reaches none. *)
Definition grade_of_table (percentage : Number) : Grade :=
  match List.find (fun tg => ge percentage (fst tg)) grade_thresholds with
  | Some tg => snd tg
  | None => F
  end.

End ExamMark.

(** ** HTTP responses and the pagination envelope *)

(** What a controller sends: [res.json(data)] (status 200 unless set), or an
    error status with its message. *)
Inductive Response (A : Type) : Type :=
  | Success (status : nat) (data : A)
  | Failure (status : nat) (message : string).
Arguments Success {A} status data.
Arguments Failure {A} status message.

Module Pagination.

#[local] Open Scope float_scope.

(** A numeric query parameter ([page], [limit]): absent, or a string of
    decimal digits, represented by the integer it denotes.  On such strings
    [parseInt(s)] and the numeric coercion of [s] agree. *)
Definition QueryInt := option Z.

Definition default (d : Z) (q : QueryInt) : Z :=
  match q with Some z => z | None => d end.

(** The envelope; a field a controller does not emit is [None]. *)
Record t : Set := mk {
  current : Number;
  pages : Number;
  total : nat;
  hasNext : option bool;
  hasPrev : option bool;
  limit : option Number
}.

(** The block shared by the attendance, fee-structure, fee-payment, exam,
    subject, teacher, library and notice list controllers:
    [{ current: parseInt(page), pages: Math.ceil(total / limit), total,
       hasNext: page < Math.ceil(total / limit), hasPrev: page > 1 }]
    with [const { page = 1, limit = 10 } = req.query].  (The message lists
    have the same block with [limit = 20].) *)
Definition envelope (page limit : QueryInt) (total : nat) : t :=
  let page := default 1 page in
  let limit := default 10 limit in
  {| current := Number_of_Z page;
     pages := Math_ceil (Number_of_nat total / Number_of_Z limit);
     total := total;
     hasNext := Some (lt (Number_of_Z page)
                         (Math_ceil (Number_of_nat total / Number_of_Z limit)));
     hasPrev := Some (gt (Number_of_Z page) 1);
     limit := None |}.


(** [getUsers]:
    [{ current: parseInt(page), pages: Math.ceil(total / parseInt(limit)),
       total, limit: parseInt(limit) }]. *)
Definition envelope_users (page limit : QueryInt) (total : nat) : t :=
  let page := default 1 page in
  let limit := default 10 limit in
  {| current := Number_of_Z page;
     pages := Math_ceil (Number_of_nat total / Number_of_Z limit);
     total := total;
     hasNext := None;
     hasPrev := None;
     limit := Some (Number_of_Z limit) |}.

(** A cursor's [.skip(skip).limit(limit)] on the sorted matches.  The
    server refuses a negative skip; a limit of 0 is no limit, and the driver
    sends a negative limit as its absolute value. *)
Definition cursor {A : Type} (skip limit : Z) (docs : list A) : option (list A) :=
  if (skip <? 0)%Z then None
  else if (limit =? 0)%Z then Some (drop (Z.to_nat skip) docs)
  else Some (take (Z.to_nat (Z.abs limit)) (drop (Z.to_nat skip) docs)).


End Pagination.

(** ** The list controllers of exams, fees, subjects, teachers and books *)

Module ListControllers.

Section Respond.

Context {A : Type}.

(** The part that these controllers share with [getAttendance]:
    [Model.find(query)....sort(sort).limit(limit * 1).skip((page - 1) * limit)],
    [Model.countDocuments(query)] and the response, with
    [const { page = 1, limit = 10, ... } = req.query], inside
    [try { ... } catch].  The query and the sort of a controller are not
    modelled: [found] is what [Model.find(query).sort(sort)] selects from
    the collection before [limit] and [skip], or [None] when building or
    running the query throws (a parameter that cannot be cast to the type
    of its field). *)
Definition respond (error : string) (found : option (list A))
    (page limit : Pagination.QueryInt)
  : Response (list A * Pagination.t) :=
  match found with
  | Some matches =>
      let page' := Pagination.default 1 page in
      let limit' := Pagination.default 10 limit in
      match Pagination.cursor ((page' - 1) * limit') limit' matches with
      | Some docs =>
          Success 200 (docs, Pagination.envelope page limit (length matches))
      | None => Failure 500 error
      end
  | None => Failure 500 error
  end.

(** [getExams] (controllers/examsController.js). *)
Definition getExams := respond "Server error while fetching exams".






End Respond.

End ListControllers.

(** ** FeePayment: models/FeePayment.js *)

Module FeePayment.

#[local] Open Scope float_scope.

(** The [status] enum of the schema. *)
Inductive Status : Set := Paid | Partial | Pending | Overdue | Cancelled.

Record t : Set := mk {
  student : ObjectId;
  feeType : ObjectId;
  month : option Number;
  dueAmount : Number;
  paidAmount : Number;
  lateFee : Number;
  discount : Number;
  totalAmount : Number;
  dueDate : option Date;
  receiptNumber : option string;
  status : Status
}.

(** The schema's Number validators, run before the [pre('save')] hook. *)
Definition validate (p : t) : bool :=
  match month p with
  | Some m => ge m 1 && le m 12
  | None => true
  end &&
  ge (dueAmount p) 0 && ge (paidAmount p) 0 && ge (lateFee p) 0 &&
  ge (discount p) 0 && ge (totalAmount p) 0.

(** [this.dueDate && new Date() > this.dueDate]. *)
Definition past_due (now : Date) (dueDate : option Date) : bool :=
  match dueDate with
  | Some d => (d <? now)%Z
  | None => false
  end.

(** The status branch shared by the hook and the [paymentStatus] virtual. *)
Definition status_of (now : Date) (p : t) : Status :=
  if ge (paidAmount p) (dueAmount p) then Paid
  else if gt (paidAmount p) 0 then Partial
  else if past_due now (dueDate p) then Overdue
  else Pending.

(** The [paymentStatus] virtual, read at time [now]. *)
Definition paymentStatus (now : Date) (p : t) : Status := status_of now p.

(** The [pre('save')] hook at time [now].  [generated] is the receipt number
    the hook builds when the document has none ('RCP', year, month and the
    next 4-digit sequence number of the month). *)
Definition pre_save (generated : string) (now : Date) (p : t) : t :=
  {| student := student p; feeType := feeType p; month := month p;
     dueAmount := dueAmount p; paidAmount := paidAmount p;
     lateFee := lateFee p; discount := discount p;
     totalAmount := paidAmount p + lateFee p - discount p;
     dueDate := dueDate p;
     receiptNumber :=
       if truthy (receiptNumber p) then receiptNumber p else Some generated;
     status := status_of now p |}.

(** [doc.save()]: validation, then the hook. *)
Definition save (generated : string) (now : Date) (p : t) : SaveResult t :=
  if validate p then Saved (pre_save generated now p)
  else SaveError "ValidationError".

(** The status rule in the words of the specification. *)
Definition spec_status (now : Date) (p : t) : Status :=
  if ge (paidAmount p) (dueAmount p) then Paid
  else if lt 0 (paidAmount p) && lt (paidAmount p) (dueAmount p) then Partial
  else if (paidAmount p =? 0) && past_due now (dueDate p) then Overdue
  else Pending.

End FeePayment.

(** ** Principals, students and teachers *)

(** [req.user]: the authenticated principal. *)
Record User : Set := mkUser {
  user_id : ObjectId;
  role : string
}.

Module Student.

Record t : Set := mk {
  _id : ObjectId;
  user : ObjectId;
  parent : option ObjectId;
  class : option ObjectId
}.

(** [Student.findOne({ user: userId })]. *)
Definition findOne_user (students : list t) (userId : ObjectId) : option t :=
  List.find (fun s => String.eqb (user s) userId) students.

(** [Student.find({ parent: userId })]. *)
Definition find_parent (students : list t) (userId : ObjectId) : list t :=
  List.filter (fun s => bool_decide (parent s = Some userId)) students.

(** [Student.findOne({ _id: studentId, parent: userId })]. *)
Definition findOne_id_parent (students : list t) (studentId userId : ObjectId)
  : option t :=
  List.find (fun s => String.eqb (_id s) studentId &&
                      bool_decide (parent s = Some userId)) students.

End Student.

Module Teacher.

Record t : Set := mk {
  user : ObjectId;
  assignedClasses : list ObjectId   (* the [class] of each assignment *)
}.

Definition findOne_user (teachers : list t) (userId : ObjectId) : option t :=
  List.find (fun s => String.eqb (user s) userId) teachers.

End Teacher.

(** ** Attendance: the model and controllers/attendanceController.js *)

Module Attendance.

(** The [status] enum: 'Present', 'Absent', 'Late', 'Excused'. *)
Inductive Status : Set := Present | Absent | Late | Excused.

#[global] Instance Status_eq_dec : EqDecision Status.
Proof. solve_decision. Defined.

Definition Status_to_string (s : Status) : string :=
  match s with
  | Present => "Present" | Absent => "Absent"
  | Late => "Late" | Excused => "Excused"
  end.

Record t : Set := mk {
  _id : ObjectId;
  student : ObjectId;
  class : ObjectId;
  section : option ObjectId;
  subject : option ObjectId;
  date : Date;
  createdAt : Date;
  status : Status
}.

End Attendance.

Module AttendanceController.

(** An equality or [$in] condition on an id field. *)
Inductive Cond : Set :=
  | Is (v : ObjectId)
  | In (vs : list ObjectId).

(** [{ $gte: a, $lt: b }] and [{ $gte: a, $lte: b }]. *)
Inductive DateCond : Set :=
  | GteLt (a b : Date)
  | GteLte (a b : Date).

(** The MongoDB filter the controller builds: an absent field does not
    constrain; the fields present are a conjunction. *)
Record Query : Set := mkQuery {
  student : option Cond;
  class : option Cond;
  section : option ObjectId;
  subject : option ObjectId;
  status : option string;
  date : option DateCond
}.

Definition empty : Query :=
  {| student := None; class := None; section := None; subject := None;
     status := None; date := None |}.

Definition holds_cond (c : option Cond) (v : ObjectId) : bool :=
  match c with
  | None => true
  | Some (Is x) => String.eqb v x
  | Some (In xs) => bool_decide (v ∈ xs)
  end.

Definition holds_opt (c : option ObjectId) (v : option ObjectId) : bool :=
  match c with
  | None => true
  | Some x => bool_decide (v = Some x)
  end.

Definition holds_date (c : option DateCond) (d : Date) : bool :=
  match c with
  | None => true
  | Some (GteLt a b) => (a <=? d) && (d <? b)
  | Some (GteLte a b) => (a <=? d) && (d <=? b)
  end.

Definition matches (q : Query) (r : Attendance.t) : bool :=
  holds_cond (student q) (Attendance.student r) &&
  holds_cond (class q) (Attendance.class r) &&
  holds_opt (section q) (Attendance.section r) &&
  holds_opt (subject q) (Attendance.subject r) &&
  match status q with
  | None => true
  | Some s => String.eqb (Attendance.Status_to_string (Attendance.status r)) s
  end &&
  holds_date (date q) (Attendance.date r).

(** [Attendance.find(query)] and [Attendance.countDocuments(query)]. *)
Definition find (q : Query) (store : list Attendance.t) : list Attendance.t :=
  List.filter (matches q) store.

Definition countDocuments (q : Query) (store : list Attendance.t) : nat :=
  length (find q store).

(** [.sort({ date: -1, createdAt: -1 })]: [a] may come before [b]. *)
Definition newest_first (a b : Attendance.t) : Prop :=
  Attendance.date b < Attendance.date a ∨
  (Attendance.date b = Attendance.date a ∧
   Attendance.createdAt b <= Attendance.createdAt a).

#[global] Instance newest_first_dec : RelDecision newest_first.
Proof. intros a b. unfold newest_first. apply _. Defined.

(** [.sort({ date: 1 })]. *)
Definition oldest_first (a b : Attendance.t) : Prop :=
  Attendance.date a <= Attendance.date b.

#[global] Instance oldest_first_dec : RelDecision oldest_first.
Proof. intros a b. unfold oldest_first. apply _. Defined.

(** [req.query] of [GET /api/attendance]; the date parameters are given by
    the time value they parse to. *)
Record Req : Set := mkReq {
  page : Pagination.QueryInt;
  limit : Pagination.QueryInt;
  classId : option string;
  sectionId : option string;
  studentId : option string;
  subjectId : option string;
  q_date : option Date;
  startDate : option Date;
  endDate : option Date;
  q_status : option string
}.

Definition day_ms : Z := 86400000.

(** "Role-based filtering": the query the role starts from. *)
Definition role_filter (students : list Student.t) (teachers : list Teacher.t)
    (user : User) : Query :=
  if String.eqb (role user) "Student" then
    match Student.findOne_user students (user_id user) with
    | Some s =>
        {| student := Some (Is (Student._id s)); class := None; section := None;
           subject := None; status := None; date := None |}
    | None => empty
    end
  else if String.eqb (role user) "Parent" then
    match Student.find_parent students (user_id user) with
    | [] => empty
    | children =>
        {| student := Some (In (map Student._id children)); class := None;
           section := None; subject := None; status := None; date := None |}
    end
  else if String.eqb (role user) "Teacher" then
    match Teacher.findOne_user teachers (user_id user) with
    | Some t =>
        {| student := None; class := Some (In (Teacher.assignedClasses t));
           section := None; subject := None; status := None; date := None |}
    | None => empty
    end
  else empty.

(** "Apply filters" and "Date filtering": each caller filter that is given
    is assigned to its field of the query. *)
Definition apply_filters (req : Req) (q : Query) : Query :=
  {| class := if truthy (classId req) then Is <$> classId req else class q;
     section := if truthy (sectionId req) then sectionId req else section q;
     student := if truthy (studentId req) then Is <$> studentId req else student q;
     subject := if truthy (subjectId req) then subjectId req else subject q;
     status := if truthy (q_status req) then q_status req else status q;
     date :=
       match q_date req, startDate req, endDate req with
       | Some d, _, _ => Some (GteLt d (d + day_ms))
       | None, Some a, Some b => Some (GteLte a b)
       | _, _, _ => date q
       end |}.

Definition build_query (students : list Student.t) (teachers : list Teacher.t)
    (user : User) (req : Req) : Query :=
  apply_filters req (role_filter students teachers user).

(** [getAttendance]: the page of records and the pagination envelope. *)
Definition getAttendance (students : list Student.t) (teachers : list Teacher.t)
    (store : list Attendance.t) (user : User) (req : Req)
  : Response (list Attendance.t * Pagination.t) :=
  let query := build_query students teachers user req in
  let page' := Pagination.default 1 (page req) in
  let limit' := Pagination.default 10 (limit req) in
  match Pagination.cursor ((page' - 1) * limit') limit'
          (merge_sort newest_first (find query store)) with
  | Some attendance =>
      Success 200
        (attendance,
         Pagination.envelope (page req) (limit req) (countDocuments query store))
  | None => Failure 500 "Server error while fetching attendance"
  end.

(** The [summary] object of [getStudentAttendanceSummary]. *)
Record Summary : Set := mkSummary {
  totalDays : nat;
  presentDays : nat;
  absentDays : nat;
  lateDays : nat;
  excusedDays : nat;
  attendancePercentage : Number
}.

Definition count_status (s : Attendance.Status) (records : list Attendance.t)
  : nat :=
  length (List.filter
            (fun r => bool_decide (Attendance.status r = s)) records).

Definition summarize (records : list Attendance.t) : Summary :=
  let totalDays := length records in
  let presentDays := count_status Attendance.Present records in
  let absentDays := count_status Attendance.Absent records in
  let lateDays := count_status Attendance.Late records in
  let excusedDays := count_status Attendance.Excused records in
  {| totalDays := totalDays;
     presentDays := presentDays;
     absentDays := absentDays;
     lateDays := lateDays;
     excusedDays := excusedDays;
     attendancePercentage :=
       if (0 <? totalDays)%nat then
         Math_round
           (((Number_of_nat presentDays + Number_of_nat lateDays
              + Number_of_nat excusedDays) / Number_of_nat totalDays) * 100)%float
       else 0%float |}.

(** [getStudentAttendanceSummary]: [studentId] is the route parameter; the
    response carries the summary and the records (the per-subject breakdown
    of the response is not part of this model). *)
Definition getStudentAttendanceSummary (students : list Student.t)
    (store : list Attendance.t) (user : User) (studentId : ObjectId)
    (startDate endDate : option Date) (subject : option string)
  : Response (Summary * list Attendance.t) :=
  let denied :=
    if String.eqb (role user) "Student" then
      match Student.findOne_user students (user_id user) with
      | Some s => negb (String.eqb (Student._id s) studentId)
      | None => true
      end
    else if String.eqb (role user) "Parent" then
      match Student.findOne_id_parent students studentId (user_id user) with
      | Some _ => false
      | None => true
      end
    else false in
  if denied then
    Failure 403
      (if String.eqb (role user) "Student"
       then "Access denied. You can only view your own attendance."
       else "Access denied. You can only view your child's attendance.")
  else
    let query :=
      {| student := Some (Is studentId); class := None; section := None;
         subject := if truthy subject then subject else None;
         status := None;
         date := match startDate, endDate with
                 | Some a, Some b => Some (GteLte a b)
                 | _, _ => None
                 end |} in
    let attendanceRecords :=
      merge_sort oldest_first (find query store) in
    Success 200 (summarize attendanceRecords, attendanceRecords).

(** The records of one student. *)
Definition records_of (store : list Attendance.t) (studentId : ObjectId)
  : list Attendance.t :=
  List.filter (fun r => String.eqb (Attendance.student r) studentId) store.

(** [calculateStudentAttendance] of the dashboard controller. *)
Definition calculateStudentAttendance (store : list Attendance.t)
    (studentId : ObjectId) : Number :=
  let totalRecords :=
    countDocuments
      {| student := Some (Is studentId); class := None; section := None;
         subject := None; status := None; date := None |} store in
  if (totalRecords =? 0)%nat then 0%float
  else
    let presentRecords :=
      countDocuments
        {| student := Some (Is studentId); class := None; section := None;
           subject := None; status := Some "Present"; date := None |} store in
    Math_round ((Number_of_nat presentRecords / Number_of_nat totalRecords) * 100)%float.

End AttendanceController.

(** ** Notice: the model (getForUser, getPinned) and the list controller *)

Module Notice.

Record t : Set := mk {
  _id : ObjectId;
  category : string;
  priority : string;
  targetAudience : list string;
  targetClasses : list ObjectId;
  publishDate : Date;
  expiryDate : option Date;      (* [None]: the field is missing or null *)
  isPublished : bool;
  isPinned : bool;
  isActive : bool
}.

(** [$or: [{expiryDate: {$exists: false}}, {expiryDate: null},
           {expiryDate: {$gt: now}}]]. *)
Definition unexpired (now : Date) (n : t) : bool :=
  match expiryDate n with
  | None => true
  | Some e => now <? e
  end.

(** [$or: [{targetAudience: 'All'}, {targetAudience: userRole}]]: the array
    holds the string. *)
Definition for_audience (userRole : string) (n : t) : bool :=
  bool_decide ("All" ∈ targetAudience n) ||
  bool_decide (userRole ∈ targetAudience n).

(** [$or: [{targetClasses: {$size: 0}}, {targetClasses: {$in: userClasses}}]],
    pushed only when [userClasses] is not empty. *)
Definition for_classes (userClasses : list ObjectId) (n : t) : bool :=
  match userClasses with
  | [] => true
  | _ =>
      bool_decide (targetClasses n = []) ||
      existsb (fun c => bool_decide (c ∈ targetClasses n)) userClasses
  end.

(** The filter of [getForUser]. *)
Definition matches_for_user (now : Date) (userRole : string)
    (userClasses : list ObjectId) (includeExpired : bool) (n : t) : bool :=
  isPublished n && isActive n && (publishDate n <=? now) &&
  (includeExpired || unexpired now n) &&
  for_audience userRole n &&
  for_classes userClasses n.

(** [{ isPinned: -1, publishDate: -1 }]: [a] may come before [b]. *)
Definition pinned_first (a b : t) : Prop :=
  (isPinned a = true ∧ isPinned b = false) ∨
  (isPinned a = isPinned b ∧ publishDate b <= publishDate a).

#[global] Instance pinned_first_dec : RelDecision pinned_first.
Proof. intros a b. unfold pinned_first. apply _. Defined.

(** [{ publishDate: -1 }]. *)
Definition latest_first (a b : t) : Prop := publishDate b <= publishDate a.

#[global] Instance latest_first_dec : RelDecision latest_first.
Proof. intros a b. unfold latest_first. apply _. Defined.

(** The matches of [getForUser] in sort order, before [limit] and [skip]. *)
Definition for_user_sorted (now : Date) (store : list t) (userRole : string)
    (userClasses : list ObjectId) (includeExpired : bool) : list t :=
  merge_sort pinned_first
    (List.filter (matches_for_user now userRole userClasses includeExpired) store).

(** [Notice.getForUser(userRole, userClasses, options)] with
    [.limit(options.limit || 50).skip(options.skip || 0)]. *)
Definition getForUser (now : Date) (store : list t) (userRole : string)
    (userClasses : list ObjectId) (opt_limit opt_skip : Z)
    (includeExpired : bool) : option (list t) :=
  Pagination.cursor opt_skip (if opt_limit =? 0 then 50 else opt_limit)
    (for_user_sorted now store userRole userClasses includeExpired).

(** [Notice.getPinned()]. *)
Definition getPinned (now : Date) (store : list t) : list t :=
  merge_sort latest_first
    (List.filter
       (fun n => isPinned n && isPublished n && isActive n && unexpired now n)
       store).

End Notice.

Module NoticesController.

(** [req.query] of [GET /api/notices]. *)
Record Req : Set := mkReq {
  page : Pagination.QueryInt;
  limit : Pagination.QueryInt;
  category : option string;
  priority : option string;
  targetAudience : option string;
  includeExpired : option string;
  pinnedOnly : option string
}.

Definition is_true_string (s : option string) : bool :=
  bool_decide (s = Some "true").

(** The class of a Student principal: [Student.findOne({ user }).populate
    ('class')], kept when the student and the populated class exist;
    [classes] are the ids of the Class collection. *)
Definition userClasses (students : list Student.t) (classes : list ObjectId)
    (user : User) : list ObjectId :=
  if String.eqb (role user) "Student" then
    match Student.findOne_user students (user_id user) with
    | Some s =>
        match Student.class s with
        | Some c => if bool_decide (c ∈ classes) then [c] else []
        | None => []
        end
    | None => []
    end
  else [].

(** The second query of the controller, which only feeds [total]. *)
Definition count_matches (now : Date) (user : User)
    (userClasses : list ObjectId) (req : Req) (n : Notice.t) : bool :=
  Notice.isPublished n && Notice.isActive n && (Notice.publishDate n <=? now) &&
  (is_true_string (includeExpired req) || Notice.unexpired now n) &&
  (if truthy (category req)
   then bool_decide (Some (Notice.category n) = category req) else true) &&
  (if truthy (priority req)
   then bool_decide (Some (Notice.priority n) = priority req) else true) &&
  (match targetAudience req with
   | Some a => if String.eqb a "" then true
               else bool_decide (a ∈ Notice.targetAudience n)
   | None => true
   end) &&
  Notice.for_audience (role user) n &&
  Notice.for_classes userClasses n.

(** [getNotices]. *)
Definition getNotices (students : list Student.t) (classes : list ObjectId)
    (store : list Notice.t) (now : Date) (user : User) (req : Req)
  : Response (list Notice.t * Pagination.t) :=
  let userClasses := userClasses students classes user in
  if is_true_string (pinnedOnly req) then
    let notices := Notice.getPinned now store in
    Success 200
      (notices, Pagination.envelope (page req) (limit req) (length notices))
  else
    let page' := Pagination.default 1 (page req) in
    let limit' := Pagination.default 10 (limit req) in
    match Notice.getForUser now store (role user) userClasses
            limit' ((page' - 1) * limit')
            (is_true_string (includeExpired req)) with
    | Some notices =>
        let total :=
          length (List.filter (count_matches now user userClasses req) store) in
        Success 200 (notices, Pagination.envelope (page req) (limit req) total)
    | None => Failure 500 "Server error while fetching notices"
    end.

(** The filter of [getForUser] as a proposition, for a principal of role
    [userRole] whose classes are [classes] (the class of a Student
    principal, none for the other roles): the audience holds 'All' or the
    string of the role. *)
Definition visible (now : Date) (userRole : string)
    (classes : list ObjectId) (includeExpired : bool) (n : Notice.t) : Prop :=
  Notice.isPublished n = true ∧
  Notice.isActive n = true ∧
  Notice.publishDate n <= now ∧
  (includeExpired = true ∨ Notice.expiryDate n = None ∨
   ∃ e, Notice.expiryDate n = Some e ∧ now < e) ∧
  ("All" ∈ Notice.targetAudience n ∨ userRole ∈ Notice.targetAudience n) ∧
  (classes ≠ [] →
   Notice.targetClasses n = [] ∨
   ∃ c, c ∈ classes ∧ c ∈ Notice.targetClasses n).

(** The name of a role in the [targetAudience] enum of the schema
    (['All', 'Students', 'Teachers', 'Parents', 'Admin']). *)
Definition audience_of_role (userRole : string) : string :=
  if String.eqb userRole "Student" then "Students"
  else if String.eqb userRole "Teacher" then "Teachers"
  else if String.eqb userRole "Parent" then "Parents"
  else userRole.



(** The audience names the role of the principal in the spelling of the
    enum only, and does not hold 'All'. *)
Definition in_plural_only (userRole : string) (n : Notice.t) : Prop :=
  ("All" ∉ Notice.targetAudience n) ∧
  (userRole ∉ Notice.targetAudience n) ∧
  audience_of_role userRole ∈ Notice.targetAudience n.

#[global] Instance in_plural_only_dec userRole n :
  Decision (in_plural_only userRole n).
Proof. unfold in_plural_only. apply _. Defined.


End NoticesController.

(** ** Library: models/Library.js and the issue/return controllers *)

Module Library.

#[local] Open Scope float_scope.

Record t : Set := mk {
  title : string;
  totalCopies : Number;
  availableCopies : Number;
  isActive : bool
}.

(** Schema validators: [totalCopies] at least 1, [availableCopies] not
    negative. *)
Definition validate (b : t) : bool :=
  ge (totalCopies b) 1 && ge (availableCopies b) 0.

(** The [pre('save')] hook: available copies may not exceed total copies. *)
Definition pre_save (b : t) : SaveResult t :=
  if gt (availableCopies b) (totalCopies b)
  then SaveError "Available copies cannot exceed total copies"
  else Saved b.

Definition save (b : t) : SaveResult t :=
  if validate b then pre_save b else SaveError "ValidationError".

(** The collection, by [_id]. *)
Abbreviation Store := (gmap ObjectId t).

Definition with_available (b : t) (n : Number) : t :=
  {| title := title b; totalCopies := totalCopies b;
     availableCopies := n; isActive := isActive b |}.

(** [issueBook]: the response and the collection afterwards. *)
Definition issueBook (store : Store) (id : ObjectId) : Response t * Store :=
  match store !! id with
  | None => (Failure 404 "Book not found", store)
  | Some book =>
      if le (availableCopies book) 0
      then (Failure 400 "No copies available for issue", store)
      else
        match save (with_available book (availableCopies book - 1)) with
        | Saved book' => (Success 200 book', <[id := book']> store)
        | SaveError _ => (Failure 500 "Server error while issuing book", store)
        end
  end.

(** [returnBook]. *)
Definition returnBook (store : Store) (id : ObjectId) : Response t * Store :=
  match store !! id with
  | None => (Failure 404 "Book not found", store)
  | Some book =>
      if ge (availableCopies book) (totalCopies book)
      then (Failure 400 "All copies are already available", store)
      else
        match save (with_available book (availableCopies book + 1)) with
        | Saved book' => (Success 200 book', <[id := book']> store)
        | SaveError _ => (Failure 500 "Server error while returning book", store)
        end
  end.

(** [0 <= availableCopies <= totalCopies]. *)
Definition copies_ok (b : t) : Prop :=
  le 0 (availableCopies b) = true ∧ le (availableCopies b) (totalCopies b) = true.

Definition store_ok (store : Store) : Prop :=
  ∀ id b, store !! id = Some b → copies_ok b.

End Library.

(** ** Message: the model hook and the reply controller *)

Module Message.

Record t : Set := mk {
  sender : ObjectId;
  recipient : ObjectId;
  subject : string;
  message : string;
  priority : string;
  parentMessage : option ObjectId;
  threadId : option string
}.

(** The collection; the key of a document is its [_id]. *)
Abbreviation Store := (gmap ObjectId t).

Definition with_threadId (m : t) (thread : string) : t :=
  {| sender := sender m; recipient := recipient m;
     subject := subject m; message := message m; priority := priority m;
     parentMessage := parentMessage m; threadId := Some thread |}.

(** The [pre('save')] hook of the document [m] whose [_id] is [id].  A
    parent that [findById] does not find makes the [then] callback throw,
    and the error reaches [next]. *)
Definition pre_save (store : Store) (id : ObjectId) (m : t) : SaveResult t :=
  if truthy (threadId m) then Saved m
  else
    match parentMessage m with
    | Some p =>
        match store !! p with
        | Some parent => Saved (with_threadId m (or_else (threadId parent) p))
        | None => SaveError "TypeError"
        end
    | None => Saved (with_threadId m id)
    end.

(** [Message.create(doc)] with the new [_id] [id]: the hook, then the
    insert. *)
Definition create (store : Store) (id : ObjectId) (m : t)
  : SaveResult t * Store :=
  match pre_save store id m with
  | Saved m' => (Saved m', <[id := m']> store)
  | SaveError e => (SaveError e, store)
  end.

(** The validators of the reply route: a message of 1 to 2000 characters
    and, when given, a priority of the enum. *)
Definition reply_validation (body_message : string)
    (body_priority : option string) : bool :=
  negb (String.eqb body_message "") &&
  (String.length body_message <=? 2000)%nat &&
  match body_priority with
  | Some p => bool_decide (p ∈ ["Low"; "Normal"; "High"; "Urgent"])
  | None => true
  end.

(** [replyMessage]: [id] is the route parameter, [body_message] and
    [body_priority] the request body, [newId] the id of the new document. *)
Definition replyMessage (store : Store) (user : User) (id : ObjectId)
    (body_message : string) (body_priority : option string) (newId : ObjectId)
  : Response t * Store :=
  if negb (reply_validation body_message body_priority)
  then (Failure 400 "Validation failed", store)
  else
    match store !! id with
    | None => (Failure 404 "Original message not found", store)
    | Some originalMessage =>
        let userId := user_id user in
        let senderId := sender originalMessage in
        let recipientId := recipient originalMessage in
        if negb (String.eqb userId senderId) && negb (String.eqb userId recipientId)
        then (Failure 403 "Access denied", store)
        else
          let replyRecipient :=
            if String.eqb userId senderId then recipientId else senderId in
          match create store newId
                  {| sender := userId;
                     recipient := replyRecipient;
                     subject := "Re: " ++ subject originalMessage;
                     message := body_message;
                     priority := or_else body_priority "Normal";
                     parentMessage := Some id;
                     threadId := threadId originalMessage |} with
          | (Saved reply, store') => (Success 201 reply, store')
          | (SaveError _, store') =>
              (Failure 500 "Server error while sending reply", store')
          end
    end.

End Message.

(** ** Session: models/Session.js *)

Module Session.

Record t : Set := mk {
  name : string;
  startDate : Date;
  endDate : Date;
  isActive : bool
}.

(** The collection; the key of a document is its [_id]. *)
Abbreviation Store := (gmap ObjectId t).

Definition deactivate (s : t) : t :=
  {| name := name s; startDate := startDate s; endDate := endDate s;
     isActive := false |}.

(** [updateMany({ _id: { $ne: id } }, { isActive: false })]. *)
Definition deactivate_others (id : ObjectId) (store : Store) : Store :=
  map_imap (fun k s => Some (if decide (k = id) then s else deactivate s)) store.

(** [this.isModified('isActive')] for a document saved right after it was
    built or loaded: a new document that carries the field, or a stored
    one whose value was changed. *)
Definition isModified_isActive (store : Store) (id : ObjectId) (s : t) : bool :=
  match store !! id with
  | None => true
  | Some old => negb (Bool.eqb (isActive old) (isActive s))
  end.

(** First hook ("ensure only one active session at a time"): the
    collection it leaves. *)
Definition pre_save_activate (store : Store) (id : ObjectId) (s : t) : Store :=
  if isActive s && isModified_isActive store id s
  then deactivate_others id store
  else store.

(** [doc.save()] for the document [s] with [_id] [id]: the two hooks in
    registration order, then the write.  The first hook has written before
    the second one can reject. *)
Definition save (store : Store) (id : ObjectId) (s : t)
  : SaveResult t * Store :=
  let store1 := pre_save_activate store id s in
  if endDate s <=? startDate s
  then (SaveError "End date must be after start date", store1)
  else (Saved s, <[id := s]> store1).

(** At most one session is active. *)
Definition one_active (store : Store) : Prop :=
  ∀ i j x y, store !! i = Some x → store !! j = Some y →
             isActive x = true → isActive y = true → i = j.

(** Every stored session ends after it starts. *)
Definition dates_ok (store : Store) : Prop :=
  ∀ i x, store !! i = Some x → startDate x < endDate x.

(** The collections that saves produce from the empty one. *)
Inductive reachable : Store → Prop :=
  | reachable_empty : reachable ∅
  | reachable_save store id s :
      reachable store → reachable (save store id s).2.

End Session.

(** ** Sample data for the scenarios *)

Module Scenario.

(** Two students, each with a user account, in class c1. *)
Definition s1 : Student.t :=
  {| Student._id := "s1"; Student.user := "u1"; Student.parent := None;
     Student.class := Some "c1" |}.
Definition s2 : Student.t :=
  {| Student._id := "s2"; Student.user := "u2"; Student.parent := None;
     Student.class := Some "c1" |}.
Definition students : list Student.t := [s1; s2].

Definition student_u1 : User := {| user_id := "u1"; role := "Student" |}.
Definition admin : User := {| user_id := "u0"; role := "Admin" |}.

(** One attendance record of each student. *)
Definition a1 : Attendance.t :=
  {| Attendance._id := "a1"; Attendance.student := "s1";
     Attendance.class := "c1"; Attendance.section := None;
     Attendance.subject := None; Attendance.date := 1705276800000;
     Attendance.createdAt := 1705300000000;
     Attendance.status := Attendance.Present |}.
Definition a2 : Attendance.t :=
  {| Attendance._id := "a2"; Attendance.student := "s2";
     Attendance.class := "c1"; Attendance.section := None;
     Attendance.subject := None; Attendance.date := 1705276800000;
     Attendance.createdAt := 1705300000001;
     Attendance.status := Attendance.Late |}.
Definition attendance : list Attendance.t := [a1; a2].

(** [GET /api/attendance?student=s2]. *)
Definition req_student_s2 : AttendanceController.Req :=
  {| AttendanceController.page := None; AttendanceController.limit := None;
     AttendanceController.classId := None;
     AttendanceController.sectionId := None;
     AttendanceController.studentId := Some "s2";
     AttendanceController.subjectId := None;
     AttendanceController.q_date := None;
     AttendanceController.startDate := None;
     AttendanceController.endDate := None;
     AttendanceController.q_status := None |}.

(** A pinned notice for teachers only, and a notice for everybody. *)
Definition teachers_notice : Notice.t :=
  {| Notice._id := "n1"; Notice.category := "General";
     Notice.priority := "Normal"; Notice.targetAudience := ["Teachers"];
     Notice.targetClasses := []; Notice.publishDate := 1705000000000;
     Notice.expiryDate := None; Notice.isPublished := true;
     Notice.isPinned := true; Notice.isActive := true |}.
Definition general_notice : Notice.t :=
  {| Notice._id := "n2"; Notice.category := "General";
     Notice.priority := "Normal"; Notice.targetAudience := ["All"];
     Notice.targetClasses := []; Notice.publishDate := 1705100000000;
     Notice.expiryDate := None; Notice.isPublished := true;
     Notice.isPinned := false; Notice.isActive := true |}.
Definition notices : list Notice.t := [teachers_notice; general_notice].

(** A pinned notice for everybody. *)
Definition pinned_notice : Notice.t :=
  {| Notice._id := "n4"; Notice.category := "Event";
     Notice.priority := "High"; Notice.targetAudience := ["All"];
     Notice.targetClasses := []; Notice.publishDate := 1704000000000;
     Notice.expiryDate := None; Notice.isPublished := true;
     Notice.isPinned := true; Notice.isActive := true |}.

Definition now : Date := 1705400000000.

(** [GET /api/notices] and [GET /api/notices?pinnedOnly=true]. *)
Definition req_notices : NoticesController.Req :=
  {| NoticesController.page := None; NoticesController.limit := None;
     NoticesController.category := None; NoticesController.priority := None;
     NoticesController.targetAudience := None;
     NoticesController.includeExpired := None;
     NoticesController.pinnedOnly := None |}.

(** A book with five copies, one of them on the shelf. *)
Definition book : Library.t :=
  {| Library.title := "Algebra"; Library.totalCopies := 5%float;
     Library.availableCopies := 1%float; Library.isActive := true |}.
Definition books : gmap ObjectId Library.t := {[ "b1" := book ]}.

(** A message that opened its own thread. *)
Definition root_message : Message.t :=
  {| Message.sender := "u1"; Message.recipient := "u2";
     Message.subject := "Homework"; Message.message := "Please see me.";
     Message.priority := "Normal"; Message.parentMessage := None;
     Message.threadId := Some "m1" |}.
Definition messages : gmap ObjectId Message.t := {[ "m1" := root_message ]}.

(** Two academic years. *)
Definition year_2023 : Session.t :=
  {| Session.name := "2023-2024"; Session.startDate := 1693526400000;
     Session.endDate := 1719705600000; Session.isActive := true |}.
Definition year_2024 : Session.t :=
  {| Session.name := "2024-2025"; Session.startDate := 1725148800000;
     Session.endDate := 1751241600000; Session.isActive := true |}.

End Scenario.

(** * Further operations of the same files *)

From Stdlib Require Import Ascii DecimalString OrderedTypeEx.

(** ** Notices: virtuals, single-notice operations and the view log *)

Module NoticeOps.

(** The list of notices of a response of [getNotices], if it has one. *)
Definition notices_of (r : Response (list Notice.t * Pagination.t))
  : option (list Notice.t) :=
  match r with
  | Success _ (notices, _) => Some notices
  | Failure _ _ => None
  end.

Definition total_of (r : Response (list Notice.t * Pagination.t))
  : option nat :=
  match r with
  | Success _ (_, e) => Some (Pagination.total e)
  | Failure _ _ => None
  end.

(** The [isExpired] virtual, read at time [now]:
    [this.expiryDate && new Date() > this.expiryDate], as a truth value. *)
Definition isExpired (now : Date) (n : Notice.t) : bool :=
  match Notice.expiryDate n with
  | Some e => e <? now
  | None => false
  end.


(** [doc.save()] of a loaded notice: the stored document of that [_id] is
    replaced.  The Notice schema has no [pre('save')] hook. *)
Definition save (store : list Notice.t) (n : Notice.t) : list Notice.t :=
  map (fun old => if String.eqb (Notice._id old) (Notice._id n) then n else old)
      store.

Definition with_isActive (n : Notice.t) (b : bool) : Notice.t :=
  {| Notice._id := Notice._id n; Notice.category := Notice.category n;
     Notice.priority := Notice.priority n;
     Notice.targetAudience := Notice.targetAudience n;
     Notice.targetClasses := Notice.targetClasses n;
     Notice.publishDate := Notice.publishDate n;
     Notice.expiryDate := Notice.expiryDate n;
     Notice.isPublished := Notice.isPublished n;
     Notice.isPinned := Notice.isPinned n;
     Notice.isActive := b |}.




(** A notice document with its view log ([viewCount], [viewedBy]). *)
Record Viewed : Set := mkViewed {
  notice : Notice.t;
  viewCount : Number;
  viewedBy : list (ObjectId * Date)     (* [user] and [viewedAt] *)
}.

(** The [incrementView(userId)] method at time [now]: the changed document
    when the user had not viewed the notice, [None] when nothing is saved. *)
Definition incrementView (now : Date) (userId : ObjectId) (d : Viewed)
  : option Viewed :=
  let hasViewed :=
    existsb (fun view => String.eqb (fst view) userId) (viewedBy d) in
  if hasViewed then None
  else Some {| notice := notice d;
               viewCount := (viewCount d + 1)%float;
               viewedBy := viewedBy d ++ [(userId, now)] |}.

(** The collection of notices with their view logs, by [_id]. *)
Abbreviation Views := (gmap ObjectId Viewed).

(** [getNotice]: the notice by id, hidden from everybody but an Admin while
    it is unpublished or deactivated; the view is recorded before the
    response. *)
Definition getNotice (now : Date) (store : Views) (user : User) (id : ObjectId)
  : Response Viewed * Views :=
  match store !! id with
  | None => (Failure 404 "Notice not found", store)
  | Some d =>
      if (negb (Notice.isPublished (notice d)) || negb (Notice.isActive (notice d)))
         && negb (String.eqb (role user) "Admin")
      then (Failure 404 "Notice not found", store)
      else
        match incrementView now (user_id user) d with
        | Some d' => (Success 200 d', <[id := d']> store)
        | None => (Success 200 d, store)
        end
  end.

(** No user is twice in the view log of any notice. *)
Definition views_ok (store : Views) : Prop :=
  ∀ id d, store !! id = Some d → NoDup (map fst (viewedBy d)).

End NoticeOps.

(** ** Session: the active session *)

Module SessionOps.

(** [Session.getActiveSession()], that is [findOne({ isActive: true })]:
    the first active document in the order in which the collection is
    scanned.  [docs] lists the collection in that order. *)
Definition getActiveSession (docs : list (ObjectId * Session.t))
  : option (ObjectId * Session.t) :=
  List.find (fun d => Session.isActive (snd d)) docs.

End SessionOps.

(** ** FeePayment: the queries on the stored status *)

Module FeeOps.

Import FeePayment.

#[global] Instance Status_eq_dec : EqDecision Status.
Proof. solve_decision. Defined.

(** The status condition of [getOutstandingFees]:
    [status: { $in: ['Pending', 'Partial', 'Overdue'] }]. *)
Definition outstanding (p : t) : bool :=
  bool_decide (status p ∈ [Pending; Partial; Overdue]).

(** The status condition of [getMonthlyCollection]:
    [status: { $in: ['Paid', 'Partial'] }]. *)
Definition collected (p : t) : bool :=
  bool_decide (status p ∈ [Paid; Partial]).

(** The same conditions on the [paymentStatus] virtual read at [now]. *)
Definition outstanding_now (now : Date) (p : t) : bool :=
  bool_decide (paymentStatus now p ∈ [Pending; Partial; Overdue]).

Definition collected_now (now : Date) (p : t) : bool :=
  bool_decide (paymentStatus now p ∈ [Paid; Partial]).

End FeeOps.

(** ** Library: the virtuals and the delete controller *)

Module LibraryOps.

Import Library.

#[local] Open Scope float_scope.

(** The [availabilityStatus] virtual: 'Not Available', 'Limited',
    'Available'. *)
Inductive Availability : Set := NotAvailable | Limited | Available.

Definition availabilityStatus (b : t) : Availability :=
  if availableCopies b =? 0 then NotAvailable
  else if le (availableCopies b) 2 then Limited
  else Available.

Definition with_isActive (b : t) (a : bool) : t :=
  {| title := title b; totalCopies := totalCopies b;
     availableCopies := availableCopies b; isActive := a |}.

(** [deleteBook]: refused while copies are issued, otherwise the soft
    delete, written by [book.save()] (the schema validators, then the
    [pre('save')] hook). *)
Definition deleteBook (store : Store) (id : ObjectId)
  : Response string * Store :=
  match store !! id with
  | None => (Failure 404 "Book not found", store)
  | Some book =>
      if lt (availableCopies book) (totalCopies book)
      then (Failure 400
              "Cannot delete book with issued copies. Please return all copies first.",
            store)
      else
        match save (with_isActive book false) with
        | Saved book' =>
            (Success 200 "Book deleted successfully", <[id := book']> store)
        | SaveError _ => (Failure 500 "Server error while deleting book", store)
        end
  end.

(** The base condition [{ isActive: true }] of the queries of [getBooks]
    and [searchBooks]; [filters] stands for the conditions the request
    adds to it. *)
Definition listed (filters : t → bool) (store : Store) : list (ObjectId * t) :=
  List.filter (fun d => isActive (snd d) && filters (snd d)) (map_to_list store).

End LibraryOps.

(** ** ExamMark: the order of the grades *)

Module ExamMarkOps.

Import ExamMark.

(** The position of a grade in the enum, from 'F' (0) to 'A+' (8). *)
Definition rank (g : Grade) : nat :=
  match g with
  | F => 0 | D => 1 | D_plus => 2 | C => 3 | C_plus => 4
  | B => 5 | B_plus => 6 | A => 7 | A_plus => 8
  end.

End ExamMarkOps.

(** ** Teacher: class and subject assignments (models/Teacher.js) *)

Module TeacherOps.

Record ClassAssignment : Set := mkClass {
  class : ObjectId;
  section : option ObjectId;
  isClassTeacher : bool
}.

Record SubjectAssignment : Set := mkSubject {
  subject : ObjectId;
  classes : list ObjectId
}.

(** [ac.section?.toString() === sectionId.toString()]. *)
Definition same_section (ac : ClassAssignment) (sectionId : ObjectId) : bool :=
  match section ac with
  | Some s => String.eqb s sectionId
  | None => false
  end.

(** The [assignedClasses] that [assignClass(classId, sectionId,
    isClassTeacher)] passes to [save()].  [sectionId] is [None] for the
    default [null]. *)
Definition assignClass (assignedClasses : list ClassAssignment)
    (classId : ObjectId) (sectionId : option ObjectId) (isClassTeacher : bool)
  : list ClassAssignment :=
  let assignment :=
    {| class := classId;
       section := if truthy sectionId then sectionId else None;
       isClassTeacher := isClassTeacher |} in
  List.filter
    (fun ac => negb (String.eqb (class ac) classId &&
                     (negb (truthy sectionId) ||
                      match sectionId with
                      | Some s => same_section ac s
                      | None => false
                      end)))
    assignedClasses
  ++ [assignment].

(** The [assignedSubjects] that [assignSubject(subjectId, classIds)] passes
    to [save()]. *)
Definition assignSubject (assignedSubjects : list SubjectAssignment)
    (subjectId : ObjectId) (classIds : list ObjectId)
  : list SubjectAssignment :=
  List.filter (fun a => negb (String.eqb (subject a) subjectId)) assignedSubjects
  ++ [{| subject := subjectId; classes := classIds |}].

(** The teacher as the attendance controller reads it. *)
Definition to_teacher (user : ObjectId) (assignedClasses : list ClassAssignment)
  : Teacher.t :=
  {| Teacher.user := user; Teacher.assignedClasses := map class assignedClasses |}.

End TeacherOps.

(** ** Messages: the flags of a message and the message box *)

Module Mailbox.

Import Message.

(** A stored message: the fields of [Message.t], the [createdAt] timestamp
    and the flags of the schema. *)
Record Doc : Set := mkDoc {
  msg : Message.t;
  createdAt : Date;
  isRead : bool;
  readAt : option Date;
  isStarred : bool;
  isArchived : bool;
  isDeleted : bool;
  deletedBy : list (ObjectId * Date)     (* [user] and [deletedAt] *)
}.

(** The collection, by [_id]. *)
Abbreviation Box := (gmap ObjectId Doc).

(** The collection as the thread hook reads it. *)
Definition messages (store : Box) : Message.Store := msg <$> store.

(** A document created at [now]: the schema defaults of the flags. *)
Definition fresh (now : Date) (m : Message.t) : Doc :=
  {| msg := m; createdAt := now; isRead := false; readAt := None;
     isStarred := false; isArchived := false; isDeleted := false;
     deletedBy := [] |}.

Definition with_msg (d : Doc) (m : Message.t) : Doc :=
  {| msg := m; createdAt := createdAt d; isRead := isRead d;
     readAt := readAt d; isStarred := isStarred d;
     isArchived := isArchived d; isDeleted := isDeleted d;
     deletedBy := deletedBy d |}.

(** [Message.create(doc)] at [now], as [sendMessage] calls it (with a
    document that has no [threadId]). *)
Definition create (now : Date) (store : Box) (id : ObjectId) (m : Message.t)
  : SaveResult Doc * Box :=
  match (Message.create (messages store) id m).1 with
  | Saved m' => (Saved (fresh now m'), <[id := fresh now m']> store)
  | SaveError e => (SaveError e, store)
  end.

(** [replyMessage] at [now]. *)
Definition replyMessage (now : Date) (store : Box) (user : User)
    (id : ObjectId) (body_message : string) (body_priority : option string)
    (newId : ObjectId) : Response Doc * Box :=
  match (Message.replyMessage (messages store) user id
           body_message body_priority newId).1 with
  | Success status reply =>
      (Success status (fresh now reply), <[newId := fresh now reply]> store)
  | Failure status e => (Failure status e, store)
  end.

(** [doc.save()] of the loaded document [d] with [_id] [id]: the thread
    hook, then the write. *)
Definition save (store : Box) (id : ObjectId) (d : Doc)
  : SaveResult Doc * Box :=
  match Message.pre_save (messages store) id (msg d) with
  | Saved m' => (Saved (with_msg d m'), <[id := with_msg d m']> store)
  | SaveError e => (SaveError e, store)
  end.

(** [this.deletedBy.find(d => d.user.toString() === userId.toString())],
    as a truth value. *)
Definition deleted_for (userId : ObjectId) (d : Doc) : bool :=
  existsb (fun e => String.eqb (fst e) userId) (deletedBy d).

(** The assignments of the methods of the schema. *)
Definition set_read (now : Date) (d : Doc) : Doc :=
  {| msg := msg d; createdAt := createdAt d;
     isRead := true; readAt := Some now;
     isStarred := isStarred d; isArchived := isArchived d;
     isDeleted := isDeleted d; deletedBy := deletedBy d |}.

Definition flip_star (d : Doc) : Doc :=
  {| msg := msg d; createdAt := createdAt d;
     isRead := isRead d; readAt := readAt d;
     isStarred := negb (isStarred d); isArchived := isArchived d;
     isDeleted := isDeleted d; deletedBy := deletedBy d |}.

Definition set_archived (d : Doc) : Doc :=
  {| msg := msg d; createdAt := createdAt d;
     isRead := isRead d; readAt := readAt d;
     isStarred := isStarred d; isArchived := true;
     isDeleted := isDeleted d; deletedBy := deletedBy d |}.

Definition add_deleted (now : Date) (userId : ObjectId) (d : Doc) : Doc :=
  let deletedBy' :=
    if deleted_for userId d then deletedBy d
    else deletedBy d ++ [(userId, now)] in
  {| msg := msg d; createdAt := createdAt d;
     isRead := isRead d; readAt := readAt d;
     isStarred := isStarred d; isArchived := isArchived d;
     isDeleted := if (2 <=? length deletedBy')%nat then true else isDeleted d;
     deletedBy := deletedBy' |}.

(** [this.recipient.toString() === userId.toString()] in [markAsRead].
    [populated] says that the document was loaded with
    [populate('recipient', ...)]: then [this.recipient] is the user
    document, whose [toString()] is its rendering and not the string of an
    id, and the comparison fails. *)
Definition recipient_is (populated : bool) (d : Doc) (userId : ObjectId) : bool :=
  negb populated && String.eqb (recipient (msg d)) userId.

(** The methods, called at [now] on the loaded document [d] with [_id]
    [id]. *)
Definition markAsRead (now : Date) (store : Box) (id : ObjectId) (d : Doc)
    (populated : bool) (userId : ObjectId) : SaveResult Doc * Box :=
  if recipient_is populated d userId && negb (isRead d)
  then save store id (set_read now d)
  else (Saved d, store).

Definition toggleStar (store : Box) (id : ObjectId) (d : Doc)
  : SaveResult Doc * Box :=
  save store id (flip_star d).

Definition archive (store : Box) (id : ObjectId) (d : Doc)
  : SaveResult Doc * Box :=
  save store id (set_archived d).

Definition deleteForUser (now : Date) (store : Box) (id : ObjectId) (d : Doc)
    (userId : ObjectId) : SaveResult Doc * Box :=
  save store id (add_deleted now userId d).

(** [userId !== senderId && userId !== recipientId]. *)
Definition stranger (user : User) (d : Doc) : bool :=
  negb (String.eqb (user_id user) (sender (msg d))) &&
  negb (String.eqb (user_id user) (recipient (msg d))).

(** The controllers.  The sender and the recipient of a stored message are
    stored users, so that [populate] finds them.  [getMessage] loads the
    message with [populate('sender', ...)] and [populate('recipient', ...)]
    and calls [markAsRead] on that document; [markAsRead_route] loads it
    with [findById] alone. *)
Definition getMessage (now : Date) (store : Box) (user : User) (id : ObjectId)
  : Response Doc * Box :=
  match store !! id with
  | None => (Failure 404 "Message not found", store)
  | Some message =>
      if stranger user message then (Failure 403 "Access denied", store)
      else if deleted_for (user_id user) message
      then (Failure 404 "Message not found", store)
      else if String.eqb (user_id user) (recipient (msg message)) then
        match markAsRead now store id message true (user_id user) with
        | (Saved message', store') => (Success 200 message', store')
        | (SaveError _, store') =>
            (Failure 500 "Server error while fetching message", store')
        end
      else (Success 200 message, store)
  end.

Definition markAsRead_route (now : Date) (store : Box) (user : User)
    (id : ObjectId) : Response string * Box :=
  match store !! id with
  | None => (Failure 404 "Message not found", store)
  | Some message =>
      if negb (String.eqb (recipient (msg message)) (user_id user))
      then (Failure 403 "Access denied", store)
      else
        match markAsRead now store id message false (user_id user) with
        | (Saved _, store') => (Success 200 "Message marked as read", store')
        | (SaveError _, store') =>
            (Failure 500 "Server error while marking message as read", store')
        end
  end.

(** The data of the response of [toggleStar] is the new [isStarred]. *)
Definition toggleStar_route (store : Box) (user : User) (id : ObjectId)
  : Response bool * Box :=
  match store !! id with
  | None => (Failure 404 "Message not found", store)
  | Some message =>
      if stranger user message then (Failure 403 "Access denied", store)
      else
        match toggleStar store id message with
        | (Saved message', store') => (Success 200 (isStarred message'), store')
        | (SaveError _, store') =>
            (Failure 500 "Server error while toggling star", store')
        end
  end.

Definition archiveMessage (store : Box) (user : User) (id : ObjectId)
  : Response string * Box :=
  match store !! id with
  | None => (Failure 404 "Message not found", store)
  | Some message =>
      if negb (String.eqb (recipient (msg message)) (user_id user))
      then (Failure 403 "Access denied", store)
      else
        match archive store id message with
        | (Saved _, store') => (Success 200 "Message archived", store')
        | (SaveError _, store') =>
            (Failure 500 "Server error while archiving message", store')
        end
  end.

Definition deleteMessage (now : Date) (store : Box) (user : User)
    (id : ObjectId) : Response string * Box :=
  match store !! id with
  | None => (Failure 404 "Message not found", store)
  | Some message =>
      if stranger user message then (Failure 403 "Access denied", store)
      else
        match deleteForUser now store id message (user_id user) with
        | (Saved _, store') => (Success 200 "Message deleted", store')
        | (SaveError _, store') =>
            (Failure 500 "Server error while deleting message", store')
        end
  end.

(** The filters of the statics.  ['deletedBy.user': { $ne: userId }] holds
    when no element of the array is of that user. *)
Definition inbox_query (userId : ObjectId) (unreadOnly : bool) (d : Doc) : bool :=
  String.eqb (recipient (msg d)) userId && negb (isArchived d) &&
  negb (deleted_for userId d) &&
  (if unreadOnly then negb (isRead d) else true).

Definition sent_query (userId : ObjectId) (d : Doc) : bool :=
  String.eqb (sender (msg d)) userId && negb (deleted_for userId d).

Definition starred_query (userId : ObjectId) (d : Doc) : bool :=
  (String.eqb (sender (msg d)) userId || String.eqb (recipient (msg d)) userId) &&
  isStarred d && negb (deleted_for userId d).

Definition thread_query (thread : string) (userId : ObjectId) (d : Doc) : bool :=
  bool_decide (threadId (msg d) = Some thread) &&
  (String.eqb (sender (msg d)) userId || String.eqb (recipient (msg d)) userId) &&
  negb (deleted_for userId d).

Definition unread_query (userId : ObjectId) (d : Doc) : bool :=
  String.eqb (recipient (msg d)) userId && negb (isRead d) &&
  negb (isArchived d) && negb (deleted_for userId d).

(** [.sort({ createdAt: -1 })] and [.sort({ createdAt: 1 })]: [a] may come
    before [b]. *)
Definition newest_first (a b : ObjectId * Doc) : Prop :=
  createdAt (snd b) <= createdAt (snd a).

#[global] Instance newest_first_dec : RelDecision newest_first.
Proof. intros a b. unfold newest_first. apply _. Defined.

Definition oldest_first (a b : ObjectId * Doc) : Prop :=
  createdAt (snd a) <= createdAt (snd b).

#[global] Instance oldest_first_dec : RelDecision oldest_first.
Proof. intros a b. unfold oldest_first. apply _. Defined.

(** [find(query)] on the collection. *)
Definition find (query : Doc → bool) (store : Box) : list (ObjectId * Doc) :=
  List.filter (fun d => query (snd d)) (map_to_list store).

(** [options.limit || 50] and [options.skip || 0]; an option the caller
    leaves out is [None]. *)
Definition limit_or_50 (limit : option Z) : Z :=
  match limit with
  | Some l => if l =? 0 then 50 else l
  | None => 50
  end.

Definition skip_or_0 (skip : option Z) : Z :=
  match skip with Some s => s | None => 0 end.

(** The statics [getInbox], [getSent], [getStarred] and [getThread];
    [None] is the error of the server on a negative skip. *)
Definition getInbox (store : Box) (userId : ObjectId) (limit skip : option Z)
    (unreadOnly : bool) : option (list (ObjectId * Doc)) :=
  Pagination.cursor (skip_or_0 skip) (limit_or_50 limit)
    (merge_sort newest_first (find (inbox_query userId unreadOnly) store)).

Definition getSent (store : Box) (userId : ObjectId) (limit skip : option Z)
  : option (list (ObjectId * Doc)) :=
  Pagination.cursor (skip_or_0 skip) (limit_or_50 limit)
    (merge_sort newest_first (find (sent_query userId) store)).

Definition getStarred (store : Box) (userId : ObjectId) (limit skip : option Z)
  : option (list (ObjectId * Doc)) :=
  Pagination.cursor (skip_or_0 skip) (limit_or_50 limit)
    (merge_sort newest_first (find (starred_query userId) store)).

Definition getThread (store : Box) (thread : string) (userId : ObjectId)
  : list (ObjectId * Doc) :=
  merge_sort oldest_first (find (thread_query thread userId) store).

Definition countUnread (store : Box) (userId : ObjectId) : nat :=
  length (find (unread_query userId) store).

(** The envelope of the message lists: the block of [Pagination.envelope]
    with [const { page = 1, limit = 20 } = req.query]. *)
Definition envelope_messages (page limit : Pagination.QueryInt) (total : nat)
  : Pagination.t :=
  let page := Pagination.default 1 page in
  let limit := Pagination.default 20 limit in
  {| Pagination.current := Number_of_Z page;
     Pagination.pages := Math_ceil (Number_of_nat total / Number_of_Z limit)%float;
     Pagination.total := total;
     Pagination.hasNext :=
       Some (lt (Number_of_Z page)
               (Math_ceil (Number_of_nat total / Number_of_Z limit)%float));
     Pagination.hasPrev := Some (gt (Number_of_Z page) 1%float);
     Pagination.limit := None |}.

(** The controller [getInbox]: the page of messages and the envelope, whose
    total is counted without the [unreadOnly] condition. *)
Definition getInbox_route (store : Box) (user : User)
    (page limit : Pagination.QueryInt) (unreadOnly : option string)
  : Response (list (ObjectId * Doc) * Pagination.t) :=
  let page' := Pagination.default 1 page in
  let limit' := Pagination.default 20 limit in
  match getInbox store (user_id user) (Some limit')
          (Some ((page' - 1) * limit'))
          (NoticesController.is_true_string unreadOnly) with
  | Some messages =>
      Success 200
        (messages,
         envelope_messages page limit
           (length (find (inbox_query (user_id user) false) store)))
  | None => Failure 500 "Server error while fetching inbox"
  end.



(** The controller [getThread]. *)
Definition getThread_route (store : Box) (user : User) (thread : string)
  : Response (list (ObjectId * Doc)) :=
  let messages := getThread store thread (user_id user) in
  if (length messages =? 0)%nat then Failure 404 "Thread not found"
  else Success 200 messages.

(** The calls of the message routes that change a message or call one of
    its methods. *)
Inductive Op : Set :=
  | Create (id : ObjectId) (m : Message.t)
  | Reply (user : User) (id : ObjectId) (body_message : string)
      (body_priority : option string) (newId : ObjectId)
  | Get (user : User) (id : ObjectId)
  | MarkRead (user : User) (id : ObjectId)
  | Star (user : User) (id : ObjectId)
  | Archive (user : User) (id : ObjectId)
  | Delete (user : User) (id : ObjectId).

(** The collection after the call at [now]. *)
Definition run (now : Date) (store : Box) (op : Op) : Box :=
  match op with
  | Create id m => (create now store id m).2
  | Reply user id body_message body_priority newId =>
      (replyMessage now store user id body_message body_priority newId).2
  | Get user id => (getMessage now store user id).2
  | MarkRead user id => (markAsRead_route now store user id).2
  | Star user id => (toggleStar_route store user id).2
  | Archive user id => (archiveMessage store user id).2
  | Delete user id => (deleteMessage now store user id).2
  end.

(** A new document gets an [_id] that is not in use (and, being an
    ObjectId, not the empty string); [sendMessage] gives no [threadId]. *)
Definition allowed (store : Box) (op : Op) : Prop :=
  match op with
  | Create id m => store !! id = None ∧ id ≠ "" ∧ threadId m = None
  | Reply _ _ _ _ newId => store !! newId = None ∧ newId ≠ ""
  | _ => True
  end.

(** The collections that the routes produce from the empty one. *)
Inductive reachable : Box → Prop :=
  | reachable_empty : reachable ∅
  | reachable_run now store op :
      reachable store → allowed store op → reachable (run now store op).

(** Every message has a thread id; a message without a parent opened the
    thread named by its own id; a reply is in the thread of its parent,
    which is stored; the thread id is the id of a stored message that has
    no parent. *)
Definition threads_ok (store : Message.Store) : Prop :=
  ∀ id m, store !! id = Some m →
    truthy (threadId m) = true ∧
    (parentMessage m = None → threadId m = Some id) ∧
    (∀ p, parentMessage m = Some p →
          ∃ parent, store !! p = Some parent ∧ threadId m = threadId parent) ∧
    (∃ t root, threadId m = Some t ∧ store !! t = Some root ∧
               parentMessage root = None).

(** No user is twice in [deletedBy], only the sender and the recipient can
    be in it, [isDeleted] is set exactly when both of them are (and are two
    users), and [readAt] is set exactly when [isRead] is. *)
Definition flags_ok (d : Doc) : Prop :=
  NoDup (map fst (deletedBy d)) ∧
  (∀ u, u ∈ map fst (deletedBy d) →
        u = sender (msg d) ∨ u = recipient (msg d)) ∧
  (isDeleted d = true ↔
   sender (msg d) ≠ recipient (msg d) ∧
   deleted_for (sender (msg d)) d = true ∧
   deleted_for (recipient (msg d)) d = true) ∧
  (isRead d = true ↔ is_Some (readAt d)).

(** The entry [x] is in a page of the inbox, of the sent or of the starred
    messages of the user, or in a thread as the user reads it. *)
Definition shown_to (store : Box) (userId : ObjectId) (x : ObjectId * Doc)
  : Prop :=
  (∃ limit skip unreadOnly page,
     getInbox store userId limit skip unreadOnly = Some page ∧ x ∈ page) ∨
  (∃ limit skip page, getSent store userId limit skip = Some page ∧ x ∈ page) ∨
  (∃ limit skip page,
     getStarred store userId limit skip = Some page ∧ x ∈ page) ∨
  (∃ thread, x ∈ getThread store thread userId).

(** The invariant of the message box. *)
Definition box_inv (store : Box) : Prop :=
  threads_ok (messages store) ∧ ∀ id d, store !! id = Some d → flags_ok d.

(** User u1 writes to user u2, who answers. *)
Definition note : Message.t :=
  {| sender := "u1"; recipient := "u2"; subject := "Homework";
     message := "Please see me."; priority := "Normal";
     parentMessage := None; threadId := None |}.

Definition u1 : User := {| user_id := "u1"; role := "Student" |}.
Definition u2 : User := {| user_id := "u2"; role := "Teacher" |}.
Definition u3 : User := {| user_id := "u3"; role := "Student" |}.

Definition box1 : Box := run 10 ∅ (Create "m1" note).
Definition box2 : Box := run 20 box1 (Reply u2 "m1" "I will." None "m2").


End Mailbox.

(** ** FeePayment: the receipt number of the [pre('save')] hook *)

(** The string methods the hook uses, on strings of ASCII characters.  The
    numbers involved are integers of at most four digits, represented by
    [Z]; [None] is [NaN]. *)
Module JSString.

(** [s.slice(-n)]. *)
Definition slice_last (n : nat) (s : string) : string :=
  String.substring (String.length s - n) n s.

(** [s.padStart(n, c)]. *)
Definition padStart (n : nat) (c : ascii) (s : string) : string :=
  String.string_of_list_ascii (repeat c (n - String.length s)) +:+ s.

(** White space that [parseInt] skips: TAB, LF, VT, FF, CR and space. *)
Definition is_space (c : ascii) : bool :=
  let n := nat_of_ascii c in
  ((9 <=? n) && (n <=? 13) || (n =? 32))%nat.

(** The value of a digit of the radix: 0-9, a-z, A-Z. *)
Definition digit_of (radix : Z) (c : ascii) : option Z :=
  let n := Z.of_nat (nat_of_ascii c) in
  let v := if (48 <=? n) && (n <=? 57) then Some (n - 48)
           else if (97 <=? n) && (n <=? 122) then Some (n - 87)
           else if (65 <=? n) && (n <=? 90) then Some (n - 55)
           else None in
  match v with
  | Some d => if d <? radix then Some d else None
  | None => None
  end.

Fixpoint skip_spaces (s : string) : string :=
  match s with
  | String c s' => if is_space c then skip_spaces s' else s
  | EmptyString => s
  end.

(** The longest prefix of digits of the radix. *)
Fixpoint digits (radix : Z) (s : string) : list Z :=
  match s with
  | String c s' =>
      match digit_of radix c with
      | Some d => d :: digits radix s'
      | None => []
      end
  | EmptyString => []
  end.

(** [parseInt(s)] without a radix: leading white space, a sign, the prefix
    [0x] or [0X] of a hexadecimal number, then the digits; [NaN] when there
    is no digit. *)
Definition parseInt (s : string) : option Z :=
  let s1 := skip_spaces s in
  let '(negative, s2) :=
    match s1 with
    | String "-"%char r => (true, r)
    | String "+"%char r => (false, r)
    | _ => (false, s1)
    end in
  let '(radix, s3) :=
    match s2 with
    | String "0"%char (String "x"%char r) => (16, r)
    | String "0"%char (String "X"%char r) => (16, r)
    | _ => (10, s2)
    end in
  match digits radix s3 with
  | [] => None
  | ds =>
      let v := fold_left (fun acc d => acc * radix + d) ds 0 in
      Some (if negative then - v else v)
  end.

(** [n.toString()] of an integer or [NaN]. *)
Definition toString (n : option Z) : string :=
  match n with
  | Some z => NilZero.string_of_int (Z.to_int z)
  | None => "NaN"
  end.

End JSString.

Module ReceiptNumber.

Import JSString.

(** [`RCP${year}${month}`] with
    [month = String(new Date().getMonth() + 1).padStart(2, '0')]; [year] is
    [getFullYear()] and [month] is [getMonth() + 1] of the clock. *)
Definition receipt_prefix (year month : nat) : string :=
  "RCP" +:+ toString (Some (Z.of_nat year))
        +:+ padStart 2 "0" (toString (Some (Z.of_nat month))).

(** [.sort({ receiptNumber: -1 })]: [a] may come before [b]. *)
Definition descending (a b : string) : Prop := String.leb b a = true.

#[global] Instance descending_dec : RelDecision descending.
Proof. intros a b. unfold descending. apply _. Defined.

(** [findOne({ receiptNumber: new RegExp(`^RCP${year}${month}`) })
      .sort({ receiptNumber: -1 })]: the prefix has no character that is
    special in a regular expression, so the filter is a test of the
    prefix.  The result is the receipt number of the document found. *)
Definition lastPayment (prefix : string) (payments : list FeePayment.t)
  : option string :=
  head (merge_sort descending
          (List.filter (String.prefix prefix)
             (omap FeePayment.receiptNumber payments))).

(** [nextNumber.toString().padStart(4, '0')]. *)
Definition sequence_part (nextNumber : option Z) : string :=
  padStart 4 "0" (toString nextNumber).

(** The receipt number the hook gives a payment that has none. *)
Definition generate (year month : nat) (payments : list FeePayment.t) : string :=
  let nextNumber :=
    match lastPayment (receipt_prefix year month) payments with
    | Some receiptNumber =>
        (fun lastNumber => lastNumber + 1) <$> parseInt (slice_last 4 receiptNumber)
    | None => Some 1
    end in
  receipt_prefix year month +:+ sequence_part nextNumber.

(** The integers from 0 to 9999. *)
Definition four_digits : list Z := Z.of_nat <$> seq 0 (Z.to_nat 10000).

(** What the proofs use of the four-digit sequence parts: [parseInt] reads
    the number back, the part has four characters, and the part of the
    next number is greater as a string. *)
Definition four_digit_check (k : Z) : bool :=
  bool_decide (parseInt (sequence_part (Some k)) = Some k) &&
  (String.length (sequence_part (Some k)) =? 4)%nat &&
  ((k =? 9999) ||
   match String.compare (sequence_part (Some k)) (sequence_part (Some (k + 1))) with
   | Lt => true
   | _ => false
   end).

End ReceiptNumber.

(** * Properties *)

(** ** Rounding *)

Section Rounding.

#[local] Open Scope float_scope.

(** [Math.round] sends ties toward +infinity and keeps the sign of a zero
    result; [Math.ceil] rounds up. *)
Example Math_round_values :
  map Math_round [0.5; 1.5; 2.5; -0.5; -1.5; -2.5; 14.25; 71.5; 72; nan]
  = [1; 2; 3; -0; -1; -2; 14; 72; 72; nan].
Proof. vm_compute. reflexivity. Qed.

Example Math_ceil_values :
  map Math_ceil [0; 0.25; 2.5; 3; -0.5; -1.5; infinity]
  = [0; 1; 3; 3; -0; -1; infinity].
Proof. vm_compute. reflexivity. Qed.

End Rounding.

(** ** Order facts on binary64 values *)

Section FloatOrder.

Lemma compare_cont_opp (r : comparison) (p q : positive) :
  PosDef.Pos.compare_cont (CompOpp r) q p = CompOpp (PosDef.Pos.compare_cont r p q).
Proof. symmetry. apply Pos.compare_cont_antisym. Qed.

Lemma SFcompare_antisym (a b : spec_float) :
  SFcompare b a = CompOpp <$> SFcompare a b.
Proof.
  destruct a as [sa|sa| |sa ma ea], b as [sb|sb| |sb mb eb];
    simpl; try reflexivity;
    try (destruct sa; reflexivity); try (destruct sb; reflexivity);
    try (destruct sa, sb; reflexivity).
  destruct sa, sb; simpl; try reflexivity;
    rewrite (Z.compare_antisym ea eb);
    destruct (ea ?= eb) eqn:E; simpl; try reflexivity;
    change Eq with (CompOpp Eq) at 1; rewrite compare_cont_opp;
    try reflexivity.
Qed.

(** A value that compares with anything is not NaN, so two such values
    compare with each other. *)
Lemma SFcompare_comparable (a b z1 z2 : spec_float) :
  SFleb z1 a = true -> SFleb z2 b = true -> is_Some (SFcompare a b).
Proof.
  unfold SFleb.
  destruct a as [sa|sa| |sa ma ea], b as [sb|sb| |sb mb eb],
    z1 as [s1|s1| |s1 m1 e1], z2 as [s2|s2| |s2 m2 e2];
    simpl; try discriminate; intros _ _; eexists; reflexivity.
Qed.

(** Comparable values are totally ordered: not [b <= a] gives [a < b]. *)
Lemma leb_false_ltb (a b z1 z2 : float) :
  (z1 <=? a)%float = true -> (z2 <=? b)%float = true ->
  (b <=? a)%float = false -> (a <? b)%float = true.
Proof.
  rewrite !leb_spec, ltb_spec. intros Ha Hb.
  destruct (SFcompare_comparable _ _ _ _ Ha Hb) as [c Hc].
  unfold SFleb, SFltb.
  rewrite (SFcompare_antisym (Prim2SF a) (Prim2SF b)), Hc.
  destruct c; simpl; try discriminate; reflexivity.
Qed.

Lemma ltb_false_leb (a b z1 z2 : float) :
  (z1 <=? a)%float = true -> (z2 <=? b)%float = true ->
  (b <? a)%float = false -> (a <=? b)%float = true.
Proof.
  rewrite !leb_spec, ltb_spec. intros Ha Hb.
  destruct (SFcompare_comparable _ _ _ _ Ha Hb) as [c Hc].
  unfold SFleb, SFltb.
  rewrite (SFcompare_antisym (Prim2SF a) (Prim2SF b)), Hc.
  destruct c; simpl; try discriminate; reflexivity.
Qed.

(** [a < b] excludes [b <= a]. *)
Lemma ltb_leb_false (a b : float) :
  (a <? b)%float = true -> (b <=? a)%float = false.
Proof.
  rewrite leb_spec, ltb_spec. unfold SFleb, SFltb.
  rewrite (SFcompare_antisym (Prim2SF a) (Prim2SF b)).
  destruct (SFcompare (Prim2SF a) (Prim2SF b)) as [[]|];
    simpl; try discriminate; reflexivity.
Qed.

(** [z <= a] and not [z < a] leave only [a == z]. *)
Lemma leb_not_ltb_eqb (z a : float) :
  (z <=? a)%float = true -> (z <? a)%float = false -> (a =? z)%float = true.
Proof.
  rewrite leb_spec, ltb_spec, FloatAxioms.eqb_spec. unfold SFleb, SFltb, SFeqb.
  rewrite (SFcompare_antisym (Prim2SF z) (Prim2SF a)).
  destruct (SFcompare (Prim2SF z) (Prim2SF a)) as [[]|];
    simpl; try discriminate; reflexivity.
Qed.

(** Numerically equal values are below each other. *)
Lemma eqb_leb (a b : float) :
  (a =? b)%float = true ->
  (a <=? b)%float = true ∧ (b <=? a)%float = true.
Proof.
  rewrite FloatAxioms.eqb_spec, !leb_spec. unfold SFeqb, SFleb.
  rewrite (SFcompare_antisym (Prim2SF a) (Prim2SF b)).
  destruct (SFcompare (Prim2SF a) (Prim2SF b)) as [[]|];
    simpl; try discriminate; auto.
Qed.

End FloatOrder.

(** ** ExamMark *)

Section ExamMarkFacts.

#[local] Open Scope float_scope.

(** The if-chain of [calculateGrade] reads the threshold table top down. *)
Lemma calculateGrade_table (p : Number) :
  ExamMark.calculateGrade p = ExamMark.grade_of_table p.
Proof.
  unfold ExamMark.calculateGrade, ExamMark.grade_of_table,
    ExamMark.grade_thresholds.
  cbn [List.find fst snd].
  repeat (destruct (ge p _); [reflexivity|]).
  reflexivity.
Qed.

(** A percentage inside a band of the table gets the band's grade. *)
Lemma calculateGrade_band (p lo : Number) (g : ExamMark.Grade)
    (pre rest : list (Number * ExamMark.Grade)) :
  ExamMark.grade_thresholds = pre ++ (lo, g) :: rest ->
  Forall (fun tg => ge p (fst tg) = false) pre ->
  ge p lo = true ->
  ExamMark.calculateGrade p = g.
Proof.
  intros Htab Hpre Hlo. rewrite calculateGrade_table.
  unfold ExamMark.grade_of_table. rewrite Htab.
  clear Htab. induction Hpre as [|tg pre Htg _ IH]; simpl.
  - rewrite Hlo. reflexivity.
  - rewrite Htg. exact IH.
Qed.

Lemma save_inv (m m' : ExamMark.t) :
  ExamMark.save m = Saved m' ->
  ExamMark.validate m = true ∧
  gt (ExamMark.marksObtained m) (ExamMark.totalMarks m) = false ∧
  m' = ExamMark.pre_save_calculate m.
Proof.
  unfold ExamMark.save, ExamMark.pre_save_validate_marks.
  destruct (ExamMark.validate m); [|discriminate].
  destruct (gt _ _); [discriminate|].
  intros [= <-]. auto.
Qed.

(** C2.  An ExamMark saved with [isAbsent = false] stores
    percentage = round(marksObtained / totalMarks * 100), isPassed =
    (marksObtained >= passingMarks) and the grade the threshold table
    (>=90 A+, >=80 A, >=70 B+, >=60 B, >=50 C+, >=40 C, >=35 D+, >=30 D,
    else F) gives that percentage; one saved with [isAbsent = true] stores
    marksObtained = 0, percentage = 0, grade F and isPassed = false. *)
Theorem C2_exam_mark_grading (m m' : ExamMark.t) :
  ExamMark.save m = Saved m' ->
  (ExamMark.isAbsent m = false ->
     ExamMark.percentage m' =
       Some (Math_round
               ((ExamMark.marksObtained m / ExamMark.totalMarks m) * 100)) ∧
     ExamMark.isPassed m' =
       ge (ExamMark.marksObtained m) (ExamMark.passingMarks m) ∧
     ExamMark.grade m' =
       ExamMark.grade_of_table
         (Math_round
            ((ExamMark.marksObtained m / ExamMark.totalMarks m) * 100)) ∧
     ExamMark.marksObtained m' = ExamMark.marksObtained m) ∧
  (ExamMark.isAbsent m = true ->
     ExamMark.marksObtained m' = 0 ∧
     ExamMark.percentage m' = Some 0 ∧
     ExamMark.grade m' = ExamMark.F ∧
     ExamMark.isPassed m' = false).
Proof.
  intros Hsave. apply save_inv in Hsave as (_ & _ & ->).
  unfold ExamMark.pre_save_calculate.
  split; intros Habs; rewrite Habs; cbn.
  - rewrite calculateGrade_table. auto.
  - auto.
Qed.

(** The scenario of the specification: 72 marks out of 100 with 40 to pass
    give percentage 72, grade 'B+' and a pass. *)
Lemma C2_scenario_72_of_100 :
  let m := {| ExamMark.student := "s1"; ExamMark.exam := "e1";
              ExamMark.marksObtained := 72; ExamMark.totalMarks := 100;
              ExamMark.passingMarks := 40; ExamMark.grade := ExamMark.F;
              ExamMark.percentage := None; ExamMark.isPassed := false;
              ExamMark.isAbsent := false |} in
  ∃ m', ExamMark.save m = Saved m' ∧
        ExamMark.percentage m' = Some 72 ∧
        ExamMark.grade m' = ExamMark.B_plus ∧
        ExamMark.isPassed m' = true.
Proof.
  intros m.
  assert (Hs : ExamMark.save m = Saved (ExamMark.pre_save_calculate m))
    by (vm_compute; reflexivity).
  exists (ExamMark.pre_save_calculate m). split; [exact Hs|].
  destruct (C2_exam_mark_grading m _ Hs) as [Hpresent _].
  destruct (Hpresent eq_refl) as (Hp & Hpass & Hg & _).
  rewrite Hp, Hpass, Hg. vm_compute. auto.
Defined.

End ExamMarkFacts.

(** The division and the multiplication are binary64 operations: 23 marks
    out of 40 are 57.49999999999999 percent before rounding, hence 57. *)
Example percentage_23_of_40 :
  Math_round ((23 / 40) * 100)%float = 57%float.
Proof. vm_compute. reflexivity. Qed.

(** With 100 total marks the percentage is the number of marks. *)
Lemma percentage_of_100_is_marks :
  forallb
    (fun marks =>
       (Math_round ((Number_of_nat marks / 100) * 100)
        =? Number_of_nat marks)%float)
    (seq 0 101) = true.
Proof. vm_compute. reflexivity. Qed.

(** ** FeePayment *)

Section FeePaymentFacts.

#[local] Open Scope float_scope.

Lemma validate_amounts (p : FeePayment.t) :
  FeePayment.validate p = true ->
  (0 <=? FeePayment.dueAmount p) = true ∧
  (0 <=? FeePayment.paidAmount p) = true.
Proof.
  unfold FeePayment.validate, ge. intros H.
  repeat (apply andb_prop in H as [H ?]). auto.
Qed.

(** On validated amounts the branch of the hook is the rule of the
    specification. *)
Lemma status_of_spec (now : Date) (p : FeePayment.t) :
  (0 <=? FeePayment.dueAmount p) = true ->
  (0 <=? FeePayment.paidAmount p) = true ->
  FeePayment.status_of now p = FeePayment.spec_status now p.
Proof.
  intros Hdue Hpaid.
  unfold FeePayment.status_of, FeePayment.spec_status, ge, gt, lt.
  destruct (FeePayment.dueAmount p <=? FeePayment.paidAmount p) eqn:Hge;
    [reflexivity|].
  destruct (0 <? FeePayment.paidAmount p) eqn:Hpos.
  - rewrite (leb_false_ltb _ _ _ _ Hpaid Hdue Hge). reflexivity.
  - rewrite (leb_not_ltb_eqb _ _ Hpaid Hpos). reflexivity.
Qed.

(** C3.  After a save, totalAmount = paidAmount + lateFee - discount, and
    the status is 'Paid' if paidAmount >= dueAmount, else 'Partial' if
    0 < paidAmount < dueAmount, else 'Overdue' if paidAmount is 0 and the
    time of the save is past dueDate, else 'Pending'; the paymentStatus
    virtual follows the same rule at the time it is read. *)
Theorem C3_fee_payment_total_and_status
    (generated : string) (now : Date) (p p' : FeePayment.t) :
  FeePayment.save generated now p = Saved p' ->
  FeePayment.totalAmount p' =
    FeePayment.paidAmount p' + FeePayment.lateFee p' - FeePayment.discount p' ∧
  FeePayment.status p' = FeePayment.spec_status now p' ∧
  (∀ later : Date,
     FeePayment.paymentStatus later p' = FeePayment.spec_status later p').
Proof.
  unfold FeePayment.save.
  destruct (FeePayment.validate p) eqn:Hv; [|discriminate].
  intros [= <-].
  destruct (validate_amounts p Hv) as [Hdue Hpaid].
  split; [reflexivity|]. split.
  - cbn. exact (status_of_spec now p Hdue Hpaid).
  - intros later. exact (status_of_spec later _ Hdue Hpaid).
Qed.

(** The scenario of the specification: 1000 due and 1000 paid. *)
Lemma C3_scenario_paid_in_full :
  let p := {| FeePayment.student := "s1"; FeePayment.feeType := "f1";
              FeePayment.month := None;
              FeePayment.dueAmount := 1000; FeePayment.paidAmount := 1000;
              FeePayment.lateFee := 0; FeePayment.discount := 0;
              FeePayment.totalAmount := 0;
              FeePayment.dueDate := Some 1700000000000%Z;
              FeePayment.receiptNumber := None;
              FeePayment.status := FeePayment.Pending |} in
  ∃ p', FeePayment.save "RCP2024010001" 1705000000000%Z p = Saved p' ∧
        FeePayment.totalAmount p' = 1000 ∧
        FeePayment.status p' = FeePayment.Paid.
Proof.
  intros p.
  assert (Hs : FeePayment.save "RCP2024010001" 1705000000000%Z p
               = Saved (FeePayment.pre_save "RCP2024010001" 1705000000000%Z p))
    by (vm_compute; reflexivity).
  eexists. split; [exact Hs|].
  destruct (C3_fee_payment_total_and_status _ _ _ _ Hs) as (Ht & Hst & _).
  rewrite Ht, Hst. vm_compute. auto.
Defined.

(** C10.  The enum admits 'Cancelled', yet the hook overwrites the status
    on every save with 'Paid', 'Partial', 'Overdue' or 'Pending', whatever
    the document held: no saved FeePayment has status 'Cancelled'. *)
Theorem C10_fee_payment_never_cancelled
    (generated : string) (now : Date) (p : FeePayment.t) :
  FeePayment.status (FeePayment.pre_save generated now p)
    ∈ [FeePayment.Paid; FeePayment.Partial; FeePayment.Overdue;
       FeePayment.Pending] ∧
  FeePayment.status (FeePayment.pre_save generated now p)
    = FeePayment.status_of now p ∧
  (∀ p', FeePayment.save generated now p = Saved p' →
         FeePayment.status p' ≠ FeePayment.Cancelled).
Proof.
  assert (Hs : FeePayment.status_of now p
               ∈ [FeePayment.Paid; FeePayment.Partial; FeePayment.Overdue;
                  FeePayment.Pending]).
  { unfold FeePayment.status_of.
    destruct (ge _ _); [set_solver|].
    destruct (gt _ _); [set_solver|].
    destruct (FeePayment.past_due _ _); set_solver. }
  split; [exact Hs|]. split; [reflexivity|].
  intros p'. unfold FeePayment.save.
  destruct (FeePayment.validate p); [|discriminate].
  intros [= <-]. cbn. intros Hc. rewrite Hc in Hs.
  repeat (apply elem_of_cons in Hs as [Hs|Hs]; [discriminate|]).
  by apply elem_of_nil in Hs.
Qed.

(** A document handed to [save] with status 'Cancelled' is stored with the
    computed status. *)
Example cancelled_status_is_overwritten :
  FeePayment.save "RCP2024010001" 1705000000000%Z
    {| FeePayment.student := "s1"; FeePayment.feeType := "f1";
       FeePayment.month := Some 1;
       FeePayment.dueAmount := 1000; FeePayment.paidAmount := 400;
       FeePayment.lateFee := 50; FeePayment.discount := 0;
       FeePayment.totalAmount := 0;
       FeePayment.dueDate := None;
       FeePayment.receiptNumber := Some "RCP2024010007";
       FeePayment.status := FeePayment.Cancelled |}
  = Saved
      {| FeePayment.student := "s1"; FeePayment.feeType := "f1";
         FeePayment.month := Some 1;
         FeePayment.dueAmount := 1000; FeePayment.paidAmount := 400;
         FeePayment.lateFee := 50; FeePayment.discount := 0;
         FeePayment.totalAmount := 450;
         FeePayment.dueDate := None;
         FeePayment.receiptNumber := Some "RCP2024010007";
         FeePayment.status := FeePayment.Partial |}.
Proof. vm_compute. reflexivity. Qed.

End FeePaymentFacts.

(** ** Attendance *)

Section AttendanceFacts.

Import AttendanceController.

#[local] Open Scope float_scope.

Lemma find_by_student (store : list Attendance.t) (studentId : ObjectId) :
  find {| student := Some (Is studentId); class := None; section := None;
          subject := None; status := None; date := None |} store
  = records_of store studentId.
Proof.
  unfold find, records_of. apply List.filter_ext. intros r.
  unfold matches; cbn. by rewrite !andb_true_r.
Qed.

(** The string 'Present' selects the status [Present] and no other. *)
Lemma status_is_present (r : Attendance.t) :
  String.eqb (Attendance.Status_to_string (Attendance.status r)) "Present"
  = bool_decide (Attendance.status r = Attendance.Present).
Proof. by destruct (Attendance.status r). Qed.

Lemma count_by_student_present (store : list Attendance.t) (studentId : ObjectId) :
  countDocuments
    {| student := Some (Is studentId); class := None; section := None;
       subject := None; status := Some "Present"; date := None |} store
  = count_status Attendance.Present (records_of store studentId).
Proof.
  unfold countDocuments, count_status, find, records_of. f_equal.
  induction store as [|r store IH]; [reflexivity|].
  cbn [List.filter].
  unfold matches at 1; cbn. rewrite !andb_true_r, status_is_present.
  destruct (String.eqb (Attendance.student r) studentId); cbn [andb List.filter].
  - destruct (bool_decide _); by rewrite IH.
  - exact IH.
Qed.

(** Every record a query for one student finds is that student's. *)
Lemma find_student_only (q : Query) (studentId : ObjectId)
    (store : list Attendance.t) (r : Attendance.t) :
  student q = Some (Is studentId) ->
  r ∈ find q store -> Attendance.student r = studentId.
Proof.
  intros Hq Hr. apply list_elem_of_In, filter_In in Hr as [_ Hm].
  unfold matches in Hm. rewrite Hq in Hm. cbn in Hm.
  repeat (apply andb_prop in Hm as [Hm _]).
  by apply String.eqb_eq.
Qed.

(** C4 (as amended).  With at least one record, the dashboard computation
    [calculateStudentAttendance] returns round(present / total * 100) over
    all records of the student, where present counts the records with
    status 'Present' only; the summary endpoint, which takes the date
    range, returns round((present + late + excused) / total * 100) over the
    records it selects, all of which are the student's. *)
Theorem C4_attendance_percentage
    (store : list Attendance.t) (studentId : ObjectId) :
  (0 < length (records_of store studentId))%nat ->
  calculateStudentAttendance store studentId
  = Math_round
      ((Number_of_nat (count_status Attendance.Present (records_of store studentId))
        / Number_of_nat (length (records_of store studentId))) * 100) ∧
  (∀ students user startDate endDate subject sm recs,
     getStudentAttendanceSummary students store user studentId
       startDate endDate subject = Success 200 (sm, recs) →
     (0 < length recs)%nat →
     attendancePercentage sm
     = Math_round
         (((Number_of_nat (count_status Attendance.Present recs)
            + Number_of_nat (count_status Attendance.Late recs)
            + Number_of_nat (count_status Attendance.Excused recs))
           / Number_of_nat (length recs)) * 100) ∧
     (∀ r, r ∈ recs → r ∈ store ∧ Attendance.student r = studentId)).
Proof.
  intros Hpos. split.
  - unfold calculateStudentAttendance.
    rewrite count_by_student_present.
    unfold countDocuments. rewrite find_by_student.
    destruct (Nat.eqb_spec (length (records_of store studentId)) 0) as [E|_];
      [lia|reflexivity].
  - intros students user startDate endDate subject sm recs.
    unfold getStudentAttendanceSummary.
    match goal with |- context [if ?d then Failure _ _ else _] => destruct d end;
      [discriminate|].
    intros [= <- <-] Hlen. split.
    + unfold summarize; cbn [attendancePercentage].
      destruct (Nat.ltb_spec 0 (length (merge_sort oldest_first
        (find {| student := Some (Is studentId); class := None; section := None;
                 subject := if truthy subject then subject else None;
                 status := None;
                 date := match startDate, endDate with
                         | Some a, Some b => Some (GteLte a b)
                         | _, _ => None
                         end |} store)))) as [_|E]; [reflexivity|lia].
    + intros r Hr. rewrite merge_sort_Permutation in Hr. split.
      * apply list_elem_of_In, filter_In in Hr as [Hr _].
        by apply list_elem_of_In.
      * eapply find_student_only; [|exact Hr]. reflexivity.
Qed.

End AttendanceFacts.

Section AttendanceScenarios.

Import AttendanceController.

#[local] Open Scope float_scope.

(** The summary endpoint on a range where a student was late on every day:
    it answers 100, while round(present / total * 100) is 0. *)
Lemma C4_counterexample_late_counts_as_present :
  ∃ sm recs,
    getStudentAttendanceSummary Scenario.students Scenario.attendance
      Scenario.admin "s2" None None None = Success 200 (sm, recs) ∧
    recs = [Scenario.a2] ∧
    attendancePercentage sm = 100 ∧
    Math_round
      ((Number_of_nat (count_status Attendance.Present recs)
        / Number_of_nat (length recs)) * 100) = 0.
Proof.
  eexists _, _. split; [vm_compute; reflexivity|].
  split; [reflexivity|]. split; vm_compute; reflexivity.
Qed.

(** Student s1 has one record, marked 'Present': both computations give
    100. *)
Lemma C4_witness_one_present_record :
  calculateStudentAttendance Scenario.attendance "s1" = 100 ∧
  ∃ sm recs,
    getStudentAttendanceSummary Scenario.students Scenario.attendance
      Scenario.admin "s1" None None None = Success 200 (sm, recs) ∧
    attendancePercentage sm = 100.
Proof.
  assert (Hpos : (0 < length (records_of Scenario.attendance "s1"))%nat)
    by (vm_compute; lia).
  destruct (C4_attendance_percentage Scenario.attendance "s1" Hpos)
    as [Hcalc Hsum].
  split.
  - rewrite Hcalc. vm_compute. reflexivity.
  - assert (E : getStudentAttendanceSummary Scenario.students
                   Scenario.attendance Scenario.admin "s1" None None None
                 = Success 200 (summarize [Scenario.a1], [Scenario.a1]))
      by (vm_compute; reflexivity).
    exists (summarize [Scenario.a1]), [Scenario.a1]. split; [exact E|].
    destruct (Hsum _ _ _ _ _ _ _ E) as [Hp _]; [cbn; lia|].
    rewrite Hp. vm_compute. reflexivity.
Defined.

(** Whenever the caller gives a [student] parameter, it is the student
    condition of the query, whatever the role put there. *)
Lemma student_parameter_replaces_scope
    (students : list Student.t) (teachers : list Teacher.t)
    (user : User) (req : Req) :
  truthy (studentId req) = true ->
  student (build_query students teachers user req) = Is <$> studentId req.
Proof.
  intros H. unfold build_query, apply_filters. cbn. by rewrite H.
Qed.

(** C1, at the failing input.  The Student principal u1, whose profile is
    s1, asks for [?student=s2] and receives the record of student s2. *)
Lemma C1_student_receives_other_students_record :
  Student.findOne_user Scenario.students (user_id Scenario.student_u1)
    = Some Scenario.s1 ∧
  ∃ envelope,
    getAttendance Scenario.students [] Scenario.attendance
      Scenario.student_u1 Scenario.req_student_s2
    = Success 200 ([Scenario.a2], envelope) ∧
    Attendance.student Scenario.a2 = "s2" ∧
    Student._id Scenario.s1 = "s1".
Proof.
  split; [reflexivity|]. eexists. split; [vm_compute; reflexivity|].
  split; reflexivity.
Qed.

End AttendanceScenarios.

(** ** Pagination *)

Section PaginationFacts.

#[local] Open Scope float_scope.

(** A page holds documents of the sorted matches only. *)
Lemma cursor_subseteq {A : Type} (skip limit : Z) (docs page : list A) :
  Pagination.cursor skip limit docs = Some page -> page ⊆ docs.
Proof.
  unfold Pagination.cursor.
  destruct (skip <? 0)%Z; [discriminate|].
  destruct (limit =? 0)%Z; intros [= <-].
  - apply subseteq_drop.
  - etrans; [apply subseteq_take | apply subseteq_drop].
Qed.



(** On small counts the binary64 quotient rounds up to the integer ceiling:
    checked for every total up to 300 and every limit from 1 to 100. *)
Lemma pages_is_integer_ceiling_small :
  forallb
    (fun limit =>
       forallb
         (fun total =>
            (Math_ceil (Number_of_nat total / Number_of_Z (Z.of_nat limit))
             =? Number_of_Z ((Z.of_nat total + Z.of_nat limit - 1)
                             / Z.of_nat limit)))
         (seq 0 301))
    (seq 1 100) = true.
Proof. vm_compute. reflexivity. Qed.






(** The same request on a list with the shared block. *)
Example envelope_page_1_of_25 :
  Pagination.envelope (Some 1%Z) (Some 10%Z) 25
  = {| Pagination.current := 1; Pagination.pages := 3;
       Pagination.total := 25; Pagination.hasNext := Some true;
       Pagination.hasPrev := Some false; Pagination.limit := None |}.
Proof. vm_compute. reflexivity. Qed.

(** Page 2 of 25 exams, 10 to a page; a page below 1 is refused. *)
Example getExams_page_2_of_25 :
  ListControllers.getExams (Some (seq 1 25)) (Some 2%Z) None
  = Success 200
      (seq 11 10,
       {| Pagination.current := 2; Pagination.pages := 3;
          Pagination.total := 25; Pagination.hasNext := Some true;
          Pagination.hasPrev := Some true; Pagination.limit := None |}) ∧
  ListControllers.getExams (Some (seq 1 25)) (Some 0%Z) None
  = Failure 500 "Server error while fetching exams".
Proof. split; vm_compute; reflexivity. Qed.

End PaginationFacts.

(** ** Attendance scope without a [student] parameter *)

Section AttendanceScope.

Import AttendanceController.

(** What the role scope does give: a Student principal with a profile who
    sends no [student] parameter receives records of that profile only,
    whatever the other parameters are. *)
Lemma student_scope_without_parameter
    (students : list Student.t) (teachers : list Teacher.t)
    (store : list Attendance.t) (user : User) (req : Req) (s : Student.t)
    (records : list Attendance.t) (e : Pagination.t) :
  role user = "Student" ->
  Student.findOne_user students (user_id user) = Some s ->
  truthy (studentId req) = false ->
  getAttendance students teachers store user req = Success 200 (records, e) ->
  ∀ r, r ∈ records → r ∈ store ∧ Attendance.student r = Student._id s.
Proof.
  intros Hrole Hs Hparam. unfold getAttendance.
  destruct (Pagination.cursor _ _ _) as [pg|] eqn:Hcur; [|discriminate].
  intros [= <- _] r Hr.
  apply (cursor_subseteq _ _ _ _ Hcur) in Hr.
  rewrite merge_sort_Permutation in Hr. split.
  - apply list_elem_of_In, filter_In in Hr as [Hr _]. by apply list_elem_of_In.
  - eapply find_student_only; [|exact Hr].
    unfold build_query, apply_filters, role_filter. cbn [student].
    by rewrite Hparam, Hrole, Hs.
Qed.

(** A Student principal without a profile document is not scoped at all. *)
Example student_without_profile_is_unscoped :
  build_query Scenario.students []
    {| user_id := "u7"; role := "Student" |}
    {| page := None; limit := None; classId := None; sectionId := None;
       studentId := None; subjectId := None; q_date := None;
       startDate := None; endDate := None; q_status := None |}
  = empty.
Proof. reflexivity. Qed.

End AttendanceScope.

(** ** Notices *)

Section NoticeFacts.

Import NoticesController.

#[local] Instance pinned_first_total : Total Notice.pinned_first.
Proof.
  intros a b. unfold Notice.pinned_first.
  destruct (Notice.isPinned a), (Notice.isPinned b);
    destruct (Z.le_ge_cases (Notice.publishDate a) (Notice.publishDate b));
    auto.
Qed.

#[local] Instance pinned_first_trans : Transitive Notice.pinned_first.
Proof.
  intros a b c. unfold Notice.pinned_first.
  destruct (Notice.isPinned a), (Notice.isPinned b), (Notice.isPinned c);
    intros [[??]|[??]] [[??]|[??]]; try discriminate; auto;
    right; split; auto; lia.
Qed.


(** The filter of [getForUser], as a proposition. *)
Lemma matches_for_user_visible (now : Date) (userRole : string)
    (classes : list ObjectId) (includeExpired : bool) (n : Notice.t) :
  Notice.matches_for_user now userRole classes includeExpired n = true
  ↔ visible now userRole classes includeExpired n.
Proof.
  unfold Notice.matches_for_user, visible, Notice.unexpired,
    Notice.for_audience, Notice.for_classes.
  rewrite !andb_true_iff, !orb_true_iff, !bool_decide_eq_true, Z.leb_le.
  split.
  - intros (((((Hp & Ha) & Hd) & He) & Haud) & Hc).
    repeat split; auto.
    + destruct He as [He|He]; [auto|]. right.
      destruct (Notice.expiryDate n) as [e|]; [|auto].
      right. exists e. split; [done|]. by apply Z.ltb_lt.
    + intros Hne. destruct classes as [|c classes]; [done|].
      apply orb_true_iff in Hc as [Hc|Hc].
      * left. by apply bool_decide_eq_true in Hc.
      * right. apply existsb_exists in Hc as (c' & Hin & Hc').
        exists c'. split; [by apply list_elem_of_In|].
        by apply bool_decide_eq_true in Hc'.
  - intros (Hp & Ha & Hd & He & Haud & Hc).
    repeat split; auto.
    + destruct He as [He|[He|(e & He & Hlt)]]; [auto| |].
      * right. by rewrite He.
      * right. rewrite He. by apply Z.ltb_lt.
    + destruct classes as [|c classes]; [done|].
      apply orb_true_iff.
      destruct (Hc ltac:(done)) as [Hc'|(c' & Hin & Hc')].
      * left. by apply bool_decide_eq_true.
      * right. apply existsb_exists. exists c'.
        split; [by apply list_elem_of_In|]. by apply bool_decide_eq_true.
Qed.

Lemma for_user_sorted_spec (now : Date) (store : list Notice.t)
    (userRole : string) (classes : list ObjectId) (includeExpired : bool)
    (n : Notice.t) :
  n ∈ Notice.for_user_sorted now store userRole classes includeExpired
  ↔ n ∈ store ∧ visible now userRole classes includeExpired n.
Proof.
  unfold Notice.for_user_sorted.
  rewrite merge_sort_Permutation, list_elem_of_In, filter_In,
    <- list_elem_of_In.
  by rewrite matches_for_user_visible.
Qed.





End NoticeFacts.

Section NoticeScenarios.

Import NoticesController.



(** The audience enum is plural ('Students') and the role is 'Student':
    the comparison of [getForUser] finds no string of the role in the
    audience ["Students"]. *)
Example students_audience_is_not_the_student_role :
  Notice.for_audience "Student"
    {| Notice._id := "n3"; Notice.category := "General";
       Notice.priority := "Normal"; Notice.targetAudience := ["Students"];
       Notice.targetClasses := []; Notice.publishDate := 1705000000000;
       Notice.expiryDate := None; Notice.isPublished := true;
       Notice.isPinned := false; Notice.isActive := true |} = false.
Proof. reflexivity. Qed.

(** Pages cut the result: with [limit=1] an Admin finds the pinned notice
    on page 1 and the other visible notice on page 2 only. *)
Example visible_notice_is_on_its_page_only :
  let req p :=
    {| page := Some p; limit := Some 1; category := None; priority := None;
       targetAudience := None; includeExpired := None; pinnedOnly := None |} in
  let store := [Scenario.general_notice; Scenario.pinned_notice] in
  (∃ e, getNotices Scenario.students ["c1"] store Scenario.now
          Scenario.admin (req 1) = Success 200 ([Scenario.pinned_notice], e)) ∧
  (∃ e, getNotices Scenario.students ["c1"] store Scenario.now
          Scenario.admin (req 2) = Success 200 ([Scenario.general_notice], e)).
Proof. split; eexists; vm_compute; reflexivity. Qed.

End NoticeScenarios.

(** ** Library *)

Section LibraryFacts.

#[local] Open Scope float_scope.

(** A book that [save] accepts is returned as it is and has
    [0 <= availableCopies <= totalCopies]. *)
Lemma save_copies_ok (b b' : Library.t) :
  Library.save b = Saved b' -> b' = b ∧ Library.copies_ok b.
Proof.
  unfold Library.save, Library.pre_save, Library.validate, ge, gt.
  destruct (1 <=? Library.totalCopies b) eqn:Ht; [|discriminate].
  destruct (0 <=? Library.availableCopies b) eqn:Ha; [|discriminate].
  cbn [andb].
  destruct (Library.totalCopies b <? Library.availableCopies b) eqn:Hlt;
    [discriminate|].
  intros [= <-]. split; [reflexivity|]. split; [exact Ha|].
  exact (ltb_false_leb _ _ _ _ Ha Ht Hlt).
Qed.

Lemma store_ok_insert (store : Library.Store) (id : ObjectId) (b : Library.t) :
  Library.store_ok store -> Library.copies_ok b ->
  Library.store_ok (<[id := b]> store).
Proof.
  intros Hs Hb id' b'. rewrite lookup_insert.
  case_decide; [by intros [= <-]|]. apply Hs.
Qed.

Lemma issueBook_cases (store : Library.Store) (id : ObjectId) :
  (∃ status message,
     Library.issueBook store id = (Failure status message, store)) ∨
  (∃ book,
     store !! id = Some book ∧
     le (Library.availableCopies book) 0 = false ∧
     Library.copies_ok
       (Library.with_available book (Library.availableCopies book - 1)) ∧
     Library.issueBook store id =
       (Success 200
          (Library.with_available book (Library.availableCopies book - 1)),
        <[id := Library.with_available book
                  (Library.availableCopies book - 1)]> store)).
Proof.
  unfold Library.issueBook.
  destruct (store !! id) as [book|]; [|eauto].
  destruct (le (Library.availableCopies book) 0) eqn:Hle; [eauto|].
  destruct (Library.save _) as [b'|e] eqn:Hsave; [|eauto].
  apply save_copies_ok in Hsave as [-> Hok]. right. eauto.
Qed.

Lemma returnBook_cases (store : Library.Store) (id : ObjectId) :
  (∃ status message,
     Library.returnBook store id = (Failure status message, store)) ∨
  (∃ book,
     store !! id = Some book ∧
     ge (Library.availableCopies book) (Library.totalCopies book) = false ∧
     Library.copies_ok
       (Library.with_available book (Library.availableCopies book + 1)) ∧
     Library.returnBook store id =
       (Success 200
          (Library.with_available book (Library.availableCopies book + 1)),
        <[id := Library.with_available book
                  (Library.availableCopies book + 1)]> store)).
Proof.
  unfold Library.returnBook.
  destruct (store !! id) as [book|]; [|eauto].
  destruct (ge (Library.availableCopies book) (Library.totalCopies book))
    eqn:Hge; [eauto|].
  destruct (Library.save _) as [b'|e] eqn:Hsave; [|eauto].
  apply save_copies_ok in Hsave as [-> Hok]. right. eauto.
Qed.

(** C6.  [0 <= availableCopies <= totalCopies] holds for every book after
    an issue and after a return.  An issue with availableCopies = 0 is
    rejected (status 400) and a return with availableCopies = totalCopies
    is rejected (status 400); a rejected operation leaves the collection as
    it was; a successful issue stores availableCopies - 1 and a successful
    return stores availableCopies + 1, with totalCopies untouched. *)
Theorem C6_library_copies_invariant (store : Library.Store) (id : ObjectId) :
  Library.store_ok store ->
  Library.store_ok (Library.issueBook store id).2 ∧
  Library.store_ok (Library.returnBook store id).2 ∧
  (∀ book, store !! id = Some book →
     ((Library.availableCopies book =? 0) = true →
      Library.issueBook store id
      = (Failure 400 "No copies available for issue", store)) ∧
     ((Library.availableCopies book =? Library.totalCopies book) = true →
      Library.returnBook store id
      = (Failure 400 "All copies are already available", store)) ∧
     (∀ status book', (Library.issueBook store id).1 = Success status book' →
        Library.availableCopies book' = Library.availableCopies book - 1 ∧
        Library.totalCopies book' = Library.totalCopies book ∧
        (Library.issueBook store id).2 = <[id := book']> store) ∧
     (∀ status book', (Library.returnBook store id).1 = Success status book' →
        Library.availableCopies book' = Library.availableCopies book + 1 ∧
        Library.totalCopies book' = Library.totalCopies book ∧
        (Library.returnBook store id).2 = <[id := book']> store)) ∧
  (∀ status message,
     (Library.issueBook store id).1 = Failure status message →
     (Library.issueBook store id).2 = store) ∧
  (∀ status message,
     (Library.returnBook store id).1 = Failure status message →
     (Library.returnBook store id).2 = store).
Proof.
  intros Hok.
  pose proof (issueBook_cases store id) as Hi.
  pose proof (returnBook_cases store id) as Hr.
  split; [|split; [|split; [|split]]].
  - destruct Hi as [(st & msg & ->)|(b & _ & _ & Hb & ->)]; [exact Hok|].
    by apply store_ok_insert.
  - destruct Hr as [(st & msg & ->)|(b & _ & _ & Hb & ->)]; [exact Hok|].
    by apply store_ok_insert.
  - intros book Hbook. split; [|split; [|split]].
    + intros Hz. apply eqb_leb in Hz as [Hz _].
      unfold Library.issueBook, le. by rewrite Hbook, Hz.
    + intros He. apply eqb_leb in He as [_ He].
      unfold Library.returnBook, ge. by rewrite Hbook, He.
    + intros status book'.
      destruct Hi as [(st & msg & ->)|(b & Hb & _ & _ & ->)]; [discriminate|].
      rewrite Hbook in Hb. injection Hb as <-. cbn. intros [= _ <-]. auto.
    + intros status book'.
      destruct Hr as [(st & msg & ->)|(b & Hb & _ & _ & ->)]; [discriminate|].
      rewrite Hbook in Hb. injection Hb as <-. cbn. intros [= _ <-]. auto.
  - intros status message.
    destruct Hi as [(st & msg & ->)|(b & _ & _ & _ & ->)];
      [reflexivity|discriminate].
  - intros status message.
    destruct Hr as [(st & msg & ->)|(b & _ & _ & _ & ->)];
      [reflexivity|discriminate].
Qed.

Lemma scenario_books_ok : Library.store_ok Scenario.books.
Proof.
  intros id b Hb. unfold Scenario.books in Hb.
  apply lookup_singleton_Some in Hb as [_ <-].
  split; vm_compute; reflexivity.
Qed.

(** The scenario of the specification: with one copy on the shelf the issue
    succeeds and leaves none, a second issue is refused, and the return
    brings the copy back. *)
Lemma C6_scenario_issue_then_return :
  let issued := Library.with_available Scenario.book 0 in
  let store1 := <["b1" := issued]> Scenario.books in
  let returned := Library.with_available Scenario.book 1 in
  Library.issueBook Scenario.books "b1" = (Success 200 issued, store1) ∧
  Library.issueBook store1 "b1"
    = (Failure 400 "No copies available for issue", store1) ∧
  Library.returnBook store1 "b1"
    = (Success 200 returned, <["b1" := returned]> store1) ∧
  Library.store_ok store1 ∧
  Library.store_ok (<["b1" := returned]> store1).
Proof.
  intros issued store1 returned.
  assert (Hi : Library.issueBook Scenario.books "b1"
               = (Success 200 issued, store1)).
  { unfold Library.issueBook, Scenario.books. rewrite lookup_singleton_eq.
    reflexivity. }
  assert (Hl : store1 !! "b1" = Some issued) by apply lookup_insert_eq.
  assert (Hr : Library.returnBook store1 "b1"
               = (Success 200 returned, <["b1" := returned]> store1)).
  { unfold Library.returnBook. rewrite Hl. reflexivity. }
  pose proof (C6_library_copies_invariant Scenario.books "b1"
                scenario_books_ok) as (Hok1 & _).
  rewrite Hi in Hok1. cbn [snd] in Hok1.
  pose proof (C6_library_copies_invariant store1 "b1" Hok1)
    as (_ & Hok2 & Hops & _).
  rewrite Hr in Hok2. cbn [snd] in Hok2.
  destruct (Hops issued Hl) as (Hrej & _).
  split; [exact Hi|]. split; [apply Hrej; reflexivity|].
  split; [exact Hr|]. split; [exact Hok1 | exact Hok2].
Defined.

End LibraryFacts.

(** ** Messages *)

Section MessageFacts.

Lemma truthy_or_else (t : option string) (d : string) :
  truthy t = true -> t = Some (or_else t d).
Proof.
  destruct t as [s|]; cbn; [|discriminate].
  by destruct (String.eqb s "").
Qed.

Lemma falsy_or_else (t : option string) (d : string) :
  truthy t = false -> or_else t d = d.
Proof.
  destruct t as [s|]; cbn; [|done].
  by destruct (String.eqb s "").
Qed.

(** C7.  A message saved without a threadId gets its own id as threadId
    when it has no parentMessage, and otherwise the threadId of its parent,
    or the id of the parent when the parent has none.  A reply created by
    the reply operation has the original message as parentMessage and the
    threadId of the original (the id of the original when it has none). *)
Theorem C7_message_threading
    (store : Message.Store) (id : ObjectId) (m : Message.t) :
  (truthy (Message.threadId m) = false → Message.parentMessage m = None →
   ∃ m', Message.create store id m = (Saved m', <[id := m']> store) ∧
         Message.threadId m' = Some id) ∧
  (truthy (Message.threadId m) = false →
   ∀ p parent,
     Message.parentMessage m = Some p → store !! p = Some parent →
     ∃ m', Message.create store id m = (Saved m', <[id := m']> store) ∧
           (truthy (Message.threadId parent) = true →
            Message.threadId m' = Message.threadId parent) ∧
           (truthy (Message.threadId parent) = false →
            Message.threadId m' = Some p)) ∧
  (∀ user original_id original body priority status reply store',
     store !! original_id = Some original →
     Message.replyMessage store user original_id body priority id
       = (Success status reply, store') →
     Message.parentMessage reply = Some original_id ∧
     (truthy (Message.threadId original) = true →
      Message.threadId reply = Message.threadId original) ∧
     (truthy (Message.threadId original) = false →
      Message.threadId reply = Some original_id) ∧
     store' = <[id := reply]> store).
Proof.
  split; [|split].
  - intros Hno Hroot. unfold Message.create, Message.pre_save.
    rewrite Hno, Hroot. eauto.
  - intros Hno p parent Hp Hparent. unfold Message.create, Message.pre_save.
    rewrite Hno, Hp, Hparent. eexists. split; [reflexivity|].
    cbn [Message.threadId Message.with_threadId]. split; intros Ht.
    + symmetry. by apply truthy_or_else.
    + by rewrite falsy_or_else.
  - intros user original_id original body priority status reply store' Ho.
    unfold Message.replyMessage. rewrite Ho.
    destruct (negb (Message.reply_validation body priority)); [discriminate|].
    destruct (negb _ && negb _); [discriminate|].
    unfold Message.create, Message.pre_save.
    cbn [Message.threadId Message.parentMessage]. rewrite Ho.
    destruct (truthy (Message.threadId original)) eqn:Ht.
    + intros [= _ <- <-]. cbn. repeat split; auto. discriminate.
    + intros [= _ <- <-]. cbn. repeat split; [discriminate|].
      intros _. by rewrite falsy_or_else.
Qed.

(** User u2 answers the message m1, which opened the thread "m1". *)
Lemma C7_scenario_reply :
  ∃ reply,
    Message.replyMessage Scenario.messages
      {| user_id := "u2"; role := "Teacher" |} "m1" "I will." None "m2"
    = (Success 201 reply, <["m2" := reply]> Scenario.messages) ∧
    Message.parentMessage reply = Some "m1" ∧
    Message.threadId reply = Some "m1" ∧
    Message.recipient reply = "u1".
Proof.
  destruct (Message.replyMessage Scenario.messages
              {| user_id := "u2"; role := "Teacher" |} "m1" "I will." None "m2")
    as [[status reply|status msg] store'] eqn:Hr;
    [|exfalso; revert Hr; unfold Message.replyMessage;
      change (Scenario.messages !! "m1") with (Some Scenario.root_message);
      vm_compute; discriminate].
  assert (Ho : Scenario.messages !! "m1" = Some Scenario.root_message)
    by reflexivity.
  destruct (C7_message_threading Scenario.messages "m2" Scenario.root_message)
    as (_ & _ & Hreply).
  destruct (Hreply _ _ _ _ _ _ _ _ Ho Hr) as (Hp & Ht & _ & ->).
  exists reply. revert Hr. unfold Message.replyMessage. rewrite Ho.
  cbn. intros [= <- <-]. auto.
Defined.

End MessageFacts.

(** ** Sessions *)

Section SessionFacts.

Lemma lookup_deactivate_others (store : Session.Store) (id j : ObjectId) :
  Session.deactivate_others id store !! j
  = (fun s => if decide (j = id) then s else Session.deactivate s)
      <$> store !! j.
Proof.
  unfold Session.deactivate_others. rewrite map_lookup_imap.
  by destruct (store !! j).
Qed.

(** After the first hook has fired, only the saved document can be active. *)
Lemma deactivate_others_active (store : Session.Store) (id j : ObjectId)
    (x : Session.t) :
  Session.deactivate_others id store !! j = Some x ->
  Session.isActive x = true -> j = id.
Proof.
  rewrite lookup_deactivate_others.
  destruct (store !! j) as [y|]; [|discriminate]. cbn.
  case_decide; [done|]. by intros [= <-].
Qed.

Lemma deactivate_others_dates (store : Session.Store) (id : ObjectId) :
  Session.dates_ok store -> Session.dates_ok (Session.deactivate_others id store).
Proof.
  intros Hok j x. rewrite lookup_deactivate_others.
  destruct (store !! j) as [y|] eqn:Hy; [|discriminate]. cbn.
  specialize (Hok j y Hy). case_decide; by intros [= <-].
Qed.

Lemma pre_save_activate_one_active (store : Session.Store) (id : ObjectId)
    (s : Session.t) :
  Session.one_active store -> Session.one_active (Session.pre_save_activate store id s).
Proof.
  intros Hone. unfold Session.pre_save_activate.
  destruct (_ && _); [|exact Hone].
  intros i j x y Hi Hj Hx Hy.
  apply deactivate_others_active in Hi; [|done].
  apply deactivate_others_active in Hj; [|done]. congruence.
Qed.

(** When an active session is saved, every other stored session is
    inactive once the first hook has run. *)
Lemma pre_save_activate_others (store : Session.Store) (id j : ObjectId)
    (s x : Session.t) :
  Session.one_active store -> Session.isActive s = true ->
  j ≠ id -> Session.pre_save_activate store id s !! j = Some x ->
  Session.isActive x = false.
Proof.
  intros Hone Hs Hj. unfold Session.pre_save_activate, Session.isModified_isActive.
  rewrite Hs. cbn [andb].
  destruct (store !! id) as [old|] eqn:Hold.
  - destruct (Session.isActive old) eqn:Ho; cbn.
    + intros Hx. destruct (Session.isActive x) eqn:Hax; [|done].
      by specialize (Hone j id x old Hx Hold Hax Ho).
    + intros Hx. destruct (Session.isActive x) eqn:Hax; [|done].
      by apply deactivate_others_active in Hx.
  - intros Hx. destruct (Session.isActive x) eqn:Hax; [|done].
    by apply deactivate_others_active in Hx.
Qed.

Lemma save_unfold (store : Session.Store) (id : ObjectId) (s : Session.t) :
  Session.save store id s
  = if Session.endDate s <=? Session.startDate s
    then (SaveError "End date must be after start date",
          Session.pre_save_activate store id s)
    else (Saved s, <[id := s]> (Session.pre_save_activate store id s)).
Proof. reflexivity. Qed.

Lemma save_one_active (store : Session.Store) (id : ObjectId) (s : Session.t) :
  Session.one_active store -> Session.one_active (Session.save store id s).2.
Proof.
  intros Hone. rewrite save_unfold.
  pose proof (pre_save_activate_one_active store id s Hone) as H1.
  destruct (Session.endDate s <=? Session.startDate s); [exact H1|].
  cbn [snd]. intros i j x y. rewrite !lookup_insert.
  destruct (decide (id = i)) as [<-|Hi], (decide (id = j)) as [<-|Hj];
    [done| | |by apply H1].
  - intros [= <-] Hy Hs Hay.
    by rewrite (pre_save_activate_others store id j s y Hone Hs) in Hay.
  - intros Hx [= <-] Hax Hs.
    by rewrite (pre_save_activate_others store id i s x Hone Hs) in Hax.
Qed.

Lemma save_dates_ok (store : Session.Store) (id : ObjectId) (s : Session.t) :
  Session.dates_ok store -> Session.dates_ok (Session.save store id s).2.
Proof.
  intros Hok. rewrite save_unfold.
  assert (H1 : Session.dates_ok (Session.pre_save_activate store id s)).
  { unfold Session.pre_save_activate. destruct (_ && _); [|exact Hok].
    by apply deactivate_others_dates. }
  destruct (Z.leb_spec (Session.endDate s) (Session.startDate s)); [exact H1|].
  cbn [snd]. intros i x. rewrite lookup_insert.
  case_decide; [by intros [= <-]|]. apply H1.
Qed.

(** Both invariants hold in every collection that saves produce. *)
Lemma reachable_invariants (store : Session.Store) :
  Session.reachable store -> Session.one_active store ∧ Session.dates_ok store.
Proof.
  induction 1 as [|store id s _ [IH1 IH2]].
  - split; intros ? *; by rewrite lookup_empty.
  - split; [by apply save_one_active | by apply save_dates_ok].
Qed.

(** C8.  In every collection that saves produce, at most one session is
    active and every session ends after it starts, and a save keeps it so.
    After a save of a session with isActive = true every other session is
    inactive.  A save with endDate <= startDate is rejected with an error
    and stores nothing under the id; a save that succeeds stores the
    document, which ends after it starts. *)
Theorem C8_session_active_singleton
    (store : Session.Store) (id : ObjectId) (s : Session.t) :
  Session.reachable store ->
  (Session.one_active store ∧ Session.dates_ok store) ∧
  (Session.one_active (Session.save store id s).2 ∧
   Session.dates_ok (Session.save store id s).2) ∧
  (Session.isActive s = true →
   ∀ j x, j ≠ id → (Session.save store id s).2 !! j = Some x →
          Session.isActive x = false) ∧
  (Session.endDate s <= Session.startDate s →
   (Session.save store id s).1
   = SaveError "End date must be after start date" ∧
   (Session.save store id s).2 = Session.pre_save_activate store id s) ∧
  (∀ s', (Session.save store id s).1 = Saved s' →
     s' = s ∧
     Session.startDate s < Session.endDate s ∧
     (Session.save store id s).2 !! id = Some s).
Proof.
  intros Hreach.
  destruct (reachable_invariants store Hreach) as [Hone Hdates].
  split; [done|].
  split; [split; [by apply save_one_active | by apply save_dates_ok]|].
  rewrite save_unfold.
  destruct (Z.leb_spec (Session.endDate s) (Session.startDate s)) as [Hle|Hlt];
    cbn [fst snd].
  - split; [|split; [done|intros s'; discriminate]].
    intros Hs j x Hj. by apply pre_save_activate_others.
  - split; [|split; [lia|]].
    + intros Hs j x Hj. rewrite lookup_insert_ne by done.
      by apply pre_save_activate_others.
    + intros s' [= <-]. split; [done|]. split; [done|].
      apply lookup_insert_eq.
Qed.

(** Two years saved as active one after the other: the second save leaves
    the first year inactive; a year that ends before it starts is refused. *)
Lemma C8_scenario_two_active_saves :
  let store1 := (Session.save ∅ "y1" Scenario.year_2023).2 in
  let store2 := (Session.save store1 "y2" Scenario.year_2024).2 in
  store1 !! "y1" = Some Scenario.year_2023 ∧
  store2 !! "y2" = Some Scenario.year_2024 ∧
  (∀ x, store2 !! "y1" = Some x → Session.isActive x = false) ∧
  Session.one_active store2 ∧
  (Session.save store2 "y3"
     {| Session.name := "bad"; Session.startDate := 2; Session.endDate := 1;
        Session.isActive := false |}).1
  = SaveError "End date must be after start date".
Proof.
  intros store1 store2.
  assert (Hr1 : Session.reachable store1)
    by (apply Session.reachable_save, Session.reachable_empty).
  destruct (C8_session_active_singleton ∅ "y1" Scenario.year_2023
              Session.reachable_empty) as (_ & _ & _ & _ & Hs1).
  destruct (Hs1 Scenario.year_2023 eq_refl) as (_ & _ & Hl1).
  destruct (C8_session_active_singleton store1 "y2" Scenario.year_2024 Hr1)
    as (_ & [Hone2 _] & Hothers & _ & Hs2).
  destruct (Hs2 Scenario.year_2024 eq_refl) as (_ & _ & Hl2).
  split; [exact Hl1|]. split; [exact Hl2|].
  split; [intros x Hx; by apply (Hothers eq_refl "y1" x)|].
  split; [exact Hone2|]. reflexivity.
Defined.

End SessionFacts.

(** * Further properties of the controllers and models *)

(** ** Pages of a cursor *)

Section CursorPages.

(** A page number below 1 gives a negative skip, which the store refuses. *)
Lemma cursor_page_below_one {A : Type} (limit p : Z) (docs : list A) :
  0 < limit -> p < 1 ->
  Pagination.cursor ((p - 1) * limit) limit docs = None.
Proof.
  intros Hl Hp. unfold Pagination.cursor.
  destruct (Z.ltb_spec ((p - 1) * limit) 0) as [H|H]; [done|nia].
Qed.

(** With a positive limit, page [p >= 1] is the next [limit] documents after
    the pages before it: the pages up to [p] laid end to end are the first
    [p * limit] sorted matches, a page has at most [limit] documents, a page
    past the end is empty, and a page number below 1 is refused. *)
Lemma cursor_pages_are_consecutive {A : Type} (limit p : Z) (docs : list A) :
  0 < limit ->
  (1 <= p →
   ∃ pg, Pagination.cursor ((p - 1) * limit) limit docs = Some pg ∧
         take (Z.to_nat ((p - 1) * limit)) docs ++ pg
           = take (Z.to_nat (p * limit)) docs ∧
         Z.of_nat (length pg) <= limit ∧
         (Z.of_nat (length docs) <= (p - 1) * limit → pg = [])) ∧
  (p < 1 → Pagination.cursor ((p - 1) * limit) limit docs = None).
Proof.
  intros Hl. unfold Pagination.cursor. split.
  - intros Hp.
    destruct (Z.ltb_spec ((p - 1) * limit) 0) as [H|H]; [nia|].
    destruct (Z.eqb_spec limit 0) as [E|_]; [lia|].
    eexists. split; [reflexivity|].
    replace (Z.to_nat (Z.abs limit)) with (Z.to_nat limit) by lia.
    replace (Z.to_nat (p * limit))
      with (Z.to_nat ((p - 1) * limit) + Z.to_nat limit)%nat by nia.
    split; [by rewrite take_take_drop|]. split.
    + rewrite length_take. lia.
    + intros Hend. rewrite drop_ge by lia. by rewrite take_nil.
  - intros Hp. by apply cursor_page_below_one.
Qed.

(** The second page of two of five documents, and page 0. *)
Lemma cursor_pages_witness :
  Pagination.cursor ((2 - 1) * 2) 2 [1; 2; 3; 4; 5]%nat = Some [3; 4]%nat ∧
  Pagination.cursor ((0 - 1) * 2) 2 [1; 2; 3; 4; 5]%nat = None.
Proof.
  destruct (cursor_pages_are_consecutive 2 2 [1; 2; 3; 4; 5]%nat ltac:(lia))
    as [Hpage _].
  destruct (cursor_pages_are_consecutive 2 0 [1; 2; 3; 4; 5]%nat ltac:(lia))
    as [_ Hzero].
  split; [reflexivity | apply Hzero; lia].
Defined.

End CursorPages.

(** ** Attendance: role scope, page bounds and the summary *)

Section AttendanceMore.

Import AttendanceController.

(** A page number below 1 makes the attendance list fail with status 500
    (the store refuses the negative skip), whatever the role and filters. *)
Lemma getAttendance_page_below_one
    (students : list Student.t) (teachers : list Teacher.t)
    (store : list Attendance.t) (user : User) (req : Req) (p : Z) :
  page req = Some p -> p < 1 -> 0 < Pagination.default 10 (limit req) ->
  getAttendance students teachers store user req
  = Failure 500 "Server error while fetching attendance".
Proof.
  intros Hp Hlt Hl. unfold getAttendance. rewrite Hp. cbn [Pagination.default].
  by rewrite (cursor_page_below_one _ p _ Hl Hlt).
Qed.

(** An Admin asks for page 0. *)
Lemma getAttendance_page_below_one_witness :
  getAttendance Scenario.students [] Scenario.attendance Scenario.admin
    {| page := Some 0; limit := None; classId := None; sectionId := None;
       studentId := None; subjectId := None; q_date := None;
       startDate := None; endDate := None; q_status := None |}
  = Failure 500 "Server error while fetching attendance".
Proof.
  apply (getAttendance_page_below_one _ _ _ _ _ 0);
    [reflexivity | lia | cbn; lia].
Defined.

(** The student of user u1 asks for the records of class c1 and receives
    the one record of that student. *)
Lemma student_scope_witness :
  let req :=
    {| page := None; limit := None; classId := Some "c1";
       sectionId := None; studentId := None; subjectId := None;
       q_date := None; startDate := None; endDate := None;
       q_status := None |} in
  getAttendance Scenario.students [] Scenario.attendance Scenario.student_u1 req
  = Success 200 ([Scenario.a1], Pagination.envelope None None 1) ∧
  ∀ r, r ∈ [Scenario.a1] →
       r ∈ Scenario.attendance ∧ Attendance.student r = "s1".
Proof.
  intros req.
  assert (E : getAttendance Scenario.students [] Scenario.attendance
                Scenario.student_u1 req
              = Success 200 ([Scenario.a1], Pagination.envelope None None 1))
    by (vm_compute; reflexivity).
  split; [exact E|].
  apply (student_scope_without_parameter Scenario.students []
           Scenario.attendance Scenario.student_u1 req
           Scenario.s1 [Scenario.a1]
           (Pagination.envelope None None 1));
    [reflexivity | reflexivity | reflexivity | exact E].
Defined.

(** Every record a query with a [$in] condition on the student finds is of
    one of the listed students; likewise for the class. *)
Lemma find_student_in (q : Query) (ids : list ObjectId)
    (store : list Attendance.t) (r : Attendance.t) :
  student q = Some (In ids) ->
  r ∈ find q store -> Attendance.student r ∈ ids.
Proof.
  intros Hq Hr. apply list_elem_of_In, filter_In in Hr as [_ Hm].
  unfold matches in Hm. rewrite Hq in Hm. cbn in Hm.
  repeat (apply andb_prop in Hm as [Hm _]).
  by apply bool_decide_eq_true in Hm.
Qed.

Lemma find_class_in (q : Query) (ids : list ObjectId)
    (store : list Attendance.t) (r : Attendance.t) :
  class q = Some (In ids) ->
  r ∈ find q store -> Attendance.class r ∈ ids.
Proof.
  intros Hq Hr. apply list_elem_of_In, filter_In in Hr as [_ Hm].
  unfold matches in Hm. rewrite Hq in Hm. cbn in Hm.
  do 4 (apply andb_prop in Hm as [Hm _]).
  apply andb_prop in Hm as [_ Hm].
  by apply bool_decide_eq_true in Hm.
Qed.

(** A Parent principal with registered children who sends no [student]
    parameter receives records of those children only; a Teacher principal
    with a profile who sends no [class] parameter receives records of the
    assigned classes only. *)
Lemma parent_and_teacher_scope_without_parameter
    (students : list Student.t) (teachers : list Teacher.t)
    (store : list Attendance.t) (user : User) (req : Req)
    (records : list Attendance.t) (e : Pagination.t) :
  getAttendance students teachers store user req = Success 200 (records, e) ->
  (role user = "Parent" →
   Student.find_parent students (user_id user) ≠ [] →
   truthy (studentId req) = false →
   ∀ r, r ∈ records →
        ∃ child, child ∈ students ∧
                 Student.parent child = Some (user_id user) ∧
                 Attendance.student r = Student._id child) ∧
  (role user = "Teacher" →
   ∀ t, Teacher.findOne_user teachers (user_id user) = Some t →
        truthy (classId req) = false →
        ∀ r, r ∈ records → Attendance.class r ∈ Teacher.assignedClasses t).
Proof.
  unfold getAttendance.
  destruct (Pagination.cursor _ _ _) as [pg|] eqn:Hcur; [|discriminate].
  intros [= <- _].
  assert (Hin : ∀ r, r ∈ pg →
            r ∈ find (build_query students teachers user req) store).
  { intros r Hr. apply (cursor_subseteq _ _ _ _ Hcur) in Hr.
    by rewrite merge_sort_Permutation in Hr. }
  split.
  - intros Hrole Hkids Hparam r Hr. apply Hin in Hr.
    assert (Hq : student (build_query students teachers user req)
                 = Some (In (map Student._id
                               (Student.find_parent students (user_id user))))).
    { unfold build_query, apply_filters, role_filter. cbn [student].
      rewrite Hparam, Hrole. cbn.
      by destruct (Student.find_parent students (user_id user)). }
    apply (find_student_in _ _ _ _ Hq) in Hr.
    apply list_elem_of_In, in_map_iff in Hr as (child & Hid & Hchild).
    unfold Student.find_parent in Hchild.
    apply filter_In in Hchild as [Hc Hp].
    apply bool_decide_eq_true in Hp.
    exists child. split; [by apply list_elem_of_In|]. by split.
  - intros Hrole t Ht Hparam r Hr. apply Hin in Hr.
    eapply find_class_in; [|exact Hr].
    unfold build_query, apply_filters, role_filter. cbn [class].
    rewrite Hparam, Hrole. cbn. by rewrite Ht.
Qed.

(** A parent of student s2 reads the list without a [student] parameter. *)
Lemma parent_scope_witness :
  let family :=
    [Scenario.s1;
     {| Student._id := "s2"; Student.user := "u2";
        Student.parent := Some "p1"; Student.class := Some "c1" |}] in
  let parent := {| user_id := "p1"; role := "Parent" |} in
  let req :=
    {| page := None; limit := None; classId := None; sectionId := None;
       studentId := None; subjectId := None; q_date := None;
       startDate := None; endDate := None; q_status := None |} in
  getAttendance family [] Scenario.attendance parent req
    = Success 200 ([Scenario.a2], Pagination.envelope None None 1) ∧
  ∀ r, r ∈ [Scenario.a2] →
       ∃ child, child ∈ family ∧ Student.parent child = Some "p1" ∧
                Attendance.student r = Student._id child.
Proof.
  intros family parent req.
  assert (E : getAttendance family [] Scenario.attendance parent req
              = Success 200 ([Scenario.a2], Pagination.envelope None None 1))
    by (vm_compute; reflexivity).
  split; [exact E|].
  destruct (parent_and_teacher_scope_without_parameter _ _ _ _ _ _ _ E)
    as [Hparent _].
  apply Hparent; [reflexivity | discriminate | reflexivity].
Defined.

(** The four day counters of the summary add up to the number of records:
    every record has exactly one of the four statuses. *)
Lemma count_status_partition (records : list Attendance.t) :
  (count_status Attendance.Present records
   + count_status Attendance.Absent records
   + count_status Attendance.Late records
   + count_status Attendance.Excused records = length records)%nat.
Proof.
  unfold count_status.
  induction records as [|r records IH]; [reflexivity|].
  cbn [List.filter].
  destruct (Attendance.status r);
    repeat case_bool_decide; try discriminate; try done; cbn [length]; lia.
Qed.

(** The summary endpoint answers a Student principal only for that
    principal's own profile and a Parent principal only for a registered
    child; any other student id is refused with status 403.  When it
    answers, its four day counters add up to totalDays. *)
Lemma summary_access_and_totals
    (students : list Student.t) (store : list Attendance.t) (user : User)
    (studentId : ObjectId) (startDate endDate : option Date)
    (subject : option string) :
  let response :=
    getStudentAttendanceSummary students store user studentId
      startDate endDate subject in
  (role user = "Student" →
   ((∃ data, response = Success 200 data)
    ↔ ∃ s, Student.findOne_user students (user_id user) = Some s ∧
           Student._id s = studentId) ∧
   ((∃ message, response = Failure 403 message)
    ↔ ¬ ∃ s, Student.findOne_user students (user_id user) = Some s ∧
             Student._id s = studentId)) ∧
  (role user = "Parent" →
   ((∃ data, response = Success 200 data)
    ↔ ∃ child, child ∈ students ∧ Student._id child = studentId ∧
               Student.parent child = Some (user_id user))) ∧
  (∀ sm recs, response = Success 200 (sm, recs) →
     totalDays sm = length recs ∧
     (presentDays sm + absentDays sm + lateDays sm + excusedDays sm
      = totalDays sm)%nat).
Proof.
  intros response. subst response. unfold getStudentAttendanceSummary.
  split; [|split].
  - intros Hrole. rewrite Hrole. cbn [String.eqb Ascii.eqb Bool.eqb].
    destruct (Student.findOne_user students (user_id user)) as [s|].
    + destruct (String.eqb_spec (Student._id s) studentId) as [E|E]; cbn.
      * split; split; eauto.
        -- intros [m Hm]. discriminate.
        -- intros Hn. destruct Hn. eauto.
      * split; split.
        -- intros [d Hd]. discriminate.
        -- intros (s' & [= <-] & E'). done.
        -- intros _ (s' & [= <-] & E'). done.
        -- eauto.
    + cbn. split; split.
      * intros [d Hd]. discriminate.
      * intros (s' & Hs & _). discriminate.
      * intros _ (s' & Hs & _). discriminate.
      * eauto.
  - intros Hrole. rewrite Hrole. cbn [String.eqb Ascii.eqb Bool.eqb].
    destruct (Student.findOne_id_parent students studentId (user_id user))
      as [c|] eqn:Hc.
    + split; [|eauto]. intros _.
      unfold Student.findOne_id_parent in Hc.
      apply find_some in Hc as [Hin Hc]. apply andb_prop in Hc as [Hid Hp].
      exists c. split; [by apply list_elem_of_In|].
      split; [by apply String.eqb_eq | by apply bool_decide_eq_true in Hp].
    + split; [intros [d Hd]; discriminate|].
      intros (child & Hin & Hid & Hp). exfalso.
      unfold Student.findOne_id_parent in Hc.
      apply list_elem_of_In in Hin.
      apply (find_none _ _ Hc child) in Hin.
      rewrite Hid, String.eqb_refl in Hin. cbn in Hin.
      by rewrite bool_decide_eq_true_2 in Hin.
  - intros sm recs.
    match goal with |- context [if ?d then Failure _ _ else _] => destruct d end;
      [discriminate|].
    intros [= <- <-]. cbn [totalDays presentDays absentDays lateDays
                           excusedDays summarize].
    split; [reflexivity | apply count_status_partition].
Qed.

End AttendanceMore.

(** ** Notices: caller filters, expiry, soft delete, pin and views *)

Section NoticeMore.

Import NoticesController NoticeOps.

(** The [category], [priority] and [targetAudience] parameters of the
    notice list do not select the notices that are returned: two requests
    that agree on the other parameters get the same notices.  (They only
    enter the count behind [total].) *)
Lemma getNotices_ignores_caller_filters
    (students : list Student.t) (classes : list ObjectId)
    (store : list Notice.t) (now : Date) (user : User) (req req' : Req) :
  page req = page req' -> limit req = limit req' ->
  includeExpired req = includeExpired req' ->
  pinnedOnly req = pinnedOnly req' ->
  notices_of (getNotices students classes store now user req)
  = notices_of (getNotices students classes store now user req').
Proof.
  intros Hp Hl Hi Ho. unfold getNotices. rewrite Hp, Hl, Hi, Ho.
  destruct (is_true_string (pinnedOnly req')); [reflexivity|].
  by destruct (Notice.getForUser _ _ _ _ _ _ _).
Qed.

(** An Admin asks for category 'Event' and gets both notices of the
    collection, of which only one is an 'Event' and counted in total. *)
Lemma caller_filters_witness :
  let store := [Scenario.general_notice; Scenario.pinned_notice] in
  let req :=
    {| page := None; limit := None; category := Some "Event";
       priority := None; targetAudience := None; includeExpired := None;
       pinnedOnly := None |} in
  notices_of (getNotices Scenario.students [] store Scenario.now
                Scenario.admin req)
    = Some [Scenario.pinned_notice; Scenario.general_notice] ∧
  total_of (getNotices Scenario.students [] store Scenario.now
              Scenario.admin req) = Some 1%nat.
Proof.
  intros store req. split; [|vm_compute; reflexivity].
  rewrite (getNotices_ignores_caller_filters _ _ _ _ _ req
             Scenario.req_notices) by reflexivity.
  vm_compute. reflexivity.
Defined.

(** A notice whose [isExpired] virtual is true is in no result of the list
    without includeExpired; and a notice whose expiry date is exactly now
    is not reported as expired, yet it is not listed either. *)
Lemma expired_notice_is_not_listed
    (now : Date) (store : list Notice.t) (userRole : string)
    (classes : list ObjectId) (n : Notice.t) :
  (isExpired now n = true →
   n ∉ Notice.for_user_sorted now store userRole classes false) ∧
  (Notice.expiryDate n = Some now →
   isExpired now n = false ∧
   n ∉ Notice.for_user_sorted now store userRole classes false).
Proof.
  assert (Hgen : Notice.unexpired now n = false →
            n ∉ Notice.for_user_sorted now store userRole classes false).
  { intros Hu Hin. apply for_user_sorted_spec in Hin as [_ Hv].
    apply matches_for_user_visible in Hv.
    unfold Notice.matches_for_user in Hv. rewrite Hu in Hv. cbn in Hv.
    by rewrite !andb_false_r in Hv. }
  unfold isExpired, Notice.unexpired in *. split.
  - intros He. apply Hgen. destruct (Notice.expiryDate n); [|done]. lia.
  - intros Hn. rewrite Hn in *. split; [lia|]. apply Hgen. lia.
Qed.









(** The three outcomes of [getNotice]. *)
Lemma getNotice_cases (now : Date) (store : Views) (user : User) (id : ObjectId) :
  getNotice now store user id = (Failure 404 "Notice not found", store) ∨
  (∃ d, store !! id = Some d ∧
        (negb (Notice.isPublished (notice d)) || negb (Notice.isActive (notice d)))
        && negb (String.eqb (role user) "Admin") = false ∧
        ((existsb (λ view, String.eqb view.1 (user_id user)) (viewedBy d) = true ∧
          getNotice now store user id = (Success 200 d, store)) ∨
         (existsb (λ view, String.eqb view.1 (user_id user)) (viewedBy d) = false ∧
          let d' := {| notice := notice d; viewCount := (viewCount d + 1)%float;
                       viewedBy := viewedBy d ++ [(user_id user, now)] |} in
          getNotice now store user id = (Success 200 d', <[id := d']> store)))).
Proof.
  unfold getNotice.
  destruct (store !! id) as [d|] eqn:Hd; [|by left].
  destruct ((negb _ || negb _) && negb _) eqn:Hhide; [by left|].
  right. exists d. split; [done|]. split; [done|].
  unfold incrementView.
  destruct (existsb _ (viewedBy d)) eqn:Hseen; [left|right]; done.
Qed.

(** [getNotice] hides an unpublished or deactivated notice from every
    principal but an Admin (status 404, no view recorded).  A view is
    recorded once per user: the response of a successful call names the
    user in the view log, the log never holds a user twice, a second call
    by the same user changes nothing, and no other notice is touched. *)
Lemma getNotice_conceals_and_counts_once
    (now later : Date) (store : Views) (user : User) (id : ObjectId) :
  views_ok store ->
  let store1 := (getNotice now store user id).2 in
  (∀ d, store !! id = Some d →
        role user ≠ "Admin" →
        Notice.isPublished (notice d) = false ∨
        Notice.isActive (notice d) = false →
        getNotice now store user id = (Failure 404 "Notice not found", store)) ∧
  views_ok store1 ∧
  (∀ status d, (getNotice now store user id).1 = Success status d →
     store1 !! id = Some d ∧ user_id user ∈ map fst (viewedBy d)) ∧
  (getNotice later store1 user id).2 = store1 ∧
  (∀ j, j ≠ id → store1 !! j = store !! j).
Proof.
  intros Hok store1. subst store1.
  split.
  { intros d Hd Hrole Hhidden. unfold getNotice. rewrite Hd.
    destruct (String.eqb_spec (role user) "Admin") as [E|_]; [done|].
    destruct Hhidden as [-> | ->]; cbn; by rewrite ?orb_true_r. }
  destruct (getNotice_cases now store user id)
    as [E | (d & Hd & Hhide & [[Hseen E] | [Hseen E]])];
    cbn zeta in E; rewrite E; cbn [fst snd].
  - split; [done|]. split; [done|]. split; [|done].
    destruct (getNotice_cases later store user id)
      as [E' | (d' & Hd' & Hhide' & [[Hseen' E'] | [Hseen' E']])];
      cbn zeta in E'.
    + by rewrite E'.
    + by rewrite E'.
    + exfalso. unfold getNotice in E. rewrite Hd' in E. rewrite Hhide' in E.
      unfold incrementView in E. rewrite Hseen' in E. discriminate.
  - split; [done|]. split; [|split; [|done]].
    + intros status d' [= _ <-]. split; [done|].
      apply existsb_exists in Hseen as ([u t] & Hin & Hu).
      apply String.eqb_eq in Hu. cbn in Hu. subst u.
      apply list_elem_of_In, in_map_iff. by exists (user_id user, t).
    + unfold getNotice. rewrite Hd, Hhide. unfold incrementView.
      by rewrite Hseen.
  - set (d' := {| notice := notice d; viewCount := (viewCount d + 1)%float;
                  viewedBy := viewedBy d ++ [(user_id user, now)] |}).
    assert (Hnew : user_id user ∉ map fst (viewedBy d)).
    { intros Hin. apply list_elem_of_In, in_map_iff in Hin as ([u t] & Hu & Hin).
      cbn in Hu. subst u.
      assert (existsb (λ view, String.eqb view.1 (user_id user)) (viewedBy d)
              = true); [|congruence].
      apply existsb_exists. exists (user_id user, t).
      split; [done|]. apply String.eqb_refl. }
    split; [|split; [|split]].
    + intros j dj. rewrite lookup_insert. case_decide; [|apply Hok].
      intros [= <-]. cbn [viewedBy d']. rewrite map_app. cbn.
      apply NoDup_app. split; [by eapply Hok|]. split.
      * intros x Hx ->%list_elem_of_singleton. done.
      * apply NoDup_singleton.
    + intros status d'' [= _ <-]. split; [apply lookup_insert_eq|].
      cbn [viewedBy d']. rewrite map_app. apply elem_of_app. right.
      by apply list_elem_of_singleton.
    + unfold getNotice. rewrite lookup_insert_eq. cbn [notice d'].
      rewrite Hhide. unfold incrementView. cbn [viewedBy d'].
      rewrite existsb_app. cbn. by rewrite String.eqb_refl, orb_true_r.
    + intros j Hj. by rewrite lookup_insert_ne.
Qed.

(** The student of user u1 opens the notice n2 at time 5 and again at time 9. *)
Lemma getNotice_witness :
  let d := {| notice := Scenario.general_notice; viewCount := 0%float;
              viewedBy := [] |} in
  let store : Views := {[ "n2" := d ]} in
  let store1 := (getNotice 5 store Scenario.student_u1 "n2").2 in
  (getNotice 9 store1 Scenario.student_u1 "n2").2 = store1 ∧
  store1 !! "n2"
  = Some {| notice := Scenario.general_notice; viewCount := 1%float;
            viewedBy := [("u1", 5)] |}.
Proof.
  intros d store store1.
  assert (Hok : views_ok store).
  { intros id d' Hd. unfold store in Hd.
    apply lookup_singleton_Some in Hd as [_ <-]. apply NoDup_nil_2. }
  destruct (getNotice_conceals_and_counts_once 5 9 store Scenario.student_u1
              "n2" Hok) as (_ & _ & _ & Hsecond & _).
  split; [exact Hsecond|].
  subst store1. unfold getNotice, store. rewrite lookup_singleton_eq.
  cbn -[insert]. apply lookup_insert_eq.
Defined.

End NoticeMore.

(** ** More order facts on binary64 values *)

Section FloatOrderMore.

(** [a <= b] excludes [b < a]. *)
Lemma leb_ltb_false (a b : float) :
  (a <=? b)%float = true -> (b <? a)%float = false.
Proof.
  intros Hle. destruct (b <? a)%float eqn:Hlt; [|done].
  apply ltb_leb_false in Hlt. congruence.
Qed.

Lemma eqb_sym (a b : float) : (a =? b)%float = (b =? a)%float.
Proof.
  rewrite !FloatAxioms.eqb_spec. unfold SFeqb.
  rewrite (SFcompare_antisym (Prim2SF a) (Prim2SF b)).
  by destruct (SFcompare (Prim2SF a) (Prim2SF b)) as [[]|].
Qed.

(** [a <= b] and not [a < b] leave only [a == b]. *)
Lemma leb_not_ltb_eqb_sym (a b : float) :
  (a <=? b)%float = true -> (a <? b)%float = false -> (a =? b)%float = true.
Proof. intros Hle Hlt. rewrite eqb_sym. by apply leb_not_ltb_eqb. Qed.

(** [<=] is transitive: the comparison of [spec_float] values is the
    lexicographic one on sign, exponent and mantissa. *)
Lemma SFleb_trans (a b c : spec_float) :
  SFleb a b = true -> SFleb b c = true -> SFleb a c = true.
Proof.
  unfold SFleb.
  destruct a as [sa|sa| |sa ma ea], b as [sb|sb| |sb mb eb],
    c as [sc|sc| |sc mc ec]; simpl;
    try discriminate; try reflexivity;
    try (destruct sa; simpl; try discriminate; try reflexivity; fail);
    try (destruct sb; simpl; try discriminate; try reflexivity; fail);
    try (destruct sc; simpl; try discriminate; try reflexivity; fail);
    try (destruct sa, sb; simpl; try discriminate; try reflexivity; fail);
    try (destruct sa, sc; simpl; try discriminate; try reflexivity; fail);
    try (destruct sb, sc; simpl; try discriminate; try reflexivity; fail);
    try (destruct sa, sb, sc; simpl; try discriminate; try reflexivity; fail).
  all: destruct sa, sb, sc; simpl; try discriminate; try reflexivity.
  all: destruct (Z.compare_spec ea eb), (Z.compare_spec eb ec),
         (Z.compare_spec ea ec); simpl; try discriminate; try reflexivity;
       try lia; subst.
  all: repeat match goal with
       | |- context [PosDef.Pos.compare_cont Eq ?p ?q] =>
           change (PosDef.Pos.compare_cont Eq p q) with (Pos.compare p q)
       end.
  all: try (destruct (Pos.compare_spec ma mb), (Pos.compare_spec mb mc),
         (Pos.compare_spec ma mc); simpl; try discriminate; try reflexivity;
       try lia).
Qed.

Lemma leb_trans (a b c : float) :
  (a <=? b)%float = true -> (b <=? c)%float = true -> (a <=? c)%float = true.
Proof. rewrite !leb_spec. apply SFleb_trans. Qed.

End FloatOrderMore.

(** ** Session: the active session is the one saved last as active *)

Section SessionMore.

Import Session SessionOps.

(** In a collection that saves produce, [getActiveSession] cannot depend
    on the order of the scan: it returns a session exactly when that is a
    stored active session.  After an accepted save of an active session it
    returns that session. *)
Lemma getActiveSession_is_the_active_session
    (store : Session.Store) (docs : list (ObjectId * Session.t)) :
  reachable store ->
  docs ≡ₚ map_to_list store ->
  (∀ i x, getActiveSession docs = Some (i, x) ↔
          store !! i = Some x ∧ isActive x = true) ∧
  (∀ id s docs',
     isActive s = true → startDate s < endDate s →
     docs' ≡ₚ map_to_list (save store id s).2 →
     getActiveSession docs' = Some (id, s)).
Proof.
  assert (Hfind : ∀ (st : Session.Store) (ds : list (ObjectId * Session.t)),
             one_active st → ds ≡ₚ map_to_list st →
             ∀ i x, getActiveSession ds = Some (i, x) ↔
                    st !! i = Some x ∧ isActive x = true).
  { intros st ds Hone Hperm i x. unfold getActiveSession. split.
    - intros [Hin Hact]%find_some. split; [|exact Hact].
      apply elem_of_map_to_list. rewrite <- Hperm. by apply list_elem_of_In.
    - intros [Hi Hact].
      destruct (find _ ds) as [[j y]|] eqn:Hf.
      + apply find_some in Hf as [Hin Hy]. cbn in Hy.
        apply list_elem_of_In in Hin. rewrite Hperm in Hin.
        apply elem_of_map_to_list in Hin.
        assert (j = i) as -> by (by eapply Hone).
        congruence.
      + apply elem_of_map_to_list in Hi. rewrite <- Hperm in Hi.
        apply list_elem_of_In in Hi.
        apply (find_none _ _ Hf) in Hi. cbn in Hi. congruence. }
  intros Hreach Hperm. split.
  - apply Hfind; [|done]. by apply reachable_invariants.
  - intros id s docs' Hact Hdates Hperm'.
    apply (Hfind (save store id s).2); [|done|].
    + apply (reachable_invariants _ (reachable_save store id s Hreach)).
    + split; [|done]. rewrite save_unfold.
      destruct (Z.leb_spec (endDate s) (startDate s)); [lia|].
      apply lookup_insert_eq.
Qed.

(** The year 2024-2025 saved as active after the year 2023-2024. *)
Lemma getActiveSession_witness :
  let store1 := (save ∅ "y1" Scenario.year_2023).2 in
  let store2 := (save store1 "y2" Scenario.year_2024).2 in
  getActiveSession (map_to_list store2) = Some ("y2", Scenario.year_2024).
Proof.
  intros store1 store2.
  assert (Hr1 : reachable store1) by apply reachable_save, reachable_empty.
  destruct (getActiveSession_is_the_active_session store1 (map_to_list store1)
              Hr1 (reflexivity _)) as [_ Hsave].
  apply (Hsave "y2" Scenario.year_2024); [reflexivity|reflexivity|reflexivity].
Defined.

End SessionMore.

(** ** FeePayment: the stored status at a later time *)

Section FeeMore.

Import FeePayment FeeOps.

#[local] Open Scope float_scope.

(** The status a save stores can become stale only by a pending payment
    passing its due date: at every later time the [paymentStatus] virtual
    equals a stored 'Paid', 'Partial' or 'Overdue', and for a stored
    'Pending' it is 'Pending' or 'Overdue'.  So the status conditions of
    [getOutstandingFees] and [getMonthlyCollection] select the same
    payments on the stored status as on the virtual. *)
Lemma stored_status_stays_right
    (generated : string) (now later : Date) (p p' : FeePayment.t) :
  save generated now p = Saved p' ->
  (now <= later)%Z ->
  (status p' ≠ Pending → paymentStatus later p' = status p') ∧
  (status p' = Pending →
   paymentStatus later p' = if past_due later (dueDate p') then Overdue
                            else Pending) ∧
  outstanding_now later p' = outstanding p' ∧
  collected_now later p' = collected p'.
Proof.
  unfold save. destruct (validate p); [|discriminate].
  intros [= <-] Hlater.
  unfold outstanding_now, outstanding, collected_now, collected,
    paymentStatus, status_of.
  cbn [pre_save status paidAmount dueAmount dueDate].
  unfold status_of.
  destruct (ge (paidAmount p) (dueAmount p)); [by repeat split|].
  destruct (gt (paidAmount p) 0); [by repeat split|].
  assert (Hmono : past_due now (dueDate p) = true →
                  past_due later (dueDate p) = true).
  { unfold past_due. destruct (dueDate p) as [d|]; [|done].
    intros ?%Z.ltb_lt. apply Z.ltb_lt. lia. }
  destruct (past_due now (dueDate p)) eqn:Hnow.
  - rewrite (Hmono eq_refl). by repeat split.
  - destruct (past_due later (dueDate p)); by repeat split.
Qed.

(** A payment of nothing saved before its due date and read after it. *)
Lemma stored_status_witness :
  let p := {| student := "s1"; feeType := "f1"; month := None;
              dueAmount := 100; paidAmount := 0; lateFee := 0; discount := 0;
              totalAmount := 0; dueDate := Some 50%Z;
              receiptNumber := None; status := Pending |} in
  ∃ p', save "RCP2024010001" 10 p = Saved p' ∧
        status p' = Pending ∧ paymentStatus 60 p' = Overdue ∧
        outstanding p' = true ∧ outstanding_now 60 p' = true.
Proof.
  intros p. eexists. split; [reflexivity|].
  edestruct (stored_status_stays_right "RCP2024010001" 10 60 p _ eq_refl)
    as (_ & Hpending & Hout & _); [lia|].
  split; [reflexivity|]. split; [by rewrite Hpending|].
  split; [reflexivity|]. rewrite Hout. reflexivity.
Defined.

End FeeMore.

(** ** Library: availability and the soft delete *)

Section LibraryMore.

Import Library LibraryOps.

#[local] Open Scope float_scope.

(** For a book with no negative number of available copies, [issueBook]
    answers 400 "No copies available for issue" exactly when the
    [availabilityStatus] virtual is 'Not Available'. *)
Lemma issue_refused_iff_not_available
    (store : Store) (id : ObjectId) (book : Library.t) :
  store !! id = Some book ->
  le 0 (availableCopies book) = true ->
  ((issueBook store id).1 = Failure 400 "No copies available for issue" ↔
   availabilityStatus book = NotAvailable).
Proof.
  intros Hbook Hmin. unfold issueBook, availabilityStatus. rewrite Hbook.
  unfold le in *.
  destruct (availableCopies book <=? 0) eqn:Hle; cbn [fst].
  - split; [intros _|done].
    destruct (0 <? availableCopies book) eqn:Hlt.
    + apply ltb_leb_false in Hlt. congruence.
    + by rewrite (leb_not_ltb_eqb _ _ Hmin Hlt).
  - split.
    + destruct (save _); cbn [fst]; discriminate.
    + destruct (availableCopies book =? 0) eqn:Heq.
      * apply eqb_leb in Heq as [? _]. congruence.
      * destruct (availableCopies book <=? 2); discriminate.
Qed.

(** The book of the scenario has a copy on the shelf. *)
Lemma issue_refused_witness :
  availabilityStatus Scenario.book = Limited ∧
  ((issueBook Scenario.books "b1").1
   = Failure 400 "No copies available for issue" → False).
Proof.
  split; [reflexivity|]. intros Hrefused.
  apply (issue_refused_iff_not_available Scenario.books "b1" Scenario.book)
    in Hrefused; [discriminate| reflexivity | reflexivity].
Defined.

(** [deleteBook] on a collection that satisfies the copies invariant: it
    succeeds exactly for a stored book whose copies are all available and
    whose [totalCopies] passes the schema validator (at least 1), which
    [book.save()] runs; the book stays in the collection with its copies
    unchanged and with [isActive] false, so that no list query shows it;
    every other book and, on failure, the whole collection is unchanged;
    the invariant is kept. *)
Lemma deleteBook_soft_delete (store : Store) (id : ObjectId) :
  store_ok store ->
  let r := (deleteBook store id).1 in
  let store' := (deleteBook store id).2 in
  (r = Success 200 "Book deleted successfully" ↔
   ∃ book, store !! id = Some book ∧
           (availableCopies book =? totalCopies book) = true ∧
           ge (totalCopies book) 1 = true) ∧
  (r = Success 200 "Book deleted successfully" →
   ∃ book, store !! id = Some book ∧
           store' = <[id := with_isActive book false]> store ∧
           ∀ filters d, d ∈ listed filters store' → fst d ≠ id) ∧
  (r ≠ Success 200 "Book deleted successfully" → store' = store) ∧
  (∀ j, j ≠ id → store' !! j = store !! j) ∧
  store_ok store'.
Proof.
  intros Hok r store'. subst r store'. unfold deleteBook.
  destruct (store !! id) as [book|] eqn:Hbook; cbn [fst snd].
  2:{ split; [split; [discriminate|by intros (? & ? & _)]|].
      split; [discriminate|]. split; [done|]. split; [done|]. exact Hok. }
  destruct (Hok id book Hbook) as [Hmin Hmax]. unfold le, lt in *.
  destruct (availableCopies book <? totalCopies book) eqn:Hlt; cbn [fst snd].
  { split.
    { split; [discriminate|]. intros (b & [= <-] & Heq & _).
      apply eqb_leb in Heq as [_ Hge].
      apply ltb_leb_false in Hlt. congruence. }
    split; [discriminate|]. split; [done|]. split; [done|]. exact Hok. }
  unfold save, validate, pre_save, with_isActive, gt, ge.
  cbn [availableCopies totalCopies].
  rewrite Hmin, andb_true_r, (leb_ltb_false _ _ Hmax).
  destruct (1 <=? totalCopies book) eqn:Hone; cbn [fst snd].
  - split.
    { split; [|done]. intros _. exists book. split; [done|].
      split; [|done]. apply (leb_not_ltb_eqb_sym _ _ Hmax Hlt). }
    split.
    { intros _. exists book. split; [done|]. split; [done|].
      intros filters [j b] Hin. unfold listed in Hin.
      apply list_elem_of_In, filter_In in Hin as [Hin Hcond].
      apply list_elem_of_In, elem_of_map_to_list in Hin.
      cbn in *. intros ->. rewrite lookup_insert_eq in Hin.
      injection Hin as <-. done. }
    split; [done|].
    split; [intros j Hj; by rewrite lookup_insert_ne|].
    apply store_ok_insert; [done|]. by split.
  - split.
    { split; [discriminate|]. intros (b & [= <-] & _ & Hge).
      unfold ge in Hge. congruence. }
    split; [discriminate|]. split; [done|]. split; [done|]. exact Hok.
Qed.

(** A book with all its three copies on the shelf is deleted and stays
    stored; the book of the scenario has four copies issued. *)
Lemma deleteBook_witness :
  let book := {| title := "Geometry"; totalCopies := 3; availableCopies := 3;
                 isActive := true |} in
  let store := <["b2" := book]> Scenario.books in
  (deleteBook store "b2").1 = Success 200 "Book deleted successfully" ∧
  (deleteBook store "b2").2 !! "b2" = Some (with_isActive book false) ∧
  (deleteBook store "b1").1
  = Failure 400
      "Cannot delete book with issued copies. Please return all copies first.".
Proof.
  intros book store.
  assert (Hok : store_ok store).
  { apply store_ok_insert; [apply scenario_books_ok|].
    split; vm_compute; reflexivity. }
  destruct (deleteBook_soft_delete store "b2" Hok) as (Hiff & Hdone & _).
  assert (Hr : (deleteBook store "b2").1 = Success 200 "Book deleted successfully").
  { apply Hiff. exists book. split; [apply lookup_insert_eq|].
    split; vm_compute; reflexivity. }
  split; [exact Hr|]. split; [|reflexivity].
  destruct (Hdone Hr) as (b & Hb & -> & _).
  unfold store in Hb. rewrite lookup_insert_eq in Hb. injection Hb as <-.
  apply lookup_insert_eq.
Defined.

End LibraryMore.

(** ** ExamMark: a higher percentage never gets a lower grade *)

Section ExamMore.

Import ExamMark ExamMarkOps.

#[local] Open Scope float_scope.

(** [calculateGrade] is monotone: of two percentages, the higher one gets
    a grade at least as high in the enum. *)
Lemma calculateGrade_monotone (p q : Number) :
  le p q = true ->
  (rank (calculateGrade p) <= rank (calculateGrade q))%nat.
Proof.
  intros Hpq. unfold le in Hpq.
  assert (Hup : ∀ t, ge p t = true → ge q t = true).
  { intros t Ht. unfold ge in *. by apply (leb_trans t p q). }
  unfold calculateGrade.
  repeat match goal with
  | |- context [ge p ?t] =>
      let H := fresh "H" in
      destruct (ge p t) eqn:H;
      [rewrite ?(Hup _ H); repeat (destruct (ge q _)); cbn [rank]; lia|]
  end.
  cbn [rank]. lia.
Qed.

(** 50 percent is a 'C+' and 72 percent a 'B+'. *)
Lemma calculateGrade_monotone_witness :
  (rank (calculateGrade 50) <= rank (calculateGrade 72))%nat ∧
  calculateGrade 50 = C_plus ∧ calculateGrade 72 = B_plus.
Proof.
  split; [apply calculateGrade_monotone; reflexivity|].
  split; reflexivity.
Defined.

End ExamMore.

(** ** Teacher: one assignment per subject and per class and section *)

Section TeacherMore.

Import TeacherOps.

Lemma filter_app_singleton {A : Type} (f : A → bool) (l : list A) (x : A) :
  List.filter f (l ++ [x])
  = List.filter f l ++ (if f x then [x] else []).
Proof. by rewrite List.filter_app. Qed.

Lemma filter_filter_false {A : Type} (f g : A → bool) (l : list A) :
  (∀ x, g x = true → f x = false) →
  List.filter f (List.filter g l) = [].
Proof.
  intros Hfg. induction l as [|x l IH]; [done|]. cbn.
  destruct (g x) eqn:Hg; [|done]. cbn. by rewrite (Hfg x Hg).
Qed.

Lemma filter_filter_same {A : Type} (f g : A → bool) (l : list A) :
  (∀ x, f x = true → g x = true) →
  List.filter f (List.filter g l) = List.filter f l.
Proof.
  intros Hfg. induction l as [|x l IH]; [done|]. cbn.
  destruct (g x) eqn:Hg; cbn.
  - destruct (f x); by rewrite IH.
  - destruct (f x) eqn:Hf; [|done]. apply Hfg in Hf. congruence.
Qed.

(** After [assignSubject(subjectId, classIds)] the teacher has exactly one
    assignment of that subject, with the given classes; the assignments of
    the other subjects are the same, in the same order; subjects stay
    distinct if they were; the same call again changes nothing. *)
Lemma assignSubject_one_entry_per_subject
    (assigned : list SubjectAssignment) (subjectId : ObjectId)
    (classIds : list ObjectId) :
  let assigned' := assignSubject assigned subjectId classIds in
  List.filter (fun a => String.eqb (subject a) subjectId) assigned'
  = [{| subject := subjectId; classes := classIds |}] ∧
  List.filter (fun a => negb (String.eqb (subject a) subjectId)) assigned'
  = List.filter (fun a => negb (String.eqb (subject a) subjectId)) assigned ∧
  (NoDup (map subject assigned) → NoDup (map subject assigned')) ∧
  assignSubject assigned' subjectId classIds = assigned'.
Proof.
  cbv zeta. unfold assignSubject.
  set (other := fun a => negb (String.eqb (subject a) subjectId)).
  set (new := {| subject := subjectId; classes := classIds |}).
  assert (Hnew : String.eqb (subject new) subjectId = true)
    by apply String.eqb_refl.
  assert (Hother : other new = false) by (unfold other; by rewrite Hnew).
  split; [|split; [|split]].
  - rewrite filter_app_singleton, Hnew.
    rewrite filter_filter_false; [done|].
    intros x. unfold other. by destruct (String.eqb (subject x) subjectId).
  - rewrite filter_app_singleton. fold other. rewrite Hother, app_nil_r.
    by apply filter_filter_same.
  - intros Hnd. rewrite map_app. apply NoDup_app. split; [|split].
    + clear -Hnd. induction assigned as [|x l IH]; [done|].
      cbn in *. apply NoDup_cons in Hnd as [Hx Hl].
      destruct (other x); [|by apply IH]. cbn. apply NoDup_cons.
      split; [|by apply IH].
      intros Hin. apply Hx.
      apply list_elem_of_In, in_map_iff in Hin as (y & Hy & Hin).
      apply filter_In in Hin as [Hin _].
      apply list_elem_of_In, in_map_iff. by exists y.
    + intros s Hs ->%list_elem_of_singleton.
      apply list_elem_of_In, in_map_iff in Hs as (y & Hy & Hin).
      apply filter_In in Hin as [_ Hin]. unfold other in Hin.
      cbn in Hy. rewrite Hy, String.eqb_refl in Hin. discriminate.
    + apply NoDup_singleton.
  - f_equal. rewrite filter_app_singleton. fold other.
    rewrite Hother, app_nil_r.
    by apply filter_filter_same.
Qed.

(** [assignClass(classId)] without a section leaves exactly one assignment
    of the class, the new one: every assignment of that class to a section
    is removed.  With a section it leaves exactly one assignment of that
    class and section and keeps the other sections of the class.  The
    assignments of other classes stay, and the class is among the classes
    the attendance controller reads. *)
Lemma assignClass_replaces_the_assignment
    (assigned : list ClassAssignment) (classId user : ObjectId)
    (sectionId : option ObjectId) (isClassTeacher : bool) :
  let assigned' := assignClass assigned classId sectionId isClassTeacher in
  (truthy sectionId = false →
   List.filter (fun ac => String.eqb (class ac) classId) assigned'
   = [{| class := classId; section := None;
         isClassTeacher := isClassTeacher |}]) ∧
  (∀ s, sectionId = Some s → s ≠ "" →
     List.filter (fun ac => String.eqb (class ac) classId && same_section ac s)
       assigned'
     = [{| class := classId; section := Some s;
           isClassTeacher := isClassTeacher |}] ∧
     ∀ ac, ac ∈ assigned → section ac ≠ Some s → ac ∈ assigned') ∧
  (∀ ac, ac ∈ assigned → class ac ≠ classId → ac ∈ assigned') ∧
  classId ∈ Teacher.assignedClasses (to_teacher user assigned').
Proof.
  cbv zeta. unfold assignClass. split; [|split; [|split]].
  - intros Hfalsy. rewrite Hfalsy. cbn [negb orb].
    rewrite filter_app_singleton. cbn [class].
    rewrite String.eqb_refl.
    rewrite filter_filter_false; [done|].
    intros x. rewrite andb_true_r.
    by destruct (String.eqb (class x) classId).
  - intros s -> Hs.
    assert (Htruthy : truthy (Some s) = true).
    { cbn. by destruct (String.eqb_spec s ""). }
    rewrite Htruthy. cbn [negb orb]. split.
    + rewrite filter_app_singleton. cbn [class].
      rewrite String.eqb_refl. cbn [andb].
      rewrite filter_filter_false;
        [unfold same_section; cbn [section]; by rewrite String.eqb_refl|].
      intros x. by destruct (String.eqb (class x) classId && same_section x s).
    + intros ac Hin Hsec. apply elem_of_app. left.
      apply list_elem_of_In, filter_In. split; [by apply list_elem_of_In|].
      unfold same_section. destruct (section ac) as [s'|]; [|by rewrite andb_false_r].
      destruct (String.eqb_spec s' s) as [->|_]; [done|by rewrite andb_false_r].
  - intros ac Hin Hclass. apply elem_of_app. left.
    apply list_elem_of_In, filter_In. split; [by apply list_elem_of_In|].
    by destruct (String.eqb_spec (class ac) classId).
  - unfold to_teacher. cbn [Teacher.assignedClasses].
    rewrite map_app. apply elem_of_app. right. cbn.
    by apply list_elem_of_singleton.
Qed.

End TeacherMore.

(** ** Messages: threads and flags in every reachable message box *)

Section MailboxInvariants.

Import Message Mailbox.

Lemma messages_lookup (store : Box) (id : ObjectId) :
  messages store !! id = msg <$> store !! id.
Proof. apply lookup_fmap. Qed.

Lemma messages_insert (store : Box) (id : ObjectId) (d : Doc) :
  messages (<[id := d]> store) = <[id := msg d]> (messages store).
Proof. apply fmap_insert. Qed.

(** Writing back a document with the same message leaves the collection of
    the thread hook as it is. *)
Lemma messages_update (store : Box) (id : ObjectId) (d d' : Doc) :
  store !! id = Some d -> msg d' = msg d ->
  messages (<[id := d']> store) = messages store.
Proof.
  intros Hd Hmsg. rewrite messages_insert, Hmsg.
  apply insert_id. by rewrite messages_lookup, Hd.
Qed.

Lemma with_msg_same (d : Doc) : with_msg d (msg d) = d.
Proof. by destruct d. Qed.

(** A document that has a thread id is saved as it is. *)
Lemma save_with_thread (store : Box) (id : ObjectId) (d : Doc) :
  truthy (threadId (msg d)) = true ->
  save store id d = (Saved d, <[id := d]> store).
Proof.
  intros Ht. unfold save, pre_save. by rewrite Ht, with_msg_same.
Qed.

Lemma deleted_for_elem_of (u : ObjectId) (d : Doc) :
  deleted_for u d = true ↔ u ∈ map fst (deletedBy d).
Proof.
  unfold deleted_for. rewrite existsb_exists. split.
  - intros ([v t] & Hin & Hv). apply String.eqb_eq in Hv. cbn in Hv. subst v.
    apply list_elem_of_In, in_map_iff. by exists (u, t).
  - intros Hin. apply list_elem_of_In, in_map_iff in Hin as ([v t] & Hv & Hin).
    cbn in Hv. subst v. exists (u, t). split; [done|]. apply String.eqb_refl.
Qed.

(** Two entries without a repetition, each of the sender or the recipient,
    are entries of both, who then are two users. *)
Lemma both_deleted (l : list ObjectId) (s r : ObjectId) :
  NoDup l -> (∀ u, u ∈ l → u = s ∨ u = r) -> (2 <= length l)%nat ->
  s ≠ r ∧ s ∈ l ∧ r ∈ l.
Proof.
  intros Hnd Hsub Hlen.
  destruct l as [|a [|b l]]; cbn in Hlen; [lia|lia|].
  apply NoDup_cons in Hnd as [Ha _].
  assert (Hab : a ≠ b) by (intros ->; apply Ha; left).
  assert (Ha' : a ∈ a :: b :: l) by left.
  assert (Hb' : b ∈ a :: b :: l) by (right; left).
  destruct (Hsub a Ha') as [->| ->], (Hsub b Hb') as [->| ->];
    try congruence; by repeat split.
Qed.

Lemma two_entries (l : list ObjectId) (s r : ObjectId) :
  s ≠ r -> s ∈ l -> r ∈ l -> (2 <= length l)%nat.
Proof.
  intros Hsr Hs Hr.
  destruct l as [|a [|b l]]; cbn; [|exfalso|lia].
  - by apply elem_of_nil in Hs.
  - apply list_elem_of_singleton in Hs, Hr. congruence.
Qed.

(** A new message with a thread id that fits its parent keeps the threads
    in order. *)
Lemma threads_ok_insert_new (S : Message.Store) (id : ObjectId) (m : Message.t) :
  threads_ok S -> S !! id = None ->
  truthy (threadId m) = true ->
  (parentMessage m = None → threadId m = Some id) ->
  (∀ p, parentMessage m = Some p →
        ∃ parent, S !! p = Some parent ∧ threadId m = threadId parent) ->
  threads_ok (<[id := m]> S).
Proof.
  intros Hok Hnew Ht Hroot Hparent id' m'.
  assert (Hkeep : ∀ j x, S !! j = Some x → <[id := m]> S !! j = Some x).
  { intros j x Hj. rewrite lookup_insert_ne; [done|]. congruence. }
  rewrite lookup_insert. case_decide as Hid.
  - intros [= <-]. subst id'. split; [done|]. split; [done|]. split.
    + intros p Hp. destruct (Hparent p Hp) as (parent & Hl & Heq).
      exists parent. split; [by apply Hkeep|done].
    + destruct (parentMessage m) as [p|] eqn:Hp.
      * destruct (Hparent p eq_refl) as (parent & Hl & Heq).
        destruct (Hok p parent Hl) as (_ & _ & _ & t & root & Hpt & Hroot' & Hnone).
        exists t, root. split; [congruence|]. split; [by apply Hkeep|done].
      * exists id, m. split; [by apply Hroot|].
        split; [apply lookup_insert_eq|done].
  - intros Hl. destruct (Hok id' m' Hl) as (H1 & H2 & H3 & t & root & H4 & H5 & H6).
    split; [done|]. split; [done|]. split.
    + intros p Hp. destruct (H3 p Hp) as (parent & Hpl & Heq).
      exists parent. split; [by apply Hkeep|done].
    + exists t, root. split; [done|]. split; [by apply Hkeep|done].
Qed.

Lemma box_inv_thread (store : Box) (id : ObjectId) (d : Doc) :
  box_inv store -> store !! id = Some d -> truthy (threadId (msg d)) = true.
Proof.
  intros [Hth _] Hd. apply (Hth id (msg d)). by rewrite messages_lookup, Hd.
Qed.

Lemma flags_ok_fresh (now : Date) (m : Message.t) : flags_ok (fresh now m).
Proof.
  split; [apply NoDup_nil_2|]. split; [by intros u ?%elem_of_nil|].
  split; [|cbn; split; [discriminate|by intros [? [=]]]].
  cbn. split; [discriminate|]. by intros (_ & [=] & _).
Qed.

Lemma box_inv_insert_new (now : Date) (store : Box) (id : ObjectId)
    (m : Message.t) :
  box_inv store -> store !! id = None ->
  truthy (threadId m) = true ->
  (parentMessage m = None → threadId m = Some id) ->
  (∀ p, parentMessage m = Some p →
        ∃ parent, messages store !! p = Some parent ∧
                  threadId m = threadId parent) ->
  box_inv (<[id := fresh now m]> store).
Proof.
  intros [Hth Hfl] Hnew Ht Hroot Hparent. split.
  - rewrite messages_insert. cbn [msg fresh].
    apply threads_ok_insert_new; try done.
    by rewrite messages_lookup, Hnew.
  - intros j d. rewrite lookup_insert. case_decide; [|apply Hfl].
    intros [= <-]. apply flags_ok_fresh.
Qed.

Lemma box_inv_update (store : Box) (id : ObjectId) (d d' : Doc) :
  box_inv store -> store !! id = Some d -> msg d' = msg d -> flags_ok d' ->
  box_inv (<[id := d']> store).
Proof.
  intros [Hth Hfl] Hd Hmsg Hd'. split.
  - by rewrite (messages_update _ _ _ _ Hd Hmsg).
  - intros j x. rewrite lookup_insert. case_decide; [|apply Hfl].
    by intros [= <-].
Qed.

End MailboxInvariants.

Section MailboxSteps.

Import Message Mailbox.

(** [getMessage] writes nothing, and what it shows is the stored document:
    its call of [markAsRead] is on a document with a populated recipient. *)
Lemma getMessage_reads_only (now : Date) (store : Box) (user : User)
    (id : ObjectId) :
  (getMessage now store user id).2 = store ∧
  ∀ status d, (getMessage now store user id).1 = Success status d →
              store !! id = Some d.
Proof.
  unfold getMessage, markAsRead, recipient_is.
  destruct (store !! id) as [d|]; [|by split].
  destruct (stranger user d); [by split|].
  destruct (deleted_for (user_id user) d); [by split|].
  cbn [negb andb].
  destruct (String.eqb (user_id user) (recipient (msg d))); cbn [fst snd];
    (split; [done|]); by intros ? ? [= _ <-].
Qed.

(** A participant who has not deleted the message gets it. *)
Lemma getMessage_participant (now : Date) (store : Box) (user : User)
    (id : ObjectId) (d : Doc) :
  store !! id = Some d -> stranger user d = false ->
  deleted_for (user_id user) d = false ->
  getMessage now store user id = (Success 200 d, store).
Proof.
  intros Hd Hstr Hdel. unfold getMessage, markAsRead, recipient_is.
  rewrite Hd, Hstr, Hdel. cbn [negb andb].
  by destruct (String.eqb (user_id user) (recipient (msg d))).
Qed.

(** What the writing controllers do to the collection: nothing, or the
    write of one changed document. *)
Lemma markAsRead_route_cases (now : Date) (store : Box) (user : User)
    (id : ObjectId) :
  box_inv store ->
  (markAsRead_route now store user id).2 = store ∨
  ∃ d, store !! id = Some d ∧
       user_id user = recipient (msg d) ∧ isRead d = false ∧
       markAsRead_route now store user id
       = (Success 200 "Message marked as read", <[id := set_read now d]> store).
Proof.
  intros Hinv. unfold markAsRead_route.
  destruct (store !! id) as [d|] eqn:Hd; [|by left].
  destruct (String.eqb_spec (recipient (msg d)) (user_id user)) as [Hu|Hu];
    cbn [negb]; [|by left].
  unfold markAsRead, recipient_is. rewrite <- Hu, String.eqb_refl.
  cbn [negb andb].
  destruct (isRead d) eqn:Hread; cbn [negb]; [by left|].
  rewrite save_with_thread by exact (box_inv_thread _ _ d Hinv Hd).
  right. by exists d.
Qed.

(** [PUT /:id/read] by the recipient: the answer and the collection. *)
Lemma markAsRead_route_recipient (now : Date) (store : Box) (user : User)
    (id : ObjectId) (d : Doc) :
  box_inv store -> store !! id = Some d ->
  user_id user = recipient (msg d) ->
  markAsRead_route now store user id
  = (Success 200 "Message marked as read",
     if isRead d then store else <[id := set_read now d]> store).
Proof.
  intros Hinv Hd Hu. unfold markAsRead_route, markAsRead, recipient_is.
  rewrite Hd, <- Hu, String.eqb_refl. cbn [negb andb].
  destruct (isRead d); cbn [negb]; [done|].
  by rewrite save_with_thread by exact (box_inv_thread _ _ d Hinv Hd).
Qed.

Lemma toggleStar_route_cases (store : Box) (user : User) (id : ObjectId) :
  box_inv store ->
  (∃ status e, toggleStar_route store user id = (Failure status e, store) ∧
     (status = 404%nat ∧ store !! id = None ∨
      status = 403%nat ∧ ∃ d, store !! id = Some d ∧ stranger user d = true)) ∨
  ∃ d, store !! id = Some d ∧ stranger user d = false ∧
       toggleStar_route store user id
       = (Success 200 (negb (isStarred d)), <[id := flip_star d]> store).
Proof.
  intros Hinv. unfold toggleStar_route.
  destruct (store !! id) as [d|] eqn:Hd; [|left; eauto 10].
  destruct (stranger user d) eqn:Hstr; [left; eauto 10|].
  unfold toggleStar.
  rewrite save_with_thread by exact (box_inv_thread _ _ d Hinv Hd).
  right. by exists d.
Qed.

Lemma archiveMessage_cases (store : Box) (user : User) (id : ObjectId) :
  box_inv store ->
  (∃ status e, archiveMessage store user id = (Failure status e, store) ∧
     (status = 404%nat ∧ store !! id = None ∨
      status = 403%nat ∧ ∃ d, store !! id = Some d ∧
                          recipient (msg d) ≠ user_id user)) ∨
  ∃ d, store !! id = Some d ∧ recipient (msg d) = user_id user ∧
       archiveMessage store user id
       = (Success 200 "Message archived", <[id := set_archived d]> store).
Proof.
  intros Hinv. unfold archiveMessage.
  destruct (store !! id) as [d|] eqn:Hd; [|left; eauto 10].
  destruct (String.eqb_spec (recipient (msg d)) (user_id user)) as [Hu|Hu];
    cbn [negb]; [|left; eauto 10].
  unfold archive.
  rewrite save_with_thread by exact (box_inv_thread _ _ d Hinv Hd).
  right. by exists d.
Qed.

Lemma deleteMessage_cases (now : Date) (store : Box) (user : User)
    (id : ObjectId) :
  box_inv store ->
  (∃ status e, deleteMessage now store user id = (Failure status e, store) ∧
     (status = 404%nat ∧ store !! id = None ∨
      status = 403%nat ∧ ∃ d, store !! id = Some d ∧ stranger user d = true)) ∨
  ∃ d, store !! id = Some d ∧ stranger user d = false ∧
       deleteMessage now store user id
       = (Success 200 "Message deleted",
          <[id := add_deleted now (user_id user) d]> store).
Proof.
  intros Hinv. unfold deleteMessage.
  destruct (store !! id) as [d|] eqn:Hd; [|left; eauto 10].
  destruct (stranger user d) eqn:Hstr; [left; eauto 10|].
  unfold deleteForUser.
  rewrite save_with_thread by exact (box_inv_thread _ _ d Hinv Hd).
  right. by exists d.
Qed.

Lemma stranger_false (user : User) (d : Doc) :
  stranger user d = false ↔
  user_id user = sender (msg d) ∨ user_id user = recipient (msg d).
Proof.
  unfold stranger.
  destruct (String.eqb_spec (user_id user) (sender (msg d))),
    (String.eqb_spec (user_id user) (recipient (msg d))); cbn;
    split; try tauto; try done; intros [?|?]; done.
Qed.

Lemma flags_ok_set_read (now : Date) (d : Doc) :
  flags_ok d -> flags_ok (set_read now d).
Proof.
  intros (H1 & H2 & H3 & H4). split; [done|]. split; [done|].
  split; [done|]. cbn. split; [by eexists|done].
Qed.

Lemma flags_ok_flip_star (d : Doc) : flags_ok d -> flags_ok (flip_star d).
Proof. intros (H1 & H2 & H3 & H4). exact (conj H1 (conj H2 (conj H3 H4))). Qed.

Lemma flags_ok_set_archived (d : Doc) : flags_ok d -> flags_ok (set_archived d).
Proof. intros (H1 & H2 & H3 & H4). exact (conj H1 (conj H2 (conj H3 H4))). Qed.

Lemma deleted_for_add_deleted (now : Date) (u v : ObjectId) (d : Doc) :
  deleted_for v (add_deleted now u d) = deleted_for v d || String.eqb v u.
Proof.
  unfold add_deleted, deleted_for at 1. cbn [deletedBy].
  destruct (deleted_for u d) eqn:Hu.
  - fold (deleted_for v d).
    destruct (String.eqb_spec v u) as [->|_]; [|by rewrite orb_false_r].
    by rewrite Hu.
  - rewrite existsb_app. fold (deleted_for v d). cbn.
    by rewrite orb_false_r, (String.eqb_sym u v).
Qed.

Lemma flags_ok_add_deleted (now : Date) (u : ObjectId) (d : Doc) :
  flags_ok d ->
  u = sender (msg d) ∨ u = recipient (msg d) ->
  flags_ok (add_deleted now u d).
Proof.
  intros (Hnd & Hsub & Hdel & Hread) Hu.
  assert (Hnd' : NoDup (map fst (deletedBy (add_deleted now u d)))).
  { unfold add_deleted. cbn [deletedBy].
    destruct (deleted_for u d) eqn:Hdu; [done|].
    rewrite map_app. apply NoDup_app. split; [done|]. split.
    - intros x Hx Hx'. cbn in Hx'. apply list_elem_of_singleton in Hx'.
      subst x. apply deleted_for_elem_of in Hx. congruence.
    - apply NoDup_singleton. }
  assert (Hsub' : ∀ v, v ∈ map fst (deletedBy (add_deleted now u d)) →
                       v = sender (msg d) ∨ v = recipient (msg d)).
  { intros v Hv. apply deleted_for_elem_of in Hv.
    rewrite deleted_for_add_deleted in Hv.
    apply orb_true_iff in Hv as [Hv|Hv].
    - apply Hsub. by apply deleted_for_elem_of.
    - apply String.eqb_eq in Hv. by subst v. }
  split; [done|]. split; [done|]. split; [|done].
  change (msg (add_deleted now u d)) with (msg d).
  split.
  - intros Hdeleted.
    destruct (Nat.leb_spec 2 (length (deletedBy (add_deleted now u d))))
      as [Hlen|Hlen].
    + rewrite <- (length_map fst) in Hlen.
      destruct (both_deleted _ _ _ Hnd' Hsub' Hlen) as (Hsr & Hs & Hr).
      by rewrite !deleted_for_elem_of.
    + assert (Hold : isDeleted d = true).
      { revert Hdeleted Hlen. unfold add_deleted. cbn [isDeleted deletedBy].
        destruct (2 <=? _)%nat eqn:E; [|done].
        apply Nat.leb_le in E. lia. }
      apply Hdel in Hold as (Hsr & Hs & Hr).
      rewrite !deleted_for_add_deleted, Hs, Hr. done.
  - intros (Hsr & Hs & Hr).
    apply deleted_for_elem_of in Hs, Hr.
    pose proof (two_entries _ _ _ Hsr Hs Hr) as Hlen.
    rewrite length_map in Hlen.
    revert Hlen. unfold add_deleted. cbn [isDeleted deletedBy].
    intros Hlen. apply Nat.leb_le in Hlen. by rewrite Hlen.
Qed.

(** Every call keeps the invariant. *)
Lemma run_box_inv (now : Date) (store : Box) (op : Op) :
  box_inv store -> allowed store op -> box_inv (run now store op).
Proof.
  intros Hinv Hallowed. destruct op as [id m|user id body priority newId
    |user id|user id|user id|user id|user id]; cbn [run allowed] in *.
  - destruct Hallowed as (Hnew & Hid & Hnone).
    unfold create, Message.create, pre_save. rewrite Hnone. cbn [truthy].
    destruct (parentMessage m) as [p|] eqn:Hp.
    + destruct (messages store !! p) as [parent|] eqn:Hparent;
        cbn [fst snd]; [|done].
      assert (Ht : truthy (threadId parent) = true)
        by (by apply (proj1 Hinv p parent)).
      apply box_inv_insert_new; try done;
        cbn [threadId with_threadId parentMessage].
      * by rewrite <- (truthy_or_else _ p Ht).
      * by rewrite Hp.
      * rewrite Hp. intros ? [= <-]. exists parent. split; [done|].
        symmetry. by apply truthy_or_else.
    + cbn [fst snd].
      apply box_inv_insert_new; try done;
        cbn [threadId with_threadId parentMessage].
      * cbn. by destruct (String.eqb_spec id "").
      * by rewrite Hp.
  - destruct Hallowed as (Hnew & Hid).
    unfold replyMessage, Message.replyMessage.
    destruct (negb (reply_validation body priority)); [done|].
    destruct (messages store !! id) as [original|] eqn:Ho; [|done].
    destruct (negb _ && negb _); [done|].
    assert (Ht : truthy (threadId original) = true)
      by (by apply (proj1 Hinv id original)).
    unfold Message.create, pre_save. cbn [threadId]. rewrite Ht.
    cbn [fst snd].
    apply box_inv_insert_new; try done; cbn [threadId parentMessage].
    intros ? [= <-]. by exists original.
  - by rewrite (proj1 (getMessage_reads_only now store user id)).
  - destruct (markAsRead_route_cases now store user id Hinv)
      as [-> | (d & Hd & _ & _ & ->)]; [done|]. cbn [snd].
    apply (box_inv_update _ _ d); try done.
    apply flags_ok_set_read. by apply (proj2 Hinv id).
  - destruct (toggleStar_route_cases store user id Hinv)
      as [(? & ? & -> & _) | (d & Hd & _ & ->)]; [done|]. cbn [snd].
    apply (box_inv_update _ _ d); try done.
    apply flags_ok_flip_star. by apply (proj2 Hinv id).
  - destruct (archiveMessage_cases store user id Hinv)
      as [(? & ? & -> & _) | (d & Hd & _ & ->)]; [done|]. cbn [snd].
    apply (box_inv_update _ _ d); try done.
    apply flags_ok_set_archived. by apply (proj2 Hinv id).
  - destruct (deleteMessage_cases now store user id Hinv)
      as [(? & ? & -> & _) | (d & Hd & Hstr & ->)]; [done|]. cbn [snd].
    apply (box_inv_update _ _ d); try done.
    apply flags_ok_add_deleted; [by apply (proj2 Hinv id)|].
    by apply stranger_false.
Qed.

Lemma reachable_box_inv (store : Box) : reachable store -> box_inv store.
Proof.
  induction 1 as [|now store op _ IH Hallowed].
  - split; intros ? *; [unfold messages; rewrite fmap_empty|];
      by rewrite lookup_empty.
  - by apply run_box_inv.
Qed.

End MailboxSteps.

Section MailboxFacts.

Import Message Mailbox.

Lemma reachable_box2 : reachable box2.
Proof.
  apply reachable_run; [|by split].
  apply reachable_run; [apply reachable_empty|]. by split.
Qed.

Lemma box2_m1 : box2 !! "m1" = Some (fresh 10 (with_threadId note "m1")).
Proof. reflexivity. Qed.

(** In every message box that the routes produce, every message has a
    thread id; a message without a parent opened the thread named by its
    own id; a reply is in the thread of its parent, which is stored; and
    the thread id is the id of a stored message without a parent. *)
Lemma threads_of_a_reachable_box (store : Box) :
  reachable store -> threads_ok (messages store).
Proof. intros Hreach. apply (reachable_box_inv store Hreach). Qed.

(** The answer of u2 is in the thread "m1" that the message of u1 opened. *)
Lemma threads_witness :
  ∃ reply, messages box2 !! "m2" = Some reply ∧
           parentMessage reply = Some "m1" ∧ threadId reply = Some "m1".
Proof.
  pose proof (threads_of_a_reachable_box box2 reachable_box2) as Hok.
  eexists. split; [reflexivity|]. split; [reflexivity|].
  destruct (Hok "m2" _ eq_refl) as (_ & _ & Hparent & _).
  destruct (Hparent "m1" eq_refl) as (parent & Hp & ->).
  injection Hp as <-. reflexivity.
Defined.

(** In every message box that the routes produce, no user is twice in
    [deletedBy], only the sender and the recipient are in it, [isDeleted]
    is set exactly when both of them, being two users, have deleted the
    message, and [readAt] is set exactly when [isRead] is. *)
Lemma flags_of_a_reachable_box (store : Box) (id : ObjectId) (d : Doc) :
  reachable store -> store !! id = Some d -> flags_ok d.
Proof. intros Hreach. apply (reachable_box_inv store Hreach). Qed.

(** After u1 has deleted the message m1, and after u2 has, too. *)
Lemma flags_witness :
  let box3 := run 30 box2 (Delete u1 "m1") in
  let box4 := run 40 box3 (Delete u2 "m1") in
  (∃ d, box3 !! "m1" = Some d ∧ isDeleted d = false ∧ flags_ok d) ∧
  (∃ d, box4 !! "m1" = Some d ∧ isDeleted d = true ∧ flags_ok d).
Proof.
  intros box3 box4.
  assert (H3 : reachable box3) by (by apply reachable_run; [apply reachable_box2|]).
  assert (H4 : reachable box4) by (by apply reachable_run).
  split; eexists; (split; [reflexivity|]); (split; [reflexivity|]).
  - by apply (flags_of_a_reachable_box box3 "m1").
  - by apply (flags_of_a_reachable_box box4 "m1").
Defined.

Lemma find_elem_of (query : Doc → bool) (store : Box) (j : ObjectId) (x : Doc) :
  (j, x) ∈ find query store ↔ store !! j = Some x ∧ query x = true.
Proof.
  unfold find. rewrite list_elem_of_In, filter_In, <- list_elem_of_In.
  by rewrite elem_of_map_to_list.
Qed.

Lemma cursor_find (query : Doc → bool) (R : relation (ObjectId * Doc))
    `{!RelDecision R} (store : Box) (skip limit : Z)
    (page : list (ObjectId * Doc)) (j : ObjectId) (x : Doc) :
  Pagination.cursor skip limit (merge_sort R (find query store)) = Some page ->
  (j, x) ∈ page -> store !! j = Some x ∧ query x = true.
Proof.
  intros Hcur Hin. apply (cursor_subseteq _ _ _ _ Hcur) in Hin.
  rewrite merge_sort_Permutation in Hin. by apply find_elem_of.
Qed.

(** What is shown to a user is stored, is a message of or to the user, and
    is not deleted by the user. *)
Lemma shown_to_stored (store : Box) (u : ObjectId) (j : ObjectId) (x : Doc) :
  shown_to store u (j, x) ->
  store !! j = Some x ∧
  (sender (msg x) = u ∨ recipient (msg x) = u) ∧
  deleted_for u x = false.
Proof.
  intros [(l & s & b & page & Hp & Hin) | [(l & s & page & Hp & Hin)
    | [(l & s & page & Hp & Hin) | (t & Hin)]]].
  - apply (cursor_find _ _ _ _ _ _ _ _ Hp) in Hin as [Hx Hq].
    split; [done|]. unfold inbox_query in Hq.
    apply andb_prop in Hq as [Hq _]. apply andb_prop in Hq as [Hq Hdel].
    apply andb_prop in Hq as [Hq _]. apply String.eqb_eq in Hq.
    split; [by right|]. by apply negb_true_iff.
  - apply (cursor_find _ _ _ _ _ _ _ _ Hp) in Hin as [Hx Hq].
    split; [done|]. unfold sent_query in Hq.
    apply andb_prop in Hq as [Hq Hdel]. apply String.eqb_eq in Hq.
    split; [by left|]. by apply negb_true_iff.
  - apply (cursor_find _ _ _ _ _ _ _ _ Hp) in Hin as [Hx Hq].
    split; [done|]. unfold starred_query in Hq.
    apply andb_prop in Hq as [Hq Hdel]. apply andb_prop in Hq as [Hq _].
    split; [|by apply negb_true_iff].
    apply orb_prop in Hq as [Hq|Hq]; apply String.eqb_eq in Hq; auto.
  - unfold getThread in Hin. rewrite merge_sort_Permutation in Hin.
    apply find_elem_of in Hin as [Hx Hq].
    split; [done|]. unfold thread_query in Hq.
    apply andb_prop in Hq as [Hq Hdel]. apply andb_prop in Hq as [_ Hq].
    split; [|by apply negb_true_iff].
    apply orb_prop in Hq as [Hq|Hq]; apply String.eqb_eq in Hq; auto.
Qed.

(** [deleteMessage] by the sender or the recipient answers 200 and keeps
    the document, with the message unchanged; from then on the message is
    gone for that user: [getMessage] answers 404 and no page of the inbox,
    the sent or the starred messages and no thread shows it.  For every
    other user the filters of the lists select it as before, and no other
    document changes.  A user who is neither sender nor recipient gets
    403 and changes nothing. *)
Lemma deleteMessage_hides_for_the_deleter_only
    (now later : Date) (store : Box) (user : User) (id : ObjectId) (d : Doc) :
  reachable store ->
  store !! id = Some d ->
  let d' := add_deleted now (user_id user) d in
  let store' := <[id := d']> store in
  (stranger user d = true →
   deleteMessage now store user id = (Failure 403 "Access denied", store)) ∧
  (stranger user d = false →
   deleteMessage now store user id = (Success 200 "Message deleted", store') ∧
   msg d' = msg d ∧
   getMessage later store' user id
   = (Failure 404 "Message not found", store') ∧
   (∀ x, shown_to store' (user_id user) x → fst x ≠ id) ∧
   (∀ v unreadOnly thread, v ≠ user_id user →
      inbox_query v unreadOnly d' = inbox_query v unreadOnly d ∧
      sent_query v d' = sent_query v d ∧
      starred_query v d' = starred_query v d ∧
      thread_query thread v d' = thread_query thread v d ∧
      unread_query v d' = unread_query v d) ∧
   (∀ j, j ≠ id → store' !! j = store !! j)).
Proof.
  intros Hreach Hd d' store'.
  pose proof (reachable_box_inv store Hreach) as Hinv.
  assert (Hself : deleted_for (user_id user) d' = true).
  { unfold d'. rewrite deleted_for_add_deleted, String.eqb_refl.
    apply orb_true_r. }
  split.
  - intros Hstr. unfold deleteMessage. by rewrite Hd, Hstr.
  - intros Hstr.
    destruct (deleteMessage_cases now store user id Hinv)
      as [(st & e & _ & [[_ Hnone] | [_ (x & Hx & Hstr')]])
         | (x & Hx & _ & E)]; [congruence|congruence|].
    assert (x = d) as -> by congruence.
    split; [exact E|]. split; [done|]. split; [|split; [|split]].
    + unfold getMessage, store'. rewrite lookup_insert_eq.
      change (stranger user d') with (stranger user d).
      by rewrite Hstr, Hself.
    + intros [j x] Hshown Hj. cbn in Hj. subst j.
      apply shown_to_stored in Hshown as (Hx' & _ & Hdel).
      unfold store' in Hx'. rewrite lookup_insert_eq in Hx'.
      injection Hx' as <-. congruence.
    + intros v unreadOnly thread Hv.
      assert (Hsame : deleted_for v d' = deleted_for v d).
      { unfold d'. rewrite deleted_for_add_deleted.
        destruct (String.eqb_spec v (user_id user)); [done|].
        apply orb_false_r. }
      unfold inbox_query, sent_query, starred_query, thread_query,
        unread_query.
      by rewrite Hsame.
    + intros j Hj. unfold store'. by rewrite lookup_insert_ne.
Qed.

(** User u1 deletes the message m1: it is gone for u1 and still in the
    inbox of u2; the user u3 may not delete it. *)
Lemma deleteMessage_witness :
  let store' := (deleteMessage 30 box2 u1 "m1").2 in
  (deleteMessage 30 box2 u1 "m1").1 = Success 200 "Message deleted" ∧
  getMessage 40 store' u1 "m1" = (Failure 404 "Message not found", store') ∧
  (∃ page, getInbox store' "u2" None None false = Some page ∧
           map fst page = ["m1"]) ∧
  deleteMessage 30 box2 u3 "m1" = (Failure 403 "Access denied", box2).
Proof.
  intros store'.
  destruct (deleteMessage_hides_for_the_deleter_only 30 40 box2 u1 "m1" _
              reachable_box2 box2_m1) as [_ Hown].
  destruct (Hown eq_refl) as (E & _ & Hget & _).
  destruct (deleteMessage_hides_for_the_deleter_only 30 40 box2 u3 "m1" _
              reachable_box2 box2_m1) as [Hother _].
  subst store'. rewrite E. cbn [fst snd].
  split; [done|]. split; [exact Hget|]. split; [|exact (Hother eq_refl)].
  eexists. split; reflexivity.
Defined.

(** The read mark.  Opening a message with [getMessage] marks nothing:
    the call writes nothing, and the sender or the recipient who has not
    deleted the message is shown the stored document, read or unread
    ([markAsRead] is called there on a document whose recipient is
    populated, and its comparison fails).  The mark comes from
    [PUT /:id/read]: for the recipient it answers 200 and leaves the
    message read, with [readAt] the time of the first marking, and a later
    marking writes nothing; everybody else gets 403. *)
Lemma read_mark_is_the_first_marking
    (now later : Date) (store : Box) (user : User) (id : ObjectId) (d : Doc) :
  reachable store ->
  store !! id = Some d ->
  ((getMessage now store user id).2 = store ∧
   (stranger user d = false → deleted_for (user_id user) d = false →
    getMessage now store user id = (Success 200 d, store))) ∧
  (user_id user = recipient (msg d) →
   let store' := (markAsRead_route now store user id).2 in
   (markAsRead_route now store user id).1
   = Success 200 "Message marked as read" ∧
   (∃ d', store' !! id = Some d' ∧ msg d' = msg d ∧ isRead d' = true ∧
          readAt d' = (if isRead d then readAt d else Some now)) ∧
   markAsRead_route later store' user id
   = (Success 200 "Message marked as read", store')) ∧
  (user_id user ≠ recipient (msg d) →
   markAsRead_route now store user id = (Failure 403 "Access denied", store)).
Proof.
  intros Hreach Hd.
  pose proof (reachable_box_inv store Hreach) as Hinv.
  split; [|split].
  - split; [apply getMessage_reads_only|]. by apply getMessage_participant.
  - intros Hu store'. subst store'.
    rewrite (markAsRead_route_recipient now store user id d Hinv Hd Hu).
    cbn [fst snd]. split; [done|].
    destruct (isRead d) eqn:Hr.
    + split; [by exists d|].
      rewrite (markAsRead_route_recipient later store user id d Hinv Hd Hu).
      by rewrite Hr.
    + split; [exists (set_read now d); by rewrite lookup_insert_eq|].
      assert (Hinv' : box_inv (<[id := set_read now d]> store)).
      { apply (box_inv_update _ _ d); try done.
        apply flags_ok_set_read. by apply (proj2 Hinv id). }
      by rewrite (markAsRead_route_recipient later _ user id (set_read now d)
                    Hinv' (lookup_insert_eq _ _ _) Hu).
  - intros Hr. unfold markAsRead_route. rewrite Hd.
    destruct (String.eqb_spec (recipient (msg d)) (user_id user)); [|done].
    congruence.
Qed.

(** User u2 opens the message m1, which stays unread, marks it as read at
    time 30 and marks it again at time 40. *)
Lemma read_mark_witness :
  let store' := (markAsRead_route 30 box2 u2 "m1").2 in
  getMessage 30 box2 u2 "m1"
  = (Success 200 (fresh 10 (with_threadId note "m1")), box2) ∧
  (∃ d', store' !! "m1" = Some d' ∧ isRead d' = true ∧ readAt d' = Some 30) ∧
  markAsRead_route 40 store' u2 "m1"
  = (Success 200 "Message marked as read", store').
Proof.
  intros store'.
  destruct (read_mark_is_the_first_marking 30 40 box2 u2 "m1" _
              reachable_box2 box2_m1) as ([_ Hopen] & Hrecipient & _).
  destruct (Hrecipient eq_refl) as (_ & (d' & Hd' & _ & Hread & Hat) & Hagain).
  split; [|split; [|exact Hagain]].
  - exact (Hopen eq_refl eq_refl).
  - exists d'. by repeat split.
Defined.

(** No call removes or edits a message or takes a flag back: after any
    call the document is still stored, with the same message and creation
    time; a read message is still read, with the same [readAt]; an
    archived message is still archived; a message deleted by a user or
    marked [isDeleted] still is. *)
Lemma flags_are_never_taken_back
    (now : Date) (store : Box) (op : Op) (id : ObjectId) (d : Doc) :
  reachable store ->
  allowed store op ->
  store !! id = Some d ->
  ∃ d', run now store op !! id = Some d' ∧
        msg d' = msg d ∧ createdAt d' = createdAt d ∧
        (isRead d = true → isRead d' = true ∧ readAt d' = readAt d) ∧
        (isArchived d = true → isArchived d' = true) ∧
        (isDeleted d = true → isDeleted d' = true) ∧
        (∀ v, deleted_for v d = true → deleted_for v d' = true).
Proof.
  intros Hreach Hallowed Hd.
  pose proof (reachable_box_inv store Hreach) as Hinv.
  assert (Hsame : ∀ st : Box, st = store →
            ∃ d', st !! id = Some d' ∧
              msg d' = msg d ∧ createdAt d' = createdAt d ∧
              (isRead d = true → isRead d' = true ∧ readAt d' = readAt d) ∧
              (isArchived d = true → isArchived d' = true) ∧
              (isDeleted d = true → isDeleted d' = true) ∧
              (∀ v, deleted_for v d = true → deleted_for v d' = true)).
  { intros st ->. exists d. by repeat split. }
  assert (Hnew : ∀ (j : ObjectId) (x : Doc), store !! j = None →
            ∃ d', <[j := x]> store !! id = Some d' ∧
              msg d' = msg d ∧ createdAt d' = createdAt d ∧
              (isRead d = true → isRead d' = true ∧ readAt d' = readAt d) ∧
              (isArchived d = true → isArchived d' = true) ∧
              (isDeleted d = true → isDeleted d' = true) ∧
              (∀ v, deleted_for v d = true → deleted_for v d' = true)).
  { intros j x Hj. exists d. rewrite lookup_insert_ne by congruence.
    by repeat split. }
  assert (Hupd : ∀ (j : ObjectId) (x x' : Doc), store !! j = Some x →
            msg x' = msg x → createdAt x' = createdAt x →
            (isRead x = true → isRead x' = true ∧ readAt x' = readAt x) →
            (isArchived x = true → isArchived x' = true) →
            (isDeleted x = true → isDeleted x' = true) →
            (∀ v, deleted_for v x = true → deleted_for v x' = true) →
            ∃ d', <[j := x']> store !! id = Some d' ∧
              msg d' = msg d ∧ createdAt d' = createdAt d ∧
              (isRead d = true → isRead d' = true ∧ readAt d' = readAt d) ∧
              (isArchived d = true → isArchived d' = true) ∧
              (isDeleted d = true → isDeleted d' = true) ∧
              (∀ v, deleted_for v d = true → deleted_for v d' = true)).
  { intros j x x' Hx H1 H2 H3 H4 H5 H6.
    destruct (decide (j = id)) as [->|Hj].
    - assert (x = d) as -> by congruence.
      exists x'. by rewrite lookup_insert_eq.
    - exists d. rewrite lookup_insert_ne by done. by repeat split. }
  destruct op as [j m|user j body priority newId
    |user j|user j|user j|user j|user j]; cbn [run allowed] in *.
  - destruct Hallowed as (Hj & _ & _). unfold create.
    destruct (Message.create _ _ _).1; cbn [snd]; [by apply Hnew|by apply Hsame].
  - destruct Hallowed as (Hj & _). unfold replyMessage.
    destruct (Message.replyMessage _ _ _ _ _ _).1; cbn [snd];
      [by apply Hnew|by apply Hsame].
  - apply Hsame, getMessage_reads_only.
  - destruct (markAsRead_route_cases now store user j Hinv)
      as [E | (x & Hx & _ & Hunread & ->)]; [by apply Hsame|].
    cbn [snd]. apply (Hupd j x); try done. cbn. congruence.
  - destruct (toggleStar_route_cases store user j Hinv)
      as [(? & ? & -> & _) | (x & Hx & _ & ->)]; [by apply Hsame|].
    cbn [snd]. by apply (Hupd j x).
  - destruct (archiveMessage_cases store user j Hinv)
      as [(? & ? & -> & _) | (x & Hx & _ & ->)]; [by apply Hsame|].
    cbn [snd]. by apply (Hupd j x).
  - destruct (deleteMessage_cases now store user j Hinv)
      as [(? & ? & -> & _) | (x & Hx & _ & ->)]; [by apply Hsame|].
    cbn [snd]. apply (Hupd j x); try done.
    + unfold add_deleted. cbn [isDeleted]. intros ->. by destruct (2 <=? _)%nat.
    + intros v Hv. by rewrite deleted_for_add_deleted, Hv.
Qed.

(** The message m1, marked as read by u2 at time 30, after u2 has opened
    it again and u1 has put a star on it. *)
Lemma flags_never_back_witness :
  let box3 := run 30 box2 (MarkRead u2 "m1") in
  let box4 := run 35 box3 (Get u2 "m1") in
  ∃ d, box3 !! "m1" = Some d ∧ readAt d = Some 30 ∧
  ∃ d', run 40 box4 (Star u1 "m1") !! "m1" = Some d' ∧
        isStarred d' = true ∧ isRead d' = true ∧ readAt d' = Some 30.
Proof.
  intros box3 box4. eexists. split; [reflexivity|]. split; [reflexivity|].
  assert (H3 : reachable box3) by (by apply reachable_run; [apply reachable_box2|]).
  assert (H4 : reachable box4) by (by apply reachable_run).
  destruct (flags_are_never_taken_back 40 box4 (Star u1 "m1") "m1" _ H4 I eq_refl)
    as (d' & Hd' & _ & _ & Hread & _).
  exists d'. split; [exact Hd'|].
  destruct (Hread eq_refl) as [Hr Hat].
  split; [|split; [exact Hr|exact Hat]].
  revert Hd'. clear. intros Hd'.
  assert (E : run 40 box4 (Star u1 "m1") !! "m1"
              = Some (flip_star (set_read 30 (fresh 10 (with_threadId note "m1")))))
    by reflexivity.
  rewrite E in Hd'. by injection Hd' as <-.
Defined.

(** The star is one flag of the message, not of a user: [toggleStar] by
    the sender or the recipient flips it, so that the message enters or
    leaves the starred messages of both of them (of each who has not
    deleted it); the same call again restores the collection. *)
Lemma star_is_shared (store : Box) (user : User) (id : ObjectId) (d : Doc) :
  reachable store ->
  store !! id = Some d ->
  stranger user d = false ->
  let store' := <[id := flip_star d]> store in
  toggleStar_route store user id
  = (Success 200 (negb (isStarred d)), store') ∧
  (∀ v, v = sender (msg d) ∨ v = recipient (msg d) →
        deleted_for v d = false →
        starred_query v (flip_star d) = negb (isStarred d)) ∧
  toggleStar_route store' user id = (Success 200 (isStarred d), store).
Proof.
  intros Hreach Hd Hstr store'.
  pose proof (reachable_box_inv store Hreach) as Hinv.
  assert (Hcase : ∀ (st : Box) (x : Doc), box_inv st → st !! id = Some x →
            stranger user x = false →
            toggleStar_route st user id
            = (Success 200 (negb (isStarred x)), <[id := flip_star x]> st)).
  { intros st x Hst Hx Hsx.
    destruct (toggleStar_route_cases st user id Hst)
      as [(? & ? & _ & [[_ Hnone] | [_ (y & Hy & Hstr')]])
         | (y & Hy & _ & E)]; [congruence|congruence|].
    by assert (y = x) as -> by congruence. }
  split; [by apply Hcase|]. split.
  - intros v Hv Hdel. unfold starred_query.
    change (deleted_for v (flip_star d)) with (deleted_for v d).
    rewrite Hdel. cbn [msg flip_star isStarred].
    destruct Hv as [-> | ->]; rewrite String.eqb_refl, ?orb_true_r; cbn;
      by rewrite andb_true_r.
  - assert (Hinv' : box_inv store').
    { apply (box_inv_update _ _ d); try done.
      apply flags_ok_flip_star. by apply (proj2 Hinv id). }
    rewrite (Hcase store' (flip_star d) Hinv');
      [|apply lookup_insert_eq|done].
    cbn [isStarred flip_star]. rewrite Bool.negb_involutive. f_equal.
    unfold store'. rewrite insert_insert_eq.
    apply insert_id. rewrite Hd. f_equal. destruct d. unfold flip_star. cbn.
    by rewrite Bool.negb_involutive.
Qed.

(** User u1 stars the message m1: it is among the starred messages of u2. *)
Lemma star_witness :
  let store' := (toggleStar_route box2 u1 "m1").2 in
  (toggleStar_route box2 u1 "m1").1 = Success 200 true ∧
  (∃ page, getStarred store' "u2" None None = Some page ∧
           map fst page = ["m1"]) ∧
  (toggleStar_route store' u1 "m1").2 = box2.
Proof.
  intros store'.
  destruct (star_is_shared box2 u1 "m1" _ reachable_box2 box2_m1 eq_refl)
    as (E & _ & Hback).
  subst store'. rewrite E. cbn [fst snd].
  split; [done|]. split; [|by rewrite Hback].
  eexists. split; reflexivity.
Defined.

(** [archiveMessage] is for the recipient only (403 for everybody else).
    The archived message leaves the inbox and the unread count of the
    recipient; the filters of the sent and the starred messages and of the
    threads select it as before. *)
Lemma archive_leaves_the_inbox_only
    (store : Box) (user : User) (id : ObjectId) (d : Doc) :
  reachable store ->
  store !! id = Some d ->
  (recipient (msg d) ≠ user_id user →
   archiveMessage store user id = (Failure 403 "Access denied", store)) ∧
  (recipient (msg d) = user_id user →
   let store' := <[id := set_archived d]> store in
   archiveMessage store user id = (Success 200 "Message archived", store') ∧
   (∀ limit skip unreadOnly page,
      getInbox store' (user_id user) limit skip unreadOnly = Some page →
      id ∉ map fst page) ∧
   unread_query (user_id user) (set_archived d) = false ∧
   (∀ v thread,
      sent_query v (set_archived d) = sent_query v d ∧
      starred_query v (set_archived d) = starred_query v d ∧
      thread_query thread v (set_archived d) = thread_query thread v d)).
Proof.
  intros Hreach Hd.
  pose proof (reachable_box_inv store Hreach) as Hinv.
  destruct (archiveMessage_cases store user id Hinv)
    as [(? & ? & E & [[_ Hnone] | [-> (x & Hx & Hr)]])
       | (x & Hx & Hr & E)]; [congruence| |];
    assert (x = d) as -> by congruence.
  - split; [|congruence]. intros _. unfold archiveMessage in *.
    rewrite Hd in *.
    by destruct (String.eqb_spec (recipient (msg d)) (user_id user)).
  - split; [congruence|]. intros _ store'. split; [exact E|].
    split; [|split; [|done]].
    + intros limit skip unreadOnly page Hpage Hin.
      apply list_elem_of_In, in_map_iff in Hin as ([j x] & Hj & Hin).
      cbn in Hj. subst j. apply list_elem_of_In in Hin.
      apply (cursor_find _ _ _ _ _ _ _ _ Hpage) in Hin as [Hx' Hq].
      unfold store' in Hx'. rewrite lookup_insert_eq in Hx'.
      injection Hx' as <-. revert Hq. unfold inbox_query. cbn [isArchived set_archived].
      by rewrite andb_false_r.
    + unfold unread_query. cbn [isArchived set_archived].
      by rewrite andb_false_r.
Qed.

(** User u2 archives the message m1; user u1 may not. *)
Lemma archive_witness :
  let store' := (archiveMessage box2 u2 "m1").2 in
  (archiveMessage box2 u2 "m1").1 = Success 200 "Message archived" ∧
  getInbox store' "u2" None None false = Some [] ∧
  (∃ page, getSent store' "u1" None None = Some page ∧ map fst page = ["m1"]) ∧
  archiveMessage box2 u1 "m1" = (Failure 403 "Access denied", box2).
Proof.
  intros store'.
  destruct (archive_leaves_the_inbox_only box2 u2 "m1" _ reachable_box2 box2_m1)
    as [_ Hrecipient].
  destruct (Hrecipient eq_refl) as (E & _).
  destruct (archive_leaves_the_inbox_only box2 u1 "m1" _ reachable_box2 box2_m1)
    as [Hother _].
  subst store'. rewrite E. cbn [fst snd].
  split; [done|]. split; [reflexivity|]. split; [|by apply Hother].
  eexists. split; reflexivity.
Defined.

#[local] Instance oldest_first_total : Total oldest_first.
Proof. intros a b. unfold oldest_first. lia. Qed.

(** The inbox page: every listed message is stored, is to the user, is
    neither archived nor deleted by the user, and is unread when the
    request says [unreadOnly=true].  The total of the envelope counts the
    inbox without the [unreadOnly] condition, whatever the request says.
    Without a [limit] parameter a page has at most 20 messages, and with
    [limit=0] at most 50. *)
Lemma getInbox_route_page_and_total
    (store : Box) (user : User) (page limit : Pagination.QueryInt)
    (unreadOnly : option string) (msgs : list (ObjectId * Doc))
    (e : Pagination.t) :
  getInbox_route store user page limit unreadOnly = Success 200 (msgs, e) ->
  (∀ j d, (j, d) ∈ msgs →
     store !! j = Some d ∧ recipient (msg d) = user_id user ∧
     isArchived d = false ∧ deleted_for (user_id user) d = false ∧
     (unreadOnly = Some "true" → isRead d = false)) ∧
  Pagination.total e
  = length (find (inbox_query (user_id user) false) store) ∧
  (limit = None → (length msgs <= 20)%nat) ∧
  (limit = Some 0 → (length msgs <= 50)%nat).
Proof.
  unfold getInbox_route, getInbox.
  destruct (Pagination.cursor _ _ _) as [pg|] eqn:Hcur; [|discriminate].
  intros [= <- <-]. split; [|split; [done|]].
  - intros j d Hin.
    apply (cursor_find _ _ _ _ _ _ _ _ Hcur) in Hin as [Hd Hq].
    unfold inbox_query in Hq.
    apply andb_prop in Hq as [Hq Hunread]. apply andb_prop in Hq as [Hq Hdel].
    apply andb_prop in Hq as [Hto Harch].
    apply String.eqb_eq in Hto. apply negb_true_iff in Harch, Hdel.
    repeat split; try done.
    intros ->. unfold NoticesController.is_true_string in Hunread.
    rewrite bool_decide_eq_true_2 in Hunread by done.
    by apply negb_true_iff.
  - split; intros ->; revert Hcur;
      unfold Pagination.cursor, limit_or_50, Pagination.default;
      cbn [Z.eqb]; destruct (_ <? 0); try discriminate;
      intros [= <-]; rewrite length_take; lia.
Qed.

(** User u2 asks for the unread messages of the inbox. *)
Lemma getInbox_route_witness :
  ∃ msgs e,
    getInbox_route box2 u2 None None (Some "true") = Success 200 (msgs, e) ∧
    map fst msgs = ["m1"] ∧ Pagination.total e = 1%nat.
Proof.
  destruct (getInbox_route box2 u2 None None (Some "true"))
    as [status [msgs e]|status message] eqn:E; [|by vm_compute in E].
  assert (status = 200%nat) as -> by (vm_compute in E; congruence).
  exists msgs, e. split; [done|].
  destruct (getInbox_route_page_and_total _ _ _ _ _ _ _ E) as (_ & -> & _).
  split; [|reflexivity].
  revert E. unfold getInbox_route. cbn -[getInbox]. intros [= <- _].
  reflexivity.
Defined.

(** [getThread] answers 404 'Thread not found' exactly when no stored
    message of the thread is of or to the user and not deleted by the user:
    a thread of other users looks like a thread that does not exist.
    Otherwise it lists exactly those messages, the oldest first. *)
Lemma getThread_route_shows_the_own_messages
    (store : Box) (user : User) (thread : string) :
  (getThread_route store user thread = Failure 404 "Thread not found" ↔
   ∀ j d, store !! j = Some d →
          thread_query thread (user_id user) d = false) ∧
  (∀ msgs,
     getThread_route store user thread = Success 200 msgs →
     Sorted oldest_first msgs ∧
     ∀ j d, (j, d) ∈ msgs ↔
            store !! j = Some d ∧ threadId (msg d) = Some thread ∧
            (sender (msg d) = user_id user ∨
             recipient (msg d) = user_id user) ∧
            deleted_for (user_id user) d = false).
Proof.
  unfold getThread_route, getThread.
  set (found := find (thread_query thread (user_id user)) store).
  pose proof (merge_sort_Permutation oldest_first found) as Hperm.
  split.
  - destruct (merge_sort oldest_first found) as [|x l] eqn:Hs; cbn.
    + split; [intros _|done]. apply Permutation_nil in Hperm.
      intros j d Hd. destruct (thread_query _ _ d) eqn:Hq; [|done].
      assert (Hin : (j, d) ∈ found) by (by apply find_elem_of).
      rewrite Hperm in Hin. by apply elem_of_nil in Hin.
    + split; [discriminate|]. intros Hnone. exfalso.
      assert (Hin : x ∈ found) by (rewrite <- Hperm; left).
      destruct x as [j d]. apply find_elem_of in Hin as [Hd Hq].
      rewrite (Hnone j d Hd) in Hq. discriminate.
  - intros msgs.
    destruct (length _ =? 0)%nat; [discriminate|]. intros [= <-].
    split; [apply Sorted_merge_sort, _|].
    intros j d. rewrite Hperm. unfold found. rewrite find_elem_of.
    unfold thread_query. rewrite !andb_true_iff, orb_true_iff,
      bool_decide_eq_true, negb_true_iff, !String.eqb_eq.
    tauto.
Qed.

(** An unread message of the inbox is marked by its recipient. *)
Lemma markAsRead_route_unread (now : Date) (store : Box) (user : User)
    (id : ObjectId) (d : Doc) :
  box_inv store -> store !! id = Some d ->
  unread_query (user_id user) d = true ->
  markAsRead_route now store user id
  = (Success 200 "Message marked as read", <[id := set_read now d]> store).
Proof.
  intros Hinv Hd Hq. unfold unread_query in Hq.
  apply andb_prop in Hq as [Hq Hdel]. apply andb_prop in Hq as [Hq Harch].
  apply andb_prop in Hq as [Hto Hread].
  apply String.eqb_eq in Hto. apply negb_true_iff in Hread.
  rewrite (markAsRead_route_recipient now store user id d Hinv Hd) by done.
  by rewrite Hread.
Qed.

Lemma filter_length_Permutation {A : Type} (f : A → bool) (l l' : list A) :
  l ≡ₚ l' -> length (List.filter f l) = length (List.filter f l').
Proof.
  induction 1 as [|x l l' _ IH|x y l|l l' l'' _ IH1 _ IH2]; cbn.
  - done.
  - destruct (f x); cbn; by rewrite IH.
  - by destruct (f x), (f y).
  - by rewrite IH1.
Qed.

(** The count of a filter when one document is written back. *)
Lemma find_length_update (query : Doc → bool) (store : Box) (id : ObjectId)
    (d d' : Doc) :
  store !! id = Some d ->
  (length (find query (<[id := d']> store)) + (if query d then 1 else 0)
   = length (find query store) + (if query d' then 1 else 0))%nat.
Proof.
  intros Hd. unfold find.
  rewrite <- (filter_length_Permutation _ _ _ (map_to_list_delete store id d Hd)).
  rewrite <- (insert_delete_eq store).
  rewrite (filter_length_Permutation _ _ _
             (map_to_list_insert (delete id store) id d'
                (lookup_delete_eq store id))).
  cbn. destruct (query d), (query d'); cbn; lia.
Qed.

(** The unread count is the number of messages that the inbox lists with
    [unreadOnly=true].  When the recipient marks an unread message of the
    inbox as read ([PUT /:id/read]), the count of the recipient drops by
    one and the count of every other user stays.  Opening the message with
    [getMessage] leaves every count as it is. *)
Lemma unread_count_drops_by_one
    (now : Date) (store : Box) (user : User) (id : ObjectId) (d : Doc) :
  reachable store ->
  store !! id = Some d ->
  unread_query (user_id user) d = true ->
  let store' := (markAsRead_route now store user id).2 in
  countUnread store (user_id user)
  = length (find (inbox_query (user_id user) true) store) ∧
  (countUnread store' (user_id user) + 1)%nat = countUnread store (user_id user) ∧
  (∀ v, v ≠ user_id user → countUnread store' v = countUnread store v) ∧
  (∀ v, countUnread (getMessage now store user id).2 v = countUnread store v).
Proof.
  intros Hreach Hd Hq store'.
  pose proof (reachable_box_inv store Hreach) as Hinv.
  subst store'. rewrite (markAsRead_route_unread now store user id d Hinv Hd Hq).
  cbn [snd]. unfold countUnread. split; [|split; [|split]].
  - unfold find. f_equal. apply filter_ext. intros [j x]. cbn.
    unfold unread_query, inbox_query.
    destruct (String.eqb _ _), (isRead x), (isArchived x), (deleted_for _ x);
      done.
  - pose proof (find_length_update (unread_query (user_id user)) store id d
                  (set_read now d) Hd) as Hlen.
    rewrite Hq in Hlen.
    assert (Hread : unread_query (user_id user) (set_read now d) = false).
    { unfold unread_query. cbn [isRead set_read].
      by rewrite andb_false_r. }
    rewrite Hread in Hlen. lia.
  - intros v Hv.
    pose proof (find_length_update (unread_query v) store id d
                  (set_read now d) Hd) as Hlen.
    assert (Hto : String.eqb (recipient (msg d)) v = false).
    { unfold unread_query in Hq.
      apply andb_prop in Hq as [Hq _]. apply andb_prop in Hq as [Hq _].
      apply andb_prop in Hq as [Hq _]. apply String.eqb_eq in Hq.
      destruct (String.eqb_spec (recipient (msg d)) v); [congruence|done]. }
    assert (Hd0 : unread_query v d = false)
      by (unfold unread_query; by rewrite Hto).
    assert (Hd1 : unread_query v (set_read now d) = false)
      by (unfold unread_query; cbn [msg set_read]; by rewrite Hto).
    rewrite Hd0, Hd1 in Hlen. lia.
  - intros v. by rewrite (proj1 (getMessage_reads_only now store user id)).
Qed.

(** User u2 has one unread message, still one after opening it, and none
    after marking it as read. *)
Lemma unread_count_witness :
  countUnread box2 "u2" = 1%nat ∧
  countUnread (getMessage 30 box2 u2 "m1").2 "u2" = 1%nat ∧
  countUnread (markAsRead_route 30 box2 u2 "m1").2 "u2" = 0%nat.
Proof.
  destruct (unread_count_drops_by_one 30 box2 u2 "m1" _ reachable_box2 box2_m1
              eq_refl) as (_ & Hdrop & _ & Hopen).
  assert (E : countUnread box2 "u2" = 1%nat) by reflexivity.
  split; [exact E|]. split; [by rewrite Hopen|].
  change (user_id u2) with "u2" in Hdrop.
  rewrite E in Hdrop. lia.
Defined.

End MailboxFacts.

(** ** FeePayment: receipt numbers count up within a month *)

Section StringOrder.

Lemma ascii_compare_refl (c : ascii) : Ascii.compare c c = Eq.
Proof. unfold Ascii.compare. apply N.compare_refl. Qed.

Lemma compare_append (p a b : string) :
  String.compare (p +:+ a) (p +:+ b) = String.compare a b.
Proof.
  induction p as [|c p IH]; [done|].
  simpl. by rewrite ascii_compare_refl.
Qed.

Lemma prefix_append (p a : string) : String.prefix p (p +:+ a) = true.
Proof.
  induction p as [|c p IH]; [by destruct a|]. simpl.
  destruct (ascii_dec c c); [exact IH|done].
Qed.

Lemma append_inj (p a b : string) : p +:+ a = p +:+ b -> a = b.
Proof. induction p as [|c p IH]; [done|]. simpl. intros [= H]. by apply IH. Qed.

Lemma length_append (p a : string) :
  String.length (p +:+ a) = (String.length p + String.length a)%nat.
Proof. induction p as [|c p IH]; [done|]. simpl. by rewrite IH. Qed.

Lemma substring_all (a : string) : String.substring 0 (String.length a) a = a.
Proof. induction a as [|c a IH]; [done|]. simpl. by rewrite IH. Qed.

Lemma substring_append (p a : string) (n : nat) :
  String.substring (String.length p) n (p +:+ a) = String.substring 0 n a.
Proof. induction p as [|c p IH]; [done|]. simpl. apply IH. Qed.

Lemma compare_lt_trans (a b c : string) :
  String.compare a b = Lt -> String.compare b c = Lt -> String.compare a c = Lt.
Proof.
  intros Hab Hbc. apply String_as_OT.cmp_lt.
  eapply String_as_OT.lt_trans; by apply String_as_OT.cmp_lt.
Qed.

Lemma leb_iff (a b : string) :
  String.leb a b = true ↔ String.compare a b = Lt ∨ a = b.
Proof.
  unfold String.leb. split.
  - destruct (String.compare a b) eqn:E; [|by left|done].
    intros _. right. by apply String.compare_eq_iff.
  - intros [-> | ->]; [done|].
    destruct (String.compare b b) eqn:E; [done|done|].
    pose proof (String.compare_antisym b b) as H. rewrite E in H. done.
Qed.

#[local] Instance descending_total : Total ReceiptNumber.descending.
Proof.
  intros a b. unfold ReceiptNumber.descending.
  destruct (String.leb_total a b); auto.
Qed.

#[local] Instance descending_trans : Transitive ReceiptNumber.descending.
Proof.
  intros c b a. unfold ReceiptNumber.descending. rewrite !leb_iff.
  intros [Hbc | ->] [Hab | ->]; auto.
  left. by eapply compare_lt_trans.
Qed.

(** The first of the documents sorted downwards is one of them and is
    below none. *)
Lemma head_descending (l : list string) :
  match head (merge_sort ReceiptNumber.descending l) with
  | Some h => h ∈ l ∧ ∀ x, x ∈ l → String.leb x h = true
  | None => l = []
  end.
Proof.
  pose proof (merge_sort_Permutation ReceiptNumber.descending l) as Hperm.
  pose proof (StronglySorted_merge_sort ReceiptNumber.descending l) as Hsorted.
  destruct (merge_sort ReceiptNumber.descending l) as [|h t]; cbn.
  - by apply Permutation_nil.
  - split; [rewrite <- Hperm; left|].
    intros x Hx. rewrite <- Hperm in Hx.
    apply StronglySorted_inv in Hsorted as [_ Hall].
    apply elem_of_cons in Hx as [->|Hx].
    + apply leb_iff. by right.
    + rewrite Forall_forall in Hall. by apply Hall.
Qed.

End StringOrder.

Section ReceiptNumbers.

Import FeePayment JSString ReceiptNumber.

Lemma four_digit_table : forallb four_digit_check four_digits = true.
Proof. vm_compute. reflexivity. Qed.

Lemma four_digit_facts (k : Z) :
  0 <= k <= 9999 ->
  parseInt (sequence_part (Some k)) = Some k ∧
  String.length (sequence_part (Some k)) = 4%nat ∧
  (k < 9999 →
   String.compare (sequence_part (Some k)) (sequence_part (Some (k + 1))) = Lt).
Proof.
  intros Hk.
  assert (Hin : In k four_digits).
  { unfold four_digits. apply in_map_iff. exists (Z.to_nat k).
    split; [lia|]. apply in_seq. lia. }
  pose proof (proj1 (forallb_forall _ _) four_digit_table k Hin) as Hc.
  unfold four_digit_check in Hc.
  apply andb_prop in Hc as [Hc Hnext]. apply andb_prop in Hc as [Hparse Hlen].
  apply bool_decide_eq_true in Hparse. apply Nat.eqb_eq in Hlen.
  split; [done|]. split; [done|]. intros Hlt.
  apply orb_prop in Hnext as [Hlast|Hnext]; [apply Z.eqb_eq in Hlast; lia|].
  by destruct (String.compare _ _).
Qed.

(** Of two numbers of at most four digits, the smaller one has the smaller
    sequence part in the order of strings. *)
Lemma sequence_part_increasing (j k : Z) :
  0 <= j -> j < k -> k <= 9999 ->
  String.compare (sequence_part (Some j)) (sequence_part (Some k)) = Lt.
Proof.
  intros Hj Hjk Hk.
  assert (H : ∀ n : nat, j + 1 + Z.of_nat n <= 9999 →
            String.compare (sequence_part (Some j))
              (sequence_part (Some (j + 1 + Z.of_nat n))) = Lt).
  { induction n as [|n IH]; intros Hn.
    - rewrite Z.add_0_r. apply four_digit_facts; lia.
    - eapply compare_lt_trans; [apply IH; lia|].
      replace (j + 1 + Z.of_nat (S n)) with (j + 1 + Z.of_nat n + 1) by lia.
      apply four_digit_facts; lia. }
  replace k with (j + 1 + Z.of_nat (Z.to_nat (k - j - 1))) by lia.
  apply H. lia.
Qed.

Lemma slice_last_sequence_part (p : string) (k : Z) :
  0 <= k <= 9999 ->
  slice_last 4 (p +:+ sequence_part (Some k)) = sequence_part (Some k).
Proof.
  intros Hk. destruct (four_digit_facts k Hk) as (_ & Hlen & _).
  unfold slice_last. rewrite length_append, Hlen.
  replace (String.length p + 4 - 4)%nat with (String.length p) by lia.
  rewrite substring_append, <- Hlen. apply substring_all.
Qed.

(** The receipt numbers of the month among the stored ones. *)
Lemma elem_of_matching (prefix r : string) (payments : list FeePayment.t) :
  r ∈ List.filter (String.prefix prefix) (omap receiptNumber payments) ↔
  (∃ p, p ∈ payments ∧ receiptNumber p = Some r) ∧
  String.prefix prefix r = true.
Proof.
  rewrite list_elem_of_In, filter_In, <- list_elem_of_In.
  by rewrite list_elem_of_omap.
Qed.

(** While the receipt numbers of the month are ['RCP'], the year, the
    two-digit month and a four-digit number from 0001 to 9998, the hook
    generates the number after the greatest of them (0001 when there is
    none): it has the same form, is greater than all of them and is the
    receipt number of no stored payment; a payment saved without a receipt
    number gets it. *)
Lemma receipt_numbers_count_up
    (year month : nat) (payments : list FeePayment.t) :
  let prefix := receipt_prefix year month in
  (∀ p r, p ∈ payments → receiptNumber p = Some r →
          String.prefix prefix r = true →
          ∃ k, 1 <= k <= 9998 ∧ r = prefix +:+ sequence_part (Some k)) ->
  ∃ k, 1 <= k <= 9999 ∧
       generate year month payments = prefix +:+ sequence_part (Some k) ∧
       (k = 1 ∨ ∃ p, p ∈ payments ∧
                     receiptNumber p
                     = Some (prefix +:+ sequence_part (Some (k - 1)))) ∧
       (∀ p j, p ∈ payments → 1 <= j <= 9998 →
               receiptNumber p = Some (prefix +:+ sequence_part (Some j)) →
               j < k) ∧
       (∀ p, p ∈ payments →
             receiptNumber p ≠ Some (generate year month payments)) ∧
       (∀ now p p', truthy (receiptNumber p) = false →
                    save (generate year month payments) now p = Saved p' →
                    receiptNumber p'
                    = Some (prefix +:+ sequence_part (Some k))).
Proof.
  intros prefix Hform.
  set (matching := List.filter (String.prefix prefix)
                     (omap receiptNumber payments)).
  assert (Hbelow : ∃ k, 1 <= k <= 9999 ∧
            generate year month payments = prefix +:+ sequence_part (Some k) ∧
            (k = 1 ∨ ∃ p, p ∈ payments ∧
                          receiptNumber p
                          = Some (prefix +:+ sequence_part (Some (k - 1)))) ∧
            (∀ p j, p ∈ payments → 1 <= j <= 9998 →
                    receiptNumber p = Some (prefix +:+ sequence_part (Some j)) →
                    j < k)).
  { unfold generate, lastPayment. fold prefix. fold matching.
    pose proof (head_descending matching) as Hhead.
    destruct (head (merge_sort descending matching)) as [h|].
    - destruct Hhead as [Hin Hmax].
      apply elem_of_matching in Hin as [(p & Hp & Hr) Hpre].
      destruct (Hform p h Hp Hr Hpre) as (k & Hk & ->).
      rewrite slice_last_sequence_part by lia.
      destruct (four_digit_facts k) as (-> & _); [lia|]. cbn [fmap option_fmap option_map].
      exists (k + 1). split; [lia|]. split; [done|]. split.
      + right. exists p. split; [done|]. by replace (k + 1 - 1) with k by lia.
      + intros q j Hq Hj Hqr.
        assert (Hle : String.leb (prefix +:+ sequence_part (Some j))
                        (prefix +:+ sequence_part (Some k)) = true).
        { apply Hmax, elem_of_matching. split; [by exists q|].
          apply prefix_append. }
        destruct (Z.lt_ge_cases j (k + 1)) as [|Hge]; [done|].
        exfalso. apply leb_iff in Hle as [Hlt|Heq].
        * rewrite compare_append in Hlt.
          rewrite String.compare_antisym in Hlt.
          rewrite (sequence_part_increasing k j) in Hlt by lia.
          discriminate.
        * apply append_inj in Heq.
          destruct (four_digit_facts j) as (Hpj & _); [lia|].
          destruct (four_digit_facts k) as (Hpk & _); [lia|].
          rewrite Heq in Hpj. assert (j = k) by congruence. lia.
    - exists 1. split; [lia|]. split; [done|]. split; [by left|].
      intros q j Hq Hj Hqr. exfalso.
      assert (Hin : prefix +:+ sequence_part (Some j) ∈ matching).
      { apply elem_of_matching. split; [by exists q|]. apply prefix_append. }
      rewrite Hhead in Hin. by apply elem_of_nil in Hin. }
  destruct Hbelow as (k & Hk & Hgen & Hprev & Hgreater).
  exists k. split; [done|]. split; [done|]. split; [done|].
  split; [done|]. split.
  - intros p Hp Hr. rewrite Hgen in Hr.
    destruct (Hform p _ Hp Hr (prefix_append _ _)) as (j & Hj & Heq).
    apply append_inj in Heq.
    assert (j = k) as ->.
    { destruct (four_digit_facts j) as (Hpj & _); [lia|].
      destruct (four_digit_facts k) as (Hpk & _); [lia|].
      rewrite <- Heq in Hpj. congruence. }
    specialize (Hgreater p k Hp Hj Hr). lia.
  - intros now p p' Hnone. unfold save.
    destruct (validate p); [|discriminate]. intros [= <-].
    cbn [pre_save receiptNumber]. rewrite Hnone. by rewrite Hgen.
Qed.

(** The eighth receipt of January 2024. *)
Lemma receipt_numbers_witness :
  let p := {| student := "s1"; feeType := "f1"; month := None;
              dueAmount := 100; paidAmount := 100; lateFee := 0; discount := 0;
              totalAmount := 100; dueDate := None;
              receiptNumber := Some "RCP2024010007"; status := Paid |} in
  generate 2024 1 [p] = "RCP2024010008" ∧
  ∀ q, q ∈ [p] → receiptNumber q ≠ Some "RCP2024010008".
Proof.
  intros p.
  destruct (receipt_numbers_count_up 2024 1 [p])
    as (k & Hk & Hgen & Hprev & _ & Hfresh & _).
  { intros q r Hq. apply list_elem_of_singleton in Hq. subst q.
    intros [= <-] _. exists 7. split; [lia|reflexivity]. }
  assert (E : generate 2024 1 [p] = "RCP2024010008") by (vm_compute; reflexivity).
  split; [exact E|]. intros q Hq. rewrite <- E. by apply Hfresh.
Defined.

(** Once the number 9999 of a month is stored, the hook generates the
    five-digit number 10000, and generates it again when a payment with
    the number 10000 is stored: in the order of strings 10000 is below
    9999, which stays the greatest number of the month. *)
Lemma receipt_number_after_9999
    (year month : nat) (payments : list FeePayment.t) :
  let prefix := receipt_prefix year month in
  (∀ p r, p ∈ payments → receiptNumber p = Some r →
          String.prefix prefix r = true →
          (∃ k, 1 <= k <= 9999 ∧ r = prefix +:+ sequence_part (Some k)) ∨
          r = prefix +:+ "10000") ->
  (∃ p, p ∈ payments ∧ receiptNumber p = Some (prefix +:+ "9999")) ->
  generate year month payments = prefix +:+ "10000".
Proof.
  intros prefix Hform (p9 & Hp9 & Hr9).
  set (matching := List.filter (String.prefix prefix)
                     (omap receiptNumber payments)).
  assert (Hin9 : prefix +:+ "9999" ∈ matching).
  { apply elem_of_matching. split; [by exists p9|]. apply prefix_append. }
  unfold generate, lastPayment. fold prefix. fold matching.
  pose proof (head_descending matching) as Hhead.
  destruct (head (merge_sort descending matching)) as [h|];
    [|rewrite Hhead in Hin9; by apply elem_of_nil in Hin9].
  destruct Hhead as [Hin Hmax].
  apply Hmax in Hin9.
  apply elem_of_matching in Hin as [(p & Hp & Hr) Hpre].
  assert (h = prefix +:+ sequence_part (Some 9999)) as ->.
  { destruct (Hform p h Hp Hr Hpre) as [(k & Hk & ->) | ->].
    - destruct (Z.eq_dec k 9999) as [->|Hne]; [done|]. exfalso.
      apply leb_iff in Hin9 as [Hlt|Heq].
      + rewrite compare_append in Hlt.
        change "9999" with (sequence_part (Some 9999)) in Hlt.
        rewrite String.compare_antisym in Hlt.
        rewrite (sequence_part_increasing k 9999) in Hlt by lia.
        discriminate.
      + apply append_inj in Heq.
        destruct (four_digit_facts k) as (Hpk & _); [lia|].
        rewrite <- Heq in Hpk. vm_compute in Hpk. congruence.
    - exfalso. apply leb_iff in Hin9 as [Hlt|Heq].
      + rewrite compare_append in Hlt. vm_compute in Hlt. discriminate.
      + apply append_inj in Heq. discriminate. }
  rewrite slice_last_sequence_part by lia.
  destruct (four_digit_facts 9999) as (-> & _); [lia|].
  reflexivity.
Qed.

(** The payments 9999 and 10000 of January 2024 are stored. *)
Lemma receipt_number_after_9999_witness :
  let p := {| student := "s1"; feeType := "f1"; month := None;
              dueAmount := 100; paidAmount := 100; lateFee := 0; discount := 0;
              totalAmount := 100; dueDate := None;
              receiptNumber := Some "RCP2024019999"; status := Paid |} in
  let q := {| student := "s2"; feeType := "f1"; month := None;
              dueAmount := 100; paidAmount := 100; lateFee := 0; discount := 0;
              totalAmount := 100; dueDate := None;
              receiptNumber := Some "RCP20240110000"; status := Paid |} in
  generate 2024 1 [p; q] = "RCP20240110000".
Proof.
  intros p q.
  apply (receipt_number_after_9999 2024 1 [p; q]).
  - intros x r Hx.
    apply elem_of_cons in Hx as [->|Hx];
      [|apply list_elem_of_singleton in Hx; subst x].
    + intros [= <-] _. left. exists 9999. split; [lia|reflexivity].
    + intros [= <-] _. by right.
  - exists p. split; [left|reflexivity].
Defined.

End ReceiptNumbers.
